(** * Skin-concern fusion: a shallow embedding of the Python fusion code

    The development embeds the fusion stage of
    [Backend/AI_Comb_Models_Logicals.py] (the production path) and of
    [Backend/Test_Scripts/Combined_Predict.py] (the script variant):
    taxonomy mapping with max-aggregation, threshold tiering, skin-type
    selection, signal combination and the section merge; and, of
    [Backend/app.py], the two callers of that stage: the face analysis and
    the scoring of a product against a merged profile.

    Modelling conventions.
    - A Python [float] holding a probability is a rational [Q].  The
      production path only compares probabilities and selects among them;
      on finite floats those operations agree with the rationals the floats
      denote.  [combine_probs] also adds, multiplies and divides:
      [combine_probs] is its exact rational reading, and
      [combine_probs_rounded] writes out the rounding of every operation,
      for a rounding function that is a parameter.
    - A Python [dict] is insertion ordered, and the code iterates over
      [items()]; it is an association list in insertion order, updated in
      place when the key exists and extended at the end otherwise.
    - [list.sort(key=..., reverse=...)] is stable; it is a stable insertion
      sort on the key.
    - A function that can raise returns a [result]. *)

From Stdlib Require Import PeanoNat ZArith QArith Qround Qfield Lqa Lia.
From Stdlib Require Import String Ascii DecimalString List Bool.
From Stdlib Require Import Sorted Permutation.
Import ListNotations.

Local Open Scope string_scope.
Local Open Scope list_scope.
Local Open Scope Q_scope.

(** ** Python prelude *)

Module Py.

(** Exceptions the embedded code can raise. *)
Inductive exn : Set :=
| ValueError
| IndexError.

Inductive result (A : Type) : Type :=
| Ok (a : A)
| Raise (e : exn).

Arguments Ok {A} a.
Arguments Raise {A} e.

Definition raises {A : Type} (r : result A) : Prop :=
  exists e, r = Raise e.

(** Comparisons on probabilities, as booleans. *)
Definition geb (a b : Q) : bool := Qle_bool b a.          (* a >= b *)
Definition gtb (a b : Q) : bool := negb (Qle_bool a b).   (* a > b  *)

(** [max(a, b)]: the first argument unless the second is strictly
    greater. *)
Definition max2 (a b : Q) : Q := if gtb b a then b else a.

(** [max(iterable, key=key)] on a non-empty iterable [x :: xs]: the first
    item whose key is maximal. *)
Definition max_key {A : Type} (key : A -> Q) (x : A) (xs : list A) : A :=
  fold_left (fun best y => if gtb (key y) (key best) then y else best) xs x.

(** ** Insertion-ordered dictionaries with string keys *)
Section Dict.
Context {V : Type}.

Definition dict : Type := list (string * V).

(** [d.get(k)] *)
Fixpoint get (d : dict) (k : string) : option V :=
  match d with
  | [] => None
  | (k', v) :: d' => if String.eqb k' k then Some v else get d' k
  end.

(** [d.get(k, dflt)] *)
Definition get_default (d : dict) (k : string) (dflt : V) : V :=
  match get d k with
  | Some v => v
  | None => dflt
  end.

(** [k in d] *)
Definition mem (d : dict) (k : string) : bool :=
  match get d k with
  | Some _ => true
  | None => false
  end.

(** [d[k] = v]: an existing key keeps its position. *)
Fixpoint set (d : dict) (k : string) (v : V) : dict :=
  match d with
  | [] => [(k, v)]
  | (k', v') :: d' =>
      if String.eqb k' k then (k', v) :: d'
      else (k', v') :: set d' k v
  end.

Definition keys (d : dict) : list string := map fst d.

(** A Python dict never holds a key twice. *)
Definition wf (d : dict) : Prop := NoDup (keys d).
End Dict.

Arguments dict V : clear implicits.

(** ** Stable sort by key *)
Section Sort.
Context {A : Type}.
Variable key : A -> Q.
Variable reverse : bool.

(** [goes_before a y]: [a], which stood before [y] in the input, stays
    before it. *)
Definition goes_before (a y : A) : bool :=
  if reverse then Qle_bool (key y) (key a) else Qle_bool (key a) (key y).

Fixpoint insert (a : A) (l : list A) : list A :=
  match l with
  | [] => [a]
  | y :: ys => if goes_before a y then a :: y :: ys else y :: insert a ys
  end.

(** [l.sort(key=key, reverse=reverse)] *)
Fixpoint sort (l : list A) : list A :=
  match l with
  | [] => []
  | a :: l' => insert a (sort l')
  end.

(** The order a descending sort establishes between an item and the
    items after it. *)
Definition descending (a b : A) : Prop := key b <= key a.
End Sort.

(** [l[:k]]: a negative bound counts from the end. *)
Definition slice_to {A : Type} (k : Z) (l : list A) : list A :=
  if (0 <=? k)%Z then firstn (Z.to_nat k) l
  else firstn (length l - Z.to_nat (- k)) l.

End Py.

(** ** Data model *)

(** One [{"label": ..., "prob": ...}] dictionary. *)
Record Prediction : Type := mkPrediction {
  label : string;
  prob : Q
}.

(** One value of the merged dictionary, [{"prob": ..., "source": [...]}]. *)
Record MergedEntry : Type := mkMergedEntry {
  entry_prob : Q;
  entry_source : list string
}.

(** The dictionary returned by [run_combined_AI_from_cv2]. *)
Record Combined : Type := mkCombined {
  skin_type : Prediction;
  skin_concerns : list Prediction;
  other_concerns : list Prediction;
  low_concerns : list Prediction
}.

(** ** Backend/AI_Comb_Models_Logicals.py *)

Module AI_Comb_Models_Logicals.

(** The lesion taxonomy.  A value [None] is the sentinel of the label to
    ignore. *)
Definition LESION_TO_CONCERN : Py.dict (option string) :=
  [ ("Papule", Some "Acne"); ("Pustule", Some "Acne");
    ("Nodule", Some "Acne"); ("Cyst", Some "Acne");
    ("Comedo", Some "Blackheads");
    ("Dome-shaped", Some "Bumps"); ("Acuminate", Some "Bumps");
    ("Umbilicated", Some "Bumps");
    ("Brown(Hyperpigmentation)", Some "Dark Spots");
    ("Pigmented", Some "Dark Spots");
    ("Poikiloderma", Some "Dark Spots");
    ("Erythema", Some "Redness"); ("Salmon", Some "Redness");
    ("Telangiectasia", Some "Broken Capillaries");
    ("Purpura/Petechiae", Some "Bruising/Discoloration");
    ("Purple", Some "Bruising/Discoloration");
    ("Scale", Some "Dryness/Flaking"); ("Xerosis", Some "Dryness/Flaking");
    ("Fissure", Some "Dryness/Flaking");
    ("Plaque", Some "Texture/Roughness"); ("Patch", Some "Texture/Roughness");
    ("Lichenification", Some "Texture/Roughness");
    ("Sclerosis", Some "Texture/Roughness");
    ("Erosion", Some "Wound/Barrier Damage");
    ("Ulcer", Some "Wound/Barrier Damage");
    ("Friable", Some "Wound/Barrier Damage");
    ("Exudate", Some "Oozing/Crusting"); ("Crust", Some "Oozing/Crusting");
    ("Scar", Some "Scarring"); ("Atrophy", Some "Fine Lines/Wrinkles");
    ("Vesicle", Some "Blistering"); ("Bulla", Some "Blistering");
    ("White(Hypopigmentation)", Some "Hypopigmentation");
    ("Blue", Some "Discoloration"); ("Black", Some "Discoloration");
    ("Gray", Some "Discoloration"); ("Translucent", Some "Discoloration");
    ("Warty/Papillomatous", Some "Warts/Skin Growth");
    ("Pedunculated", Some "Skin Tag");
    ("Exophytic/Fungating", Some "Abnormal Growth");
    ("Wheal", Some "Hives");
    ("Induration", Some "Inflammation/Swelling");
    ("Abscess", Some "Inflammation/Swelling");
    ("Do not consider this image", None);
    ("Burrow", Some "Abnormal Finding") ].

(** [max(skin_type_labels, key=...)] raises [ValueError] on an empty
    sequence. *)
Definition _pick_skin_type (prob_map : Py.dict Q)
    (skin_type_labels : list string) : Py.result Prediction :=
  match skin_type_labels with
  | [] => Py.Raise Py.ValueError
  | c :: cs =>
      let best_label :=
        Py.max_key (fun k => Py.get_default prob_map k 0) c cs in
      Py.Ok {| label := best_label;
               prob := Py.get_default prob_map best_label 0 |}
  end.

Definition _skin_concerns_from_conditions (all_results : list Prediction)
    (skin_type_labels : list string) (threshold : Q) : list Prediction :=
  let out :=
    fold_left
      (fun out d =>
         let lbl := label d in
         let p := prob d in
         if existsb (String.eqb lbl) skin_type_labels then out
         else if Py.geb p threshold
              then out ++ [ {| label := lbl; prob := p |} ]
              else out)
      all_results [] in
  Py.sort prob true out.

(** [mapping.get(lesion_label)] followed by [if not concern: continue]:
    a missing label, a [None] value and an empty string are all skipped. *)
Definition concern_of (mapping : Py.dict (option string))
    (lesion_label : string) : option string :=
  match Py.get mapping lesion_label with
  | Some (Some concern) => if String.eqb concern "" then None else Some concern
  | Some None => None
  | None => None
  end.

Definition _agg_lesions_to_concerns_by_max (lesion_results : list Prediction)
    (mapping : Py.dict (option string)) : Py.dict Q :=
  fold_left
    (fun agg d =>
       let lesion_label := label d in
       let p := prob d in
       match concern_of mapping lesion_label with
       | None => agg
       | Some concern =>
           match Py.get agg concern with
           | None => Py.set agg concern p
           | Some old => if Py.gtb p old then Py.set agg concern p else agg
           end
       end)
    lesion_results [].

(** The loop of [_split_other_concerns]: the pair [(other, low)] after
    the items seen so far. *)
Definition split_step (high_thr low_thr : Q)
    (acc : list Prediction * list Prediction) (item : string * Q)
    : list Prediction * list Prediction :=
  let '(other, low) := acc in
  let '(lbl, p) := item in
  if Py.geb p high_thr then (other ++ [ {| label := lbl; prob := p |} ], low)
  else if Py.geb p low_thr then (other, low ++ [ {| label := lbl; prob := p |} ])
  else (other, low).

Definition _split_other_concerns (agg_concern_probs : Py.dict Q)
    (high_thr low_thr : Q) : list Prediction * list Prediction :=
  let '(other, low) :=
    fold_left (split_step high_thr low_thr) agg_concern_probs ([], []) in
  (Py.sort prob true other, Py.sort prob true low).

(** The fusion part of [run_combined_AI_from_cv2].  The two calls of
    [predict_from_bgr] belong to the inference side; their ["all_results"]
    lists are the inputs here. *)
Definition run_combined_AI_from_cv2
    (cond_all_results lesion_all_results : list Prediction)
    (skin_type_labels : list string)
    (cond_threshold lesion_high_thr lesion_low_thr : Q)
    (lesion_mapping : Py.dict (option string)) : Py.result Combined :=
  let cond_map :=
    fold_left (fun m d => Py.set m (label d) (prob d)) cond_all_results [] in
  match _pick_skin_type cond_map skin_type_labels with
  | Py.Raise e => Py.Raise e
  | Py.Ok st =>
      let sc :=
        _skin_concerns_from_conditions cond_all_results skin_type_labels
          cond_threshold in
      let agg := _agg_lesions_to_concerns_by_max lesion_all_results
                   lesion_mapping in
      let '(other, low) :=
        _split_other_concerns agg lesion_high_thr lesion_low_thr in
      Py.Ok {| skin_type := st; skin_concerns := sc;
               other_concerns := other; low_concerns := low |}
  end.

(** First loop of [merge_concerns_sections]: the entry is assigned
    whether or not the label is already there. *)
Definition merge_conditions (merged : Py.dict MergedEntry)
    (items : list Prediction) : Py.dict MergedEntry :=
  fold_left
    (fun merged d =>
       Py.set merged (label d)
         {| entry_prob := prob d; entry_source := ["conditions"] |})
    items merged.

(** Second and third loop of [merge_concerns_sections]; the two differ in
    the tag only (["lesions"], ["lesions-low"]). *)
Definition merge_tagged (tag : string) (merged : Py.dict MergedEntry)
    (items : list Prediction) : Py.dict MergedEntry :=
  fold_left
    (fun merged d =>
       let lbl := label d in
       let p := prob d in
       match Py.get merged lbl with
       | Some e =>
           let p' := Py.max2 (entry_prob e) p in
           let src :=
             if existsb (String.eqb tag) (entry_source e)
             then entry_source e
             else entry_source e ++ [tag] in
           Py.set merged lbl {| entry_prob := p'; entry_source := src |}
       | None =>
           Py.set merged lbl {| entry_prob := p; entry_source := [tag] |}
       end)
    items merged.

(** [combined.get(key, [])]: a missing section is an empty list. *)
Definition merge_concerns_sections (combined : Combined)
    : Py.dict MergedEntry :=
  let merged := merge_conditions [] (skin_concerns combined) in
  let merged := merge_tagged "lesions" merged (other_concerns combined) in
  let merged := merge_tagged "lesions-low" merged (low_concerns combined) in
  merged.

(** [f"class_{i}"] *)
Definition class_name (i : nat) : string :=
  String.append "class_" (NilEmpty.string_of_uint (Nat.to_uint i)).

(** The end of [ModelRunner.predict_from_bgr], from the probabilities
    [probs_np] of the forward pass on: pairing with the labels, ranking,
    the optional cut at [topk].  The pair returned holds ["all_results"]
    and ["top"]. *)
Definition predict_ranked (labels : list string) (probs_np : list Q)
    (topk : option Z) : list Prediction * option (string * Q) :=
  let labels :=
    match labels with
    | [] => map class_name (seq 0 (length probs_np))
    | _ :: _ => labels
    end in
  let pairs := combine labels probs_np in
  let pairs := Py.sort snd true pairs in
  let pairs :=
    match topk with
    | Some k => Py.slice_to k pairs
    | None => pairs
    end in
  let top :=
    match pairs with
    | [] => None
    | t :: _ => Some t
    end in
  (map (fun x => {| label := fst x; prob := snd x |}) pairs, top).

End AI_Comb_Models_Logicals.

(** ** Backend/Test_Scripts/Combined_Predict.py *)

Module Combined_Predict.

Definition SKIN_ALIASES : Py.dict string :=
  [ ("oily skin", "Oily Skin"); ("oily", "Oily Skin");
    ("normal skin", "Normal Skin"); ("normal", "Normal Skin");
    ("dry skin", "Dry Skin"); ("dry", "Dry Skin") ].

Definition SKIN_SET : list string :=
  ["Oily Skin"; "Normal Skin"; "Dry Skin"].

(** [combine_probs], with the module constant [COMBINE_METHOD] as a
    parameter.  Any method other than ["max"] and ["avg"] is the
    noisy-or. *)
Definition combine_probs (COMBINE_METHOD : string) (values : list Q) : Q :=
  match values with
  | [] => 0
  | v :: vs =>
      if String.eqb COMBINE_METHOD "max" then Py.max_key (fun x => x) v vs
      else if String.eqb COMBINE_METHOD "avg" then
        fold_left Qplus values 0 / inject_Z (Z.of_nat (length values))
      else
        let prod := fold_left (fun prod p => prod * (1 - p)) values 1 in
        1 - prod
  end.

(** [str.strip()] and [str.lower()], on ASCII text. *)
Definition is_space (c : ascii) : bool :=
  let n := nat_of_ascii c in
  (Nat.leb 9 n && Nat.leb n 13) || (Nat.leb 28 n && Nat.leb n 32).

Fixpoint lstrip (l : list ascii) : list ascii :=
  match l with
  | [] => []
  | c :: l' => if is_space c then lstrip l' else l
  end.

Definition strip (s : string) : string :=
  string_of_list_ascii
    (rev (lstrip (rev (lstrip (list_ascii_of_string s))))).

Definition lower_ascii (c : ascii) : ascii :=
  let n := nat_of_ascii c in
  if Nat.leb 65 n && Nat.leb n 90 then ascii_of_nat (n + 32) else c.

Definition lower (s : string) : string :=
  string_of_list_ascii (map lower_ascii (list_ascii_of_string s)).

Definition canonical_skin_name (name : string) : option string :=
  Py.get SKIN_ALIASES (lower (strip name)).

(** The loop of [pick_skin_type] over [enumerate(classes)], from index
    [i] on.  [probs[i]] is read only for a class that names a skin type
    and raises [IndexError] past the end of [probs]. *)
Fixpoint collect_skin_items (i : nat) (classes : list string)
    (probs : list Q) (skin_items : list (string * Q))
    : Py.result (list (string * Q)) :=
  match classes with
  | [] => Py.Ok skin_items
  | name :: rest =>
      match canonical_skin_name name with
      | Some canon =>
          if existsb (String.eqb canon) SKIN_SET then
            match nth_error probs i with
            | Some p =>
                collect_skin_items (S i) rest probs (skin_items ++ [(canon, p)])
            | None => Py.Raise Py.IndexError
            end
          else collect_skin_items (S i) rest probs skin_items
      | None => collect_skin_items (S i) rest probs skin_items
      end
  end.

Definition pick_skin_type (classes : list string) (probs : list Q)
    : Py.result (option (string * Q)) :=
  match collect_skin_items 0 classes probs [] with
  | Py.Raise e => Py.Raise e
  | Py.Ok skin_items =>
      match Py.sort (fun z => - snd z) false skin_items with
      | [] => Py.Ok None
      | top :: _ => Py.Ok (Some top)
      end
  end.

(** [combine_probs] with the rounding of its floating-point operations
    written out: [rnd] maps the exact result of an operation to the float
    that is stored.  [sum] adds from the left; the loop of the noisy-or
    rounds the difference and the product of every round, and the result
    is the rounded difference from 1.  [max] computes nothing. *)
Definition combine_probs_rounded (rnd : Q -> Q) (COMBINE_METHOD : string)
    (values : list Q) : Q :=
  match values with
  | [] => 0
  | v :: vs =>
      if String.eqb COMBINE_METHOD "max" then Py.max_key (fun x => x) v vs
      else if String.eqb COMBINE_METHOD "avg" then
        rnd (fold_left (fun s x => rnd (s + x)) values 0
             / inject_Z (Z.of_nat (length values)))
      else
        let prod := fold_left (fun prod p => rnd (prod * rnd (1 - p))) values 1 in
        rnd (1 - prod)
  end.

Definition IGNORE_CLASSES : list string := ["Do not consider this image"].

Definition CONCERN_MAP : Py.dict string :=
  [ ("Acne", "Acne & Breakouts");
    ("Blackheads", "Blackheads & Congestion");
    ("Wrinkles", "Fine Lines & Wrinkles");
    ("Dark Spots", "Dark Spots & Pigmentation");
    ("Papule", "Inflamed Bumps (Papules)");
    ("Pustule", "Whiteheads / Pustules");
    ("Comedo", "Comedones (Clogged Pores)");
    ("Nodule", "Deep Nodules");
    ("Brown(Hyperpigmentation)", "Brown Hyperpigmentation");
    ("Macule", "Flat Spots (Macules)");
    ("White(Hypopigmentation)", "Light Spots (Hypopigmentation)");
    ("Erythema", "Redness & Irritation");
    ("Telangiectasia", "Broken Capillaries");
    ("Wheal", "Hives / Wheals");
    ("Patch", "Dry Patches & Roughness");
    ("Plaque", "Thick Patches (Plaques)");
    ("Scale", "Flaky Skin (Scaling)");
    ("Crust", "Scabbing & Crusts");
    ("Scar", "Scarring");
    ("Atrophy", "Skin Thinning (Atrophy)");
    ("Induration", "Firmness & Thickening (Induration)");
    ("Sclerosis", "Hardening (Sclerosis)");
    ("Erosion", "Surface Erosion");
    ("Ulcer", "Deep Ulceration");
    ("Yellow", "Uneven Tone (Yellowish)");
    ("Purple", "Discoloration (Purplish)");
    ("Black", "Discoloration (Darkening)") ].

Definition LESIONS_DETECT_THRESH : Q := 0.30.
Definition FINAL_MIN_PROB : Q := 0.30.
Definition FINAL_TOPK_MAIN : option Z := Some 25%Z.
Definition FINAL_TOPK_LOW : option Z := Some 25%Z.
Definition COMBINE_METHOD : string := "noisy_or".
Definition EPSILON : Q := 0.050.

(** Truth value of an optional string: [None] and the empty string are
    false. *)
Definition truthy (o : option string) : bool :=
  match o with
  | Some s => negb (String.eqb s "")
  | None => false
  end.

(** The loop of [conditions_non_skin], from index [i] on. *)
Fixpoint collect_non_skin (i : nat) (classes : list string) (probs : list Q)
    (items : list (string * Q)) : Py.result (list (string * Q)) :=
  match classes with
  | [] => Py.Ok items
  | name :: rest =>
      if existsb (String.eqb name) IGNORE_CLASSES
      then collect_non_skin (S i) rest probs items
      else if truthy (canonical_skin_name name)
      then collect_non_skin (S i) rest probs items
      else match nth_error probs i with
           | Some p => collect_non_skin (S i) rest probs (items ++ [(name, p)])
           | None => Py.Raise Py.IndexError
           end
  end.

Definition conditions_non_skin (classes : list string) (probs : list Q)
    : Py.result (list (string * Q)) :=
  match collect_non_skin 0 classes probs [] with
  | Py.Raise e => Py.Raise e
  | Py.Ok items => Py.Ok (Py.sort (fun z => - snd z) false items)
  end.

(** [CONCERN_MAP.get(raw)] followed by [if not bucket: continue]. *)
Definition bucket_of (raw : string) : option string :=
  match Py.get CONCERN_MAP raw with
  | Some bucket => if String.eqb bucket "" then None else Some bucket
  | None => None
  end.

(** [out.setdefault(bucket, []).append(p)] *)
Definition bucket_append (out : Py.dict (list Q)) (bucket : string) (p : Q)
    : Py.dict (list Q) :=
  Py.set out bucket (Py.get_default out bucket [] ++ [p]).

(** The loop of [collect_concerns_from_conditions], from index [i] on.
    [probs[i]] is read only for a class that has a bucket. *)
Fixpoint collect_conditions_from (i : nat) (classes : list string)
    (probs : list Q) (out : Py.dict (list Q)) : Py.result (Py.dict (list Q)) :=
  match classes with
  | [] => Py.Ok out
  | raw :: rest =>
      if existsb (String.eqb raw) IGNORE_CLASSES
      then collect_conditions_from (S i) rest probs out
      else if truthy (canonical_skin_name raw)
      then collect_conditions_from (S i) rest probs out
      else match bucket_of raw with
           | None => collect_conditions_from (S i) rest probs out
           | Some bucket =>
               match nth_error probs i with
               | Some p =>
                   collect_conditions_from (S i) rest probs
                     (bucket_append out bucket p)
               | None => Py.Raise Py.IndexError
               end
           end
  end.

Definition collect_concerns_from_conditions (classes : list string)
    (probs : list Q) : Py.result (Py.dict (list Q)) :=
  collect_conditions_from 0 classes probs [].

(** The loop of [collect_concerns_from_lesions], from index [i] on.  Here
    [probs[i]] is read before the bucket is looked up. *)
Fixpoint collect_lesions_from (use_threshold_for_collect : bool) (i : nat)
    (labels : list string) (probs : list Q) (out : Py.dict (list Q))
    : Py.result (Py.dict (list Q)) :=
  match labels with
  | [] => Py.Ok out
  | raw :: rest =>
      if existsb (String.eqb raw) IGNORE_CLASSES
      then collect_lesions_from use_threshold_for_collect (S i) rest probs out
      else match nth_error probs i with
           | None => Py.Raise Py.IndexError
           | Some p =>
               if use_threshold_for_collect && Py.gtb LESIONS_DETECT_THRESH p
               then collect_lesions_from use_threshold_for_collect (S i) rest
                      probs out
               else match bucket_of raw with
                    | None =>
                        collect_lesions_from use_threshold_for_collect (S i)
                          rest probs out
                    | Some bucket =>
                        collect_lesions_from use_threshold_for_collect (S i)
                          rest probs (bucket_append out bucket p)
                    end
           end
  end.

Definition collect_concerns_from_lesions (labels : list string)
    (probs : list Q) (use_threshold_for_collect : bool)
    : Py.result (Py.dict (list Q)) :=
  collect_lesions_from use_threshold_for_collect 0 labels probs [].

(** [combine_concern_buckets].  The loop runs over a Python [set], whose
    iteration order is not fixed by the language; [order] is that order. *)
Definition combine_concern_buckets (order : list string)
    (a b : Py.dict (list Q)) : Py.dict Q :=
  fold_left
    (fun merged k =>
       let vals := [] in
       let vals := if Py.mem a k then vals ++ Py.get_default a k [] else vals in
       let vals := if Py.mem b k then vals ++ Py.get_default b k [] else vals in
       Py.set merged k (combine_probs COMBINE_METHOD vals))
    order [].

(** The tiering written in [main]: the two comprehensions over
    [combined_concerns.items()], the two sorts and the two cuts. *)
Definition main_tiers (combined_concerns : Py.dict Q)
    : list (string * Q) * list (string * Q) :=
  let main_concerns :=
    filter (fun kv => Py.geb (snd kv) (FINAL_MIN_PROB - EPSILON))
      combined_concerns in
  let low_concerns :=
    filter (fun kv => Py.gtb (snd kv) EPSILON
                      && Py.gtb (FINAL_MIN_PROB - EPSILON) (snd kv))
      combined_concerns in
  let main_concerns := Py.sort (fun z => - snd z) false main_concerns in
  let low_concerns := Py.sort (fun z => - snd z) false low_concerns in
  let main_concerns :=
    match FINAL_TOPK_MAIN with
    | Some k => Py.slice_to k main_concerns
    | None => main_concerns
    end in
  let low_concerns :=
    match FINAL_TOPK_LOW with
    | Some k => Py.slice_to k low_concerns
    | None => low_concerns
    end in
  (main_concerns, low_concerns).

End Combined_Predict.

(** ** Backend/app.py *)

Module App.
Import AI_Comb_Models_Logicals.

Definition SKIN_LABEL_TO_KEY : Py.dict string :=
  [ ("Oily Skin", "oily_skin"); ("Dry Skin", "dry_skin");
    ("Normal Skin", "normal_skin") ].

(** The fusion part of [_analyze_face_from_path]: the call of
    [run_combined_AI_from_cv2] with the thresholds written at the call and
    the default skin-type labels and taxonomy of its signature, followed by
    [merge_concerns_sections].  Loading the models and reading the image
    come before and are not part of it. *)
Definition _analyze_face_from_path
    (cond_all_results lesion_all_results : list Prediction)
    : Py.result (Combined * Py.dict MergedEntry) :=
  match run_combined_AI_from_cv2 cond_all_results lesion_all_results
          ["Oily Skin"; "Dry Skin"; "Normal Skin"]
          0.15 0.30 0.15 LESION_TO_CONCERN with
  | Py.Raise e => Py.Raise e
  | Py.Ok combined => Py.Ok (combined, merge_concerns_sections combined)
  end.

(** The two fields of a product document that the scoring reads.  A missing
    or null field is the empty list ([prod.get(...) or []]). *)
Record Product : Type := mkProduct {
  concerns : list string;
  skin_types : list string
}.

(** One round of the loop over [merged_concerns.items()]. *)
Definition score_step (prod_concerns : list string)
    (acc : Q * list string) (item : string * MergedEntry) : Q * list string :=
  let '(score, matches) := acc in
  let '(lbl, payload) := item in
  if existsb (String.eqb lbl) prod_concerns
  then (score + 2 * entry_prob payload, matches ++ [lbl])
  else (score, matches).

(** [skin_label] is [None] when the caller has no skin type. *)
Definition _score_product_for_profile (prod : Product)
    (merged_concerns : Py.dict MergedEntry) (skin_label : option string)
    : Q * list string :=
  let prod_concerns := concerns prod in
  let '(score, matches) :=
    fold_left (score_step prod_concerns) merged_concerns (0, []) in
  let skin_key :=
    Py.get SKIN_LABEL_TO_KEY
      (Combined_Predict.strip
         (match skin_label with Some s => s | None => "" end)) in
  match skin_key with
  | Some key =>
      if negb (String.eqb key "") && existsb (String.eqb key) (skin_types prod)
      then (score + 1, matches ++ [String.append "skin:" key])
      else (score, matches)
  | None => (score, matches)
  end.

End App.

(** ** The merge rule as the specification words it

    Sections are processed in the given order; an unseen label creates an
    entry with the section's tag, a seen label takes the larger probability
    and gains the tag unless it has it. *)

Definition merge_item_spec (tag : string) (merged : Py.dict MergedEntry)
    (d : Prediction) : Py.dict MergedEntry :=
  match Py.get merged (label d) with
  | None =>
      Py.set merged (label d) {| entry_prob := prob d; entry_source := [tag] |}
  | Some e =>
      Py.set merged (label d)
        {| entry_prob := Py.max2 (entry_prob e) (prob d);
           entry_source :=
             if existsb (String.eqb tag) (entry_source e)
             then entry_source e else entry_source e ++ [tag] |}
  end.

Definition merge_spec (sections : list (string * list Prediction))
    : Py.dict MergedEntry :=
  fold_left
    (fun merged sec => fold_left (merge_item_spec (fst sec)) (snd sec) merged)
    sections [].

Import AI_Comb_Models_Logicals.

(** ** Derived notions used in the statements *)

(** The record the tiering loop builds from one item of the aggregate. *)
Definition to_pred (item : string * Q) : Prediction :=
  {| label := fst item; prob := snd item |}.

(** The two branches of the tiering loop, as predicates on an item. *)
Definition is_high (high_thr : Q) (item : string * Q) : bool :=
  Py.geb (snd item) high_thr.

Definition is_low (high_thr low_thr : Q) (item : string * Q) : bool :=
  negb (Py.geb (snd item) high_thr) && Py.geb (snd item) low_thr.

(** Every probability of a list lies in [[0,1]]. *)
Definition in_unit_interval (values : list Q) : Prop :=
  Forall (fun p => 0 <= p /\ p <= 1) values.

(** One round of the loop of [_agg_lesions_to_concerns_by_max]. *)
Definition agg_step (mapping : Py.dict (option string)) (agg : Py.dict Q)
    (d : Prediction) : Py.dict Q :=
  match concern_of mapping (label d) with
  | None => agg
  | Some concern =>
      match Py.get agg concern with
      | None => Py.set agg concern (prob d)
      | Some old => if Py.gtb (prob d) old then Py.set agg concern (prob d) else agg
      end
  end.

(** The test of the loop of [_skin_concerns_from_conditions]: the record is
    kept when its label is no skin-type label and its probability reaches
    the threshold. *)
Definition kept_condition (skin_type_labels : list string) (threshold : Q)
    (d : Prediction) : bool :=
  negb (existsb (String.eqb (label d)) skin_type_labels)
  && Py.geb (prob d) threshold.

(** [has_label items lbl]: some record of [items] carries the label. *)
Definition has_label (items : list Prediction) (lbl : string) : bool :=
  existsb (fun d => String.eqb (label d) lbl) items.

(** The tags of the sections that hold a label, in merge order. *)
Definition section_tags (combined : Combined) (lbl : string) : list string :=
  (if has_label (skin_concerns combined) lbl then ["conditions"] else [])
  ++ (if has_label (other_concerns combined) lbl then ["lesions"] else [])
  ++ (if has_label (low_concerns combined) lbl then ["lesions-low"] else []).

(** What the second and third merge loop do to a source list. *)
Definition add_tag (tag : string) (src : list string) : list string :=
  if existsb (String.eqb tag) src then src else src ++ [tag].

(** What the aggregate holds for a concern after the lesions [seen]: the
    probability of one of the lesions mapped to it, not below any other, or
    nothing when no lesion is mapped to it. *)
Definition agg_inv (mapping : Py.dict (option string)) (agg : Py.dict Q)
    (seen : list Prediction) : Prop :=
  forall c,
    match Py.get agg c with
    | Some p =>
        (exists d, In d seen /\ concern_of mapping (label d) = Some c
                   /\ prob d = p)
        /\ (forall d, In d seen -> concern_of mapping (label d) = Some c ->
                      prob d <= p)
    | None => forall d, In d seen -> concern_of mapping (label d) <> Some c
    end.

(** The items of the merged dictionary whose label is a concern of the
    product. *)
Definition matched_items (prod : App.Product)
    (merged_concerns : Py.dict MergedEntry) : list (string * MergedEntry) :=
  filter (fun item => existsb (String.eqb (fst item)) (App.concerns prod))
    merged_concerns.

(** The product's key of the caller's skin type, when the product lists
    it. *)
Definition matched_skin_key (prod : App.Product) (skin_label : option string)
    : option string :=
  match Py.get App.SKIN_LABEL_TO_KEY
          (Combined_Predict.strip
             (match skin_label with Some s => s | None => "" end)) with
  | Some key =>
      if negb (String.eqb key "")
         && existsb (String.eqb key) (App.skin_types prod)
      then Some key else None
  | None => None
  end.

(** Every entry of a merged dictionary holds a probability in [[0,1]]. *)
Definition probs_in_unit (merged_concerns : Py.dict MergedEntry) : Prop :=
  Forall (fun item => 0 <= entry_prob (snd item) /\ entry_prob (snd item) <= 1)
    merged_concerns.

(** Every entry of a merged dictionary holds a positive probability. *)
Definition probs_positive (merged_concerns : Py.dict MergedEntry) : Prop :=
  Forall (fun item => 0 < entry_prob (snd item)) merged_concerns.

(** A string made of ASCII whitespace only. *)
Definition all_space (s : string) : Prop :=
  forallb Combined_Predict.is_space (list_ascii_of_string s) = true.

(** The pairs the loop of the script's [pick_skin_type] collects from the
    classes paired with their probabilities. *)
Definition skin_pairs (zipped : list (string * Q)) : list (string * Q) :=
  flat_map
    (fun np => match Combined_Predict.canonical_skin_name (fst np) with
               | Some canon => [(canon, snd np)]
               | None => []
               end)
    zipped.

(** The test of the loop of [conditions_non_skin]. *)
Definition is_non_skin (np : string * Q) : bool :=
  negb (existsb (String.eqb (fst np)) Combined_Predict.IGNORE_CLASSES)
  && negb (Combined_Predict.truthy
             (Combined_Predict.canonical_skin_name (fst np))).

(** The bucket a lesion label paired with its probability is appended to
    by [collect_concerns_from_lesions], if any. *)
Definition lesion_bucket (use_threshold_for_collect : bool)
    (np : string * Q) : option string :=
  if existsb (String.eqb (fst np)) Combined_Predict.IGNORE_CLASSES then None
  else if use_threshold_for_collect
          && Py.gtb Combined_Predict.LESIONS_DETECT_THRESH (snd np)
  then None
  else Combined_Predict.bucket_of (fst np).

(** The bucket a class paired with its probability is appended to by
    [collect_concerns_from_conditions], if any. *)
Definition condition_bucket (np : string * Q) : option string :=
  if existsb (String.eqb (fst np)) Combined_Predict.IGNORE_CLASSES then None
  else if Combined_Predict.truthy
            (Combined_Predict.canonical_skin_name (fst np))
  then None
  else Combined_Predict.bucket_of (fst np).

(** The probabilities that land in bucket [b], in input order. *)
Definition contributions (bucket : string * Q -> option string) (b : string)
    (zipped : list (string * Q)) : list Q :=
  map snd
    (filter (fun np => match bucket np with
                       | Some b' => String.eqb b' b
                       | None => false
                       end) zipped).

(** One round of a collecting loop, on a label paired with its
    probability. *)
Definition collect_step (bucket : string * Q -> option string)
    (out : Py.dict (list Q)) (np : string * Q) : Py.dict (list Q) :=
  match bucket np with
  | Some b => Combined_Predict.bucket_append out b (snd np)
  | None => out
  end.

(** The two bands of [main], as tests on an item. *)
Definition in_main_band (kv : string * Q) : bool :=
  Py.geb (snd kv) (Combined_Predict.FINAL_MIN_PROB - Combined_Predict.EPSILON).

Definition in_low_band (kv : string * Q) : bool :=
  Py.gtb (snd kv) Combined_Predict.EPSILON
  && Py.gtb (Combined_Predict.FINAL_MIN_PROB - Combined_Predict.EPSILON)
       (snd kv).

(** What the proofs use of floating-point rounding: it keeps the order,
    leaves a stored value as it is, and stores 0 and 1 exactly.  Rounding to
    nearest of IEEE 754 has these properties. *)
Definition rounding (rnd : Q -> Q) : Prop :=
  (forall a b, a <= b -> rnd a <= rnd b)
  /\ (forall a, rnd (rnd a) == rnd a)
  /\ rnd 0 == 0
  /\ rnd 1 == 1.

(** A rounding with few digits: down to the next multiple of 1/1024. *)
Definition grid_round (x : Q) : Q := inject_Z (Qfloor (x * 1024)) / 1024.

(** ** Facts about the prelude *)

Section ComparisonFacts.

Lemma geb_true_iff (a b : Q) : Py.geb a b = true <-> b <= a.
Proof. unfold Py.geb. apply Qle_bool_iff. Qed.

Lemma geb_false_iff (a b : Q) : Py.geb a b = false <-> a < b.
Proof.
  unfold Py.geb. split; intro H.
  - apply Qnot_le_lt. intro Hle. apply Qle_bool_iff in Hle. congruence.
  - destruct (Qle_bool b a) eqn:E; [|reflexivity].
    apply Qle_bool_iff in E. exfalso. exact (Qlt_not_le _ _ H E).
Qed.

Lemma gtb_true_iff (a b : Q) : Py.gtb a b = true <-> b < a.
Proof.
  unfold Py.gtb. rewrite negb_true_iff. apply (geb_false_iff b a).
Qed.

Lemma gtb_false_iff (a b : Q) : Py.gtb a b = false <-> a <= b.
Proof.
  unfold Py.gtb. rewrite negb_false_iff. apply Qle_bool_iff.
Qed.

Lemma max2_ge_left (a b : Q) : a <= Py.max2 a b.
Proof.
  unfold Py.max2. destruct (Py.gtb b a) eqn:E.
  - apply gtb_true_iff in E. apply Qlt_le_weak, E.
  - apply Qle_refl.
Qed.

Lemma max2_ge_right (a b : Q) : b <= Py.max2 a b.
Proof.
  unfold Py.max2. destruct (Py.gtb b a) eqn:E.
  - apply Qle_refl.
  - apply gtb_false_iff in E. exact E.
Qed.

End ComparisonFacts.

Section SortFacts.
Context {A : Type}.
Variable key : A -> Q.

Lemma insert_perm (reverse : bool) (a : A) (l : list A) :
  Permutation (Py.insert key reverse a l) (a :: l).
Proof.
  induction l as [|y ys IH]; simpl.
  - apply Permutation_refl.
  - destruct (Py.goes_before key reverse a y).
    + apply Permutation_refl.
    + eapply perm_trans; [apply perm_skip, IH | apply perm_swap].
Qed.

Lemma sort_perm (reverse : bool) (l : list A) :
  Permutation (Py.sort key reverse l) l.
Proof.
  induction l as [|a l IH]; simpl.
  - apply perm_nil.
  - eapply perm_trans; [apply insert_perm | apply perm_skip, IH].
Qed.

Lemma sort_In (reverse : bool) (l : list A) (x : A) :
  In x (Py.sort key reverse l) <-> In x l.
Proof.
  split; apply Permutation_in;
    [apply sort_perm | apply Permutation_sym, sort_perm].
Qed.

Lemma insert_descending (a : A) (l : list A) :
  StronglySorted (Py.descending key) l ->
  StronglySorted (Py.descending key) (Py.insert key true a l).
Proof.
  induction 1 as [|y ys Hs IH Hall]; simpl.
  - constructor; constructor.
  - unfold Py.goes_before. destruct (Qle_bool (key y) (key a)) eqn:E.
    + apply Qle_bool_iff in E.
      constructor; [constructor; assumption|].
      constructor; [exact E|].
      eapply Forall_impl; [|exact Hall].
      intros z Hz. unfold Py.descending in *. eapply Qle_trans; eassumption.
    + constructor; [exact IH|].
      assert (Hlt : key a < key y).
      { apply Qnot_le_lt. intro Hle. apply Qle_bool_iff in Hle. congruence. }
      rewrite Forall_forall. intros z Hz.
      apply (Permutation_in _ (insert_perm true a ys)) in Hz.
      destruct Hz as [<-|Hz].
      * apply Qlt_le_weak, Hlt.
      * rewrite Forall_forall in Hall. apply Hall, Hz.
Qed.

Lemma sort_descending (l : list A) :
  StronglySorted (Py.descending key) (Py.sort key true l).
Proof.
  induction l as [|a l IH]; simpl.
  - constructor.
  - apply insert_descending, IH.
Qed.

End SortFacts.

Section DictFacts.
Context {V : Type}.

Lemma get_In (d : Py.dict V) (k : string) (v : V) :
  Py.get d k = Some v -> In (k, v) d.
Proof.
  induction d as [|[k' v'] d IH]; simpl; [discriminate|].
  destruct (String.eqb_spec k' k) as [->|Hne].
  - intros [= ->]. left; reflexivity.
  - intro H. right. apply IH, H.
Qed.

Lemma In_get (d : Py.dict V) (k : string) (v : V) :
  Py.wf d -> In (k, v) d -> Py.get d k = Some v.
Proof.
  unfold Py.wf, Py.keys.
  induction d as [|[k' v'] d IH]; simpl; [intros _ []|].
  intros Hnd [Heq|Hin]; inversion Hnd as [|? ? Hnotin Hnd']; subst.
  - inversion Heq; subst. rewrite String.eqb_refl. reflexivity.
  - destruct (String.eqb_spec k' k) as [->|Hne].
    + exfalso. apply Hnotin. change k with (fst (k, v)).
      apply in_map, Hin.
    + apply IH; assumption.
Qed.

Lemma get_None_notin (d : Py.dict V) (k : string) :
  Py.get d k = None <-> ~ In k (Py.keys d).
Proof.
  unfold Py.keys.
  induction d as [|[k' v'] d IH]; simpl.
  - tauto.
  - destruct (String.eqb_spec k' k) as [->|Hne].
    + split; [discriminate | intro H; exfalso; apply H; left; reflexivity].
    + rewrite IH. tauto.
Qed.

End DictFacts.

(** ** The tiering loop as two filters *)

Section SplitFacts.
Variables high_thr low_thr : Q.

Lemma split_loop (agg : Py.dict Q) (other low : list Prediction) :
  fold_left (split_step high_thr low_thr) agg (other, low)
  = (other ++ map to_pred (filter (is_high high_thr) agg),
     low ++ map to_pred (filter (is_low high_thr low_thr) agg)).
Proof.
  revert other low.
  induction agg as [|[lbl p] agg IH]; intros other low; simpl.
  - rewrite !app_nil_r. reflexivity.
  - unfold is_high, is_low; simpl.
    destruct (Py.geb p high_thr); simpl.
    + rewrite IH, <- app_assoc. reflexivity.
    + destruct (Py.geb p low_thr); simpl.
      * rewrite IH, <- app_assoc. reflexivity.
      * apply IH.
Qed.

Lemma split_eq (agg : Py.dict Q) :
  _split_other_concerns agg high_thr low_thr
  = (Py.sort prob true (map to_pred (filter (is_high high_thr) agg)),
     Py.sort prob true (map to_pred (filter (is_low high_thr low_thr) agg))).
Proof.
  unfold _split_other_concerns. rewrite split_loop. reflexivity.
Qed.

Lemma in_high (agg : Py.dict Q) (d : Prediction) :
  In d (fst (_split_other_concerns agg high_thr low_thr))
  <-> In (label d, prob d) agg /\ high_thr <= prob d.
Proof.
  rewrite split_eq; simpl. rewrite sort_In, in_map_iff. split.
  - intros [[lbl p] [<- Hin]]. apply filter_In in Hin as [Hin Hh].
    split; [exact Hin | apply geb_true_iff, Hh].
  - intros [Hin Hh]. exists (label d, prob d). split.
    + destruct d; reflexivity.
    + apply filter_In. split; [exact Hin | apply geb_true_iff, Hh].
Qed.

Lemma in_low (agg : Py.dict Q) (d : Prediction) :
  In d (snd (_split_other_concerns agg high_thr low_thr))
  <-> In (label d, prob d) agg /\ low_thr <= prob d /\ prob d < high_thr.
Proof.
  rewrite split_eq; simpl. rewrite sort_In, in_map_iff. split.
  - intros [[lbl p] [<- Hin]]. apply filter_In in Hin as [Hin Hl].
    unfold is_low in Hl. apply andb_true_iff in Hl as [Hnh Hl].
    apply negb_true_iff, geb_false_iff in Hnh. apply geb_true_iff in Hl.
    simpl in *. auto.
  - intros (Hin & Hl & Hh). exists (label d, prob d). split.
    + destruct d; reflexivity.
    + apply filter_In. split; [exact Hin|].
      unfold is_low; simpl. apply andb_true_iff. split.
      * apply negb_true_iff, geb_false_iff, Hh.
      * apply geb_true_iff, Hl.
Qed.

Lemma labels_of_filter (f : string * Q -> bool) (agg : Py.dict Q) :
  map label (map to_pred (filter f agg)) = Py.keys (filter f agg).
Proof. unfold Py.keys. rewrite map_map. reflexivity. Qed.

Lemma filter_wf (f : string * Q -> bool) (agg : Py.dict Q) :
  Py.wf agg -> Py.wf (filter f agg).
Proof.
  unfold Py.wf, Py.keys.
  induction agg as [|[k v] agg IH]; simpl; intro Hnd; [constructor|].
  inversion Hnd as [|? ? Hnotin Hnd']; subst.
  destruct (f (k, v)); simpl; [|apply IH, Hnd'].
  constructor; [|apply IH, Hnd'].
  intro Hin. apply Hnotin. apply in_map_iff in Hin as [x [Hx Hin]].
  apply filter_In in Hin as [Hin _]. apply in_map_iff. exists x. auto.
Qed.

Lemma split_labels_perm (agg : Py.dict Q) :
  let res := _split_other_concerns agg high_thr low_thr in
  Permutation (map label (fst res ++ snd res))
    (Py.keys (filter (is_high high_thr) agg) ++ Py.keys (filter (is_low high_thr low_thr) agg)).
Proof.
  simpl. rewrite split_eq; simpl. rewrite map_app.
  apply Permutation_app;
    (eapply perm_trans;
     [apply Permutation_map, sort_perm | rewrite labels_of_filter; apply Permutation_refl]).
Qed.

Lemma split_labels_NoDup (agg : Py.dict Q) :
  Py.wf agg ->
  let res := _split_other_concerns agg high_thr low_thr in
  NoDup (map label (fst res ++ snd res)).
Proof.
  intros Hwf res.
  eapply Permutation_NoDup; [apply Permutation_sym, split_labels_perm|].
  apply NoDup_app.
  - apply (filter_wf (is_high high_thr)), Hwf.
  - apply (filter_wf (is_low high_thr low_thr)), Hwf.
  - intros k Hh Hl. unfold Py.keys in *.
    apply in_map_iff in Hh as [[k1 p1] [Hk1 Hh]].
    apply in_map_iff in Hl as [[k2 p2] [Hk2 Hl]].
    simpl in *; subst k1 k2.
    apply filter_In in Hh as [Hin1 Hh]. apply filter_In in Hl as [Hin2 Hl].
    apply (In_get _ _ _ Hwf) in Hin1. apply (In_get _ _ _ Hwf) in Hin2.
    assert (p1 = p2) by congruence. subst p2.
    unfold is_high, is_low in *; simpl in *.
    rewrite Hh in Hl. discriminate.
Qed.

End SplitFacts.

(** ** The lesion pipeline: aggregation and tiering *)

(** C1.  The raw lesion predictions Papule 0.5, Pustule 0.2, Comedo 0.1,
    mapped through the taxonomy Papule->Acne, Pustule->Acne,
    Comedo->Blackheads and aggregated by maximum, give the concern map
    Acne 0.5, Blackheads 0.1; tiering that map with high threshold 0.30 and
    low threshold 0.15 gives the main list [Acne 0.5] and an empty low list
    (Blackheads at 0.1 is dropped). *)
Theorem lesion_pipeline_example :
  _agg_lesions_to_concerns_by_max
    [ {| label := "Papule"; prob := 0.5 |};
      {| label := "Pustule"; prob := 0.2 |};
      {| label := "Comedo"; prob := 0.1 |} ]
    [ ("Papule", Some "Acne"); ("Pustule", Some "Acne");
      ("Comedo", Some "Blackheads") ]
  = [ ("Acne", 0.5); ("Blackheads", 0.1) ]
  /\ _split_other_concerns [ ("Acne", 0.5); ("Blackheads", 0.1) ] 0.30 0.15
     = ([ {| label := "Acne"; prob := 0.5 |} ], []).
Proof. split; vm_compute; reflexivity. Qed.

(** The same predictions through the production taxonomy
    [LESION_TO_CONCERN] give the same concern map. *)
Lemma production_taxonomy_example :
  _agg_lesions_to_concerns_by_max
    [ {| label := "Papule"; prob := 0.5 |};
      {| label := "Pustule"; prob := 0.2 |};
      {| label := "Comedo"; prob := 0.1 |} ]
    LESION_TO_CONCERN
  = [ ("Acne", 0.5); ("Blackheads", 0.1) ].
Proof. vm_compute; reflexivity. Qed.

(** C2.  For thresholds with low <= high and every concern (lbl, p) of the
    aggregate: the concern is in the High list exactly when p >= high, in
    the Low list exactly when low <= p < high, and in neither list exactly
    when p < low; both returned lists are sorted descending by
    probability. *)
Theorem tier_classification (agg : Py.dict Q) (high_thr low_thr : Q)
    (lbl : string) (p : Q) :
  low_thr <= high_thr ->
  In (lbl, p) agg ->
  let res := _split_other_concerns agg high_thr low_thr in
  let d := {| label := lbl; prob := p |} in
  (In d (fst res) <-> high_thr <= p)
  /\ (In d (snd res) <-> low_thr <= p /\ p < high_thr)
  /\ (~ In d (fst res) /\ ~ In d (snd res) <-> p < low_thr)
  /\ StronglySorted (Py.descending prob) (fst res)
  /\ StronglySorted (Py.descending prob) (snd res).
Proof.
  intros Hthr Hin res d.
  assert (Hhigh : In d (fst res) <-> high_thr <= p).
  { unfold res. rewrite in_high. simpl. tauto. }
  assert (Hlow : In d (snd res) <-> low_thr <= p /\ p < high_thr).
  { unfold res. rewrite in_low. simpl. tauto. }
  split; [exact Hhigh|]. split; [exact Hlow|]. split.
  - rewrite Hhigh, Hlow. split.
    + intros [Hnh Hnl]. apply Qnot_le_lt. intro Hle. apply Hnl.
      split; [exact Hle|]. apply Qnot_le_lt, Hnh.
    + intro Hlt. split.
      * intro Hle. apply (Qlt_not_le _ _ Hlt). eapply Qle_trans; eassumption.
      * intros [Hle _]. exact (Qlt_not_le _ _ Hlt Hle).
  - unfold res. rewrite split_eq. simpl.
    split; apply sort_descending.
Qed.

Lemma tier_classification_witness :
  let agg := [ ("Acne", 0.5); ("Blackheads", 0.2); ("Bumps", 0.1) ] in
  let res := _split_other_concerns agg 0.30 0.15 in
  let d := {| label := "Blackheads"; prob := 0.2 |} in
  (In d (fst res) <-> 0.30 <= 0.2)
  /\ (In d (snd res) <-> 0.15 <= 0.2 /\ 0.2 < 0.30)
  /\ (~ In d (fst res) /\ ~ In d (snd res) <-> 0.2 < 0.15)
  /\ StronglySorted (Py.descending prob) (fst res)
  /\ StronglySorted (Py.descending prob) (snd res).
Proof.
  apply (tier_classification
           [ ("Acne", 0.5); ("Blackheads", 0.2); ("Bumps", 0.1) ]
           0.30 0.15 "Blackheads" 0.2).
  - unfold Qle; simpl; lia.
  - simpl; auto.
Defined.

(** C10.  For a well-formed aggregate and thresholds with low <= high, the
    two returned lists partition the concerns at or above the low
    threshold: every returned record carries the probability the aggregate
    holds for its label, no label occurs twice over the two lists, every
    concern with p >= low is in exactly one list, and every concern with
    p < low is in neither. *)
Theorem split_partitions (agg : Py.dict Q) (high_thr low_thr : Q) :
  Py.wf agg ->
  low_thr <= high_thr ->
  let res := _split_other_concerns agg high_thr low_thr in
  (forall d, In d (fst res ++ snd res) ->
             Py.get agg (label d) = Some (prob d))
  /\ NoDup (map label (fst res ++ snd res))
  /\ (forall lbl p, Py.get agg lbl = Some p -> low_thr <= p ->
        let d := {| label := lbl; prob := p |} in
        (In d (fst res) /\ ~ In lbl (map label (snd res)))
        \/ (In d (snd res) /\ ~ In lbl (map label (fst res))))
  /\ (forall lbl p, Py.get agg lbl = Some p -> p < low_thr ->
        ~ In lbl (map label (fst res ++ snd res))).
Proof.
  intros Hwf Hthr res.
  assert (Hval : forall d, In d (fst res ++ snd res) ->
                           Py.get agg (label d) = Some (prob d)).
  { intros d Hd. apply in_app_or in Hd as [Hd|Hd].
    - apply in_high in Hd as [Hin _]. apply In_get; assumption.
    - apply in_low in Hd as [Hin _]. apply In_get; assumption. }
  assert (Hnd : NoDup (map label (fst res ++ snd res)))
    by (apply split_labels_NoDup, Hwf).
  assert (Hlbl : forall lbl l, In lbl (map label l) ->
                 exists q, In {| label := lbl; prob := q |} l).
  { intros lbl l Hl. apply in_map_iff in Hl as [[l' q] [Hl Hin]].
    simpl in Hl; subst l'. exists q; exact Hin. }
  assert (Hsame : forall lbl p q, Py.get agg lbl = Some p ->
                  In {| label := lbl; prob := q |} (fst res ++ snd res) ->
                  q = p).
  { intros lbl p q Hget Hin. apply Hval in Hin. simpl in Hin. congruence. }
  split; [exact Hval|]. split; [exact Hnd|]. split.
  - intros lbl p Hget Hlow d.
    destruct (Qlt_le_dec p high_thr) as [Hlt|Hge].
    + right. split.
      * apply in_low. simpl. split; [apply get_In, Hget | auto].
      * intro Hl. apply Hlbl in Hl as [q Hq].
        assert (q = p) by (eapply Hsame; [eassumption | apply in_or_app; auto]).
        subst q. apply in_high in Hq as [_ Hq]. simpl in Hq.
        exact (Qlt_not_le _ _ Hlt Hq).
    + left. split.
      * apply in_high. simpl. split; [apply get_In, Hget | exact Hge].
      * intro Hl. apply Hlbl in Hl as [q Hq].
        assert (q = p) by (eapply Hsame; [eassumption | apply in_or_app; auto]).
        subst q. apply in_low in Hq as (_ & _ & Hq). simpl in Hq.
        exact (Qlt_not_le _ _ Hq Hge).
  - intros lbl p Hget Hlt Hl. apply Hlbl in Hl as [q Hq].
    assert (q = p) by (eapply Hsame; eassumption). subst q.
    apply in_app_or in Hq as [Hq|Hq].
    + apply in_high in Hq as [_ Hq]. simpl in Hq.
      apply (Qlt_not_le _ _ Hlt). eapply Qle_trans; eassumption.
    + apply in_low in Hq as (_ & Hq & _). simpl in Hq.
      exact (Qlt_not_le _ _ Hlt Hq).
Qed.

Lemma split_partitions_witness :
  let agg := [ ("Acne", 0.5); ("Blackheads", 0.2); ("Bumps", 0.1) ] in
  let res := _split_other_concerns agg 0.30 0.15 in
  (forall d, In d (fst res ++ snd res) ->
             Py.get agg (label d) = Some (prob d))
  /\ NoDup (map label (fst res ++ snd res))
  /\ (forall lbl p, Py.get agg lbl = Some p -> 0.15 <= p ->
        let d := {| label := lbl; prob := p |} in
        (In d (fst res) /\ ~ In lbl (map label (snd res)))
        \/ (In d (snd res) /\ ~ In lbl (map label (fst res))))
  /\ (forall lbl p, Py.get agg lbl = Some p -> p < 0.15 ->
        ~ In lbl (map label (fst res ++ snd res))).
Proof.
  apply (split_partitions
           [ ("Acne", 0.5); ("Blackheads", 0.2); ("Bumps", 0.1) ] 0.30 0.15).
  - unfold Py.wf; simpl.
    repeat (constructor; [simpl; intuition discriminate|]). constructor.
  - unfold Qle; simpl; lia.
Defined.

(** ** Thresholds given in the wrong order *)

Lemma filter_is_low_inverted (high_thr low_thr : Q) (agg : Py.dict Q) :
  high_thr < low_thr -> filter (is_low high_thr low_thr) agg = [].
Proof.
  intro Hinv. induction agg as [|[lbl p] agg IH]; simpl; [reflexivity|].
  unfold is_low at 1; simpl.
  destruct (Py.geb p high_thr) eqn:Eh; simpl; [exact IH|].
  apply geb_false_iff in Eh.
  assert (El : Py.geb p low_thr = false).
  { apply geb_false_iff. eapply Qlt_trans; eassumption. }
  rewrite El. exact IH.
Qed.

(** C5, as the claim has it, fails on a concrete call: with the high
    threshold 0.30 and the low threshold 0.50 the engine raises nothing; it
    returns a result whose Low list is empty. *)
Lemma inverted_thresholds_counterexample :
  0.30 < 0.50
  /\ ~ Py.raises
       (run_combined_AI_from_cv2
          [ {| label := "Oily Skin"; prob := 0.6 |} ]
          [ {| label := "Papule"; prob := 0.4 |};
            {| label := "Comedo"; prob := 0.2 |} ]
          ["Oily Skin"; "Dry Skin"; "Normal Skin"]
          0.15 0.30 0.50 LESION_TO_CONCERN)
  /\ run_combined_AI_from_cv2
       [ {| label := "Oily Skin"; prob := 0.6 |} ]
       [ {| label := "Papule"; prob := 0.4 |};
         {| label := "Comedo"; prob := 0.2 |} ]
       ["Oily Skin"; "Dry Skin"; "Normal Skin"]
       0.15 0.30 0.50 LESION_TO_CONCERN
     = Py.Ok {| skin_type := {| label := "Oily Skin"; prob := 0.6 |};
                skin_concerns := [];
                other_concerns := [ {| label := "Acne"; prob := 0.4 |} ];
                low_concerns := [] |}.
Proof.
  split; [unfold Qlt; simpl; lia|].
  split; [intros [e He]; vm_compute in He; discriminate|].
  vm_compute; reflexivity.
Qed.

(** C5, amended.  No threshold validation exists.  When the low threshold
    exceeds the high threshold and the candidate list is not empty, the
    engine returns normally: the Low list is empty, and the High list holds
    exactly the aggregated concerns with p >= high. *)
Theorem inverted_thresholds_accepted
    (cond_all_results lesion_all_results : list Prediction)
    (skin_type_labels : list string)
    (cond_threshold lesion_high_thr lesion_low_thr : Q)
    (lesion_mapping : Py.dict (option string)) :
  lesion_high_thr < lesion_low_thr ->
  skin_type_labels <> [] ->
  exists r,
    run_combined_AI_from_cv2 cond_all_results lesion_all_results
      skin_type_labels cond_threshold lesion_high_thr lesion_low_thr
      lesion_mapping = Py.Ok r
    /\ low_concerns r = []
    /\ (forall d, In d (other_concerns r) <->
          In (label d, prob d)
             (_agg_lesions_to_concerns_by_max lesion_all_results lesion_mapping)
          /\ lesion_high_thr <= prob d).
Proof.
  intros Hinv Hne. unfold run_combined_AI_from_cv2.
  destruct skin_type_labels as [|c cs]; [congruence|]. cbn [_pick_skin_type].
  set (agg := _agg_lesions_to_concerns_by_max lesion_all_results lesion_mapping).
  pose proof (split_eq lesion_high_thr lesion_low_thr agg) as Heq.
  pose proof (in_high lesion_high_thr lesion_low_thr agg) as Hhigh.
  rewrite (filter_is_low_inverted _ _ agg Hinv) in Heq. simpl in Heq.
  destruct (_split_other_concerns agg lesion_high_thr lesion_low_thr)
    as [other low].
  injection Heq as Hother Hlow.
  eexists. split; [reflexivity|]. simpl. split; [exact Hlow|].
  intro d. exact (Hhigh d).
Qed.

Lemma inverted_thresholds_accepted_witness :
  exists r,
    run_combined_AI_from_cv2
      [ {| label := "Oily Skin"; prob := 0.6 |} ]
      [ {| label := "Papule"; prob := 0.4 |};
        {| label := "Comedo"; prob := 0.2 |} ]
      ["Oily Skin"; "Dry Skin"; "Normal Skin"]
      0.15 0.30 0.50 LESION_TO_CONCERN = Py.Ok r
    /\ low_concerns r = []
    /\ (forall d, In d (other_concerns r) <->
          In (label d, prob d)
             (_agg_lesions_to_concerns_by_max
                [ {| label := "Papule"; prob := 0.4 |};
                  {| label := "Comedo"; prob := 0.2 |} ]
                LESION_TO_CONCERN)
          /\ 0.30 <= prob d).
Proof.
  apply (inverted_thresholds_accepted
           [ {| label := "Oily Skin"; prob := 0.6 |} ]
           [ {| label := "Papule"; prob := 0.4 |};
             {| label := "Comedo"; prob := 0.2 |} ]
           ["Oily Skin"; "Dry Skin"; "Normal Skin"]
           0.15 0.30 0.50 LESION_TO_CONCERN).
  - unfold Qlt; simpl; lia.
  - discriminate.
Defined.

(** ** Skin-type selection *)

Section MaxKeyFacts.
Context {A : Type}.
Variable key : A -> Q.

Lemma max_key_snoc (x : A) (xs : list A) (y : A) :
  Py.max_key key x (xs ++ [y])
  = if Py.gtb (key y) (key (Py.max_key key x xs))
    then y else Py.max_key key x xs.
Proof. unfold Py.max_key. rewrite fold_left_app. reflexivity. Qed.

(** [max] returns the first item of maximal key: the items before it are
    strictly smaller, the items after it are not larger. *)
Lemma max_key_first (x : A) (xs : list A) :
  exists pre post,
    x :: xs = pre ++ Py.max_key key x xs :: post
    /\ (forall y, In y pre -> key y < key (Py.max_key key x xs))
    /\ (forall y, In y post -> key y <= key (Py.max_key key x xs)).
Proof.
  induction xs as [|y xs IH] using rev_ind.
  - exists [], []. simpl. split; [reflexivity|]. split; intros y [].
  - destruct IH as (pre & post & Heq & Hpre & Hpost).
    rewrite max_key_snoc.
    set (best := Py.max_key key x xs) in *.
    destruct (Py.gtb (key y) (key best)) eqn:E.
    + apply gtb_true_iff in E.
      exists (x :: xs), []. split; [reflexivity|]. split; [|intros z []].
      intros z Hz. rewrite Heq in Hz.
      apply in_app_or in Hz as [Hz|[<-|Hz]].
      * eapply Qlt_trans; [apply Hpre, Hz | exact E].
      * exact E.
      * eapply Qle_lt_trans; [apply Hpost, Hz | exact E].
    + apply gtb_false_iff in E.
      exists pre, (post ++ [y]). split.
      * change (x :: xs ++ [y]) with ((x :: xs) ++ [y]).
        rewrite Heq, <- app_assoc. reflexivity.
      * split; [exact Hpre|].
        intros z Hz. apply in_app_or in Hz as [Hz|[<-|[]]];
          [apply Hpost, Hz | exact E].
Qed.

Lemma max_key_In (x : A) (xs : list A) : In (Py.max_key key x xs) (x :: xs).
Proof.
  destruct (max_key_first x xs) as (pre & post & Heq & _).
  rewrite Heq. apply in_or_app. right. left. reflexivity.
Qed.

End MaxKeyFacts.

(** C8.  Over a non-empty candidate list, each candidate looked up in the
    prediction map with default 0.0, the picker returns the first candidate
    of maximal probability: the candidates before it are strictly below it
    and those after it are not above it.  For the candidates Oily Skin, Dry
    Skin, Normal Skin and the predictions 0.40, 0.40, 0.10 the selection is
    (Oily Skin, 0.40). *)
Theorem pick_skin_type_first_argmax :
  (forall (prob_map : Py.dict Q) (c : string) (cs : list string),
     exists pre best post,
       c :: cs = pre ++ best :: post
       /\ _pick_skin_type prob_map (c :: cs)
          = Py.Ok {| label := best; prob := Py.get_default prob_map best 0 |}
       /\ (forall k, In k pre ->
             Py.get_default prob_map k 0 < Py.get_default prob_map best 0)
       /\ (forall k, In k post ->
             Py.get_default prob_map k 0 <= Py.get_default prob_map best 0))
  /\ _pick_skin_type
       [ ("Oily Skin", 0.40); ("Dry Skin", 0.40); ("Normal Skin", 0.10) ]
       ["Oily Skin"; "Dry Skin"; "Normal Skin"]
     = Py.Ok {| label := "Oily Skin"; prob := 0.40 |}.
Proof.
  split; [|vm_compute; reflexivity].
  intros prob_map c cs.
  destruct (max_key_first (fun k => Py.get_default prob_map k 0) c cs)
    as (pre & post & Heq & Hpre & Hpost).
  exists pre, (Py.max_key (fun k => Py.get_default prob_map k 0) c cs), post.
  repeat split; assumption.
Qed.

(** When no candidate is a key of the map, every key value is the default
    and the first candidate wins. *)
Lemma pick_skin_type_no_candidate_key (prob_map : Py.dict Q) (c : string)
    (cs : list string) :
  (forall k, In k (c :: cs) -> Py.get prob_map k = None) ->
  _pick_skin_type prob_map (c :: cs) = Py.Ok {| label := c; prob := 0 |}.
Proof.
  intro Habsent.
  set (key := fun k => Py.get_default prob_map k 0).
  assert (Hzero : forall k, In k (c :: cs) -> key k = 0).
  { intros k Hk. unfold key, Py.get_default. rewrite (Habsent k Hk).
    reflexivity. }
  destruct (max_key_first key c cs) as (pre & post & Heq & Hpre & _).
  assert (Hbest : Py.max_key key c cs = c).
  { destruct pre as [|k pre].
    - simpl in Heq. congruence.
    - exfalso. specialize (Hpre k (or_introl eq_refl)).
      rewrite (Hzero k) in Hpre
        by (rewrite Heq; left; reflexivity).
      rewrite (Hzero (Py.max_key key c cs)) in Hpre by apply max_key_In.
      exact (Qlt_irrefl _ Hpre). }
  unfold _pick_skin_type. fold key. rewrite Hbest. simpl.
  fold (key c). rewrite (Hzero c (or_introl eq_refl)). reflexivity.
Qed.

(** C9.  For a non-empty candidate list the picker returns a selection: its
    label is one of the candidates and its probability is that label's entry
    in the prediction map, or 0.0 when the label is absent.  When no
    candidate is a key of the prediction map, the selection is the first
    candidate with probability 0.0, whatever else the map holds. *)
Theorem pick_skin_type_total (prob_map : Py.dict Q)
    (skin_type_labels : list string) :
  skin_type_labels <> [] ->
  (exists best,
     In best skin_type_labels
     /\ _pick_skin_type prob_map skin_type_labels
        = Py.Ok {| label := best;
                   prob := match Py.get prob_map best with
                           | Some p => p
                           | None => 0
                           end |})
  /\ ((forall k, In k skin_type_labels -> Py.get prob_map k = None) ->
      _pick_skin_type prob_map skin_type_labels
      = Py.Ok {| label := hd "" skin_type_labels; prob := 0 |}).
Proof.
  intro Hne. destruct skin_type_labels as [|c cs]; [congruence|].
  set (key := fun k => Py.get_default prob_map k 0).
  split.
  - exists (Py.max_key key c cs). split; [apply max_key_In | reflexivity].
  - intro Habsent. simpl. apply pick_skin_type_no_candidate_key, Habsent.
Qed.

Lemma pick_skin_type_total_witness :
  (exists best,
     In best ["Oily Skin"; "Dry Skin"; "Normal Skin"]
     /\ _pick_skin_type [ ("Acne", 0.9) ] ["Oily Skin"; "Dry Skin"; "Normal Skin"]
        = Py.Ok {| label := best;
                   prob := match Py.get [ ("Acne", 0.9) ] best with
                           | Some p => p
                           | None => 0
                           end |})
  /\ ((forall k, In k ["Oily Skin"; "Dry Skin"; "Normal Skin"] ->
                 Py.get [ ("Acne", 0.9) ] k = None) ->
      _pick_skin_type [ ("Acne", 0.9) ] ["Oily Skin"; "Dry Skin"; "Normal Skin"]
      = Py.Ok {| label := "Oily Skin"; prob := 0 |}).
Proof.
  apply (pick_skin_type_total [ ("Acne", 0.9) ]
           ["Oily Skin"; "Dry Skin"; "Normal Skin"]).
  discriminate.
Defined.

(** With no candidate among its keys, a map whose best entry is Acne 0.9
    still yields the first candidate at 0.0. *)
Lemma pick_skin_type_no_fallback :
  _pick_skin_type [ ("Acne", 0.9) ] ["Oily Skin"; "Dry Skin"; "Normal Skin"]
  = Py.Ok {| label := "Oily Skin"; prob := 0 |}.
Proof. vm_compute; reflexivity. Qed.

(** C6, as the claim has it, fails on the production picker: with an empty
    prediction map it returns the first candidate at 0.0, which is a
    selection and not an empty result; with an empty candidate list it
    raises. *)
Lemma empty_inputs_counterexample :
  _pick_skin_type [] ["Oily Skin"; "Dry Skin"; "Normal Skin"]
  = Py.Ok {| label := "Oily Skin"; prob := 0 |}
  /\ _pick_skin_type [ ("Oily Skin", 0.40) ] [] = Py.Raise Py.ValueError.
Proof. split; vm_compute; reflexivity. Qed.

Lemma collect_skin_items_no_skin (classes : list string) (probs : list Q)
    (i : nat) (skin_items : list (string * Q)) :
  (forall name, In name classes ->
                Combined_Predict.canonical_skin_name name = None) ->
  Combined_Predict.collect_skin_items i classes probs skin_items
  = Py.Ok skin_items.
Proof.
  revert i. induction classes as [|name rest IH]; intros i Hnone; simpl.
  - reflexivity.
  - rewrite (Hnone name (or_introl eq_refl)).
    apply IH. intros n Hn. apply Hnone. right. exact Hn.
Qed.

(** The script picker returns an empty result, without raising, whenever
    no class name is an alias of a skin type. *)
Lemma script_pick_none (classes : list string) (probs : list Q) :
  (forall name, In name classes ->
                Combined_Predict.canonical_skin_name name = None) ->
  Combined_Predict.pick_skin_type classes probs = Py.Ok None.
Proof.
  intro Hnone. unfold Combined_Predict.pick_skin_type.
  rewrite collect_skin_items_no_skin by exact Hnone. reflexivity.
Qed.

(** C6, amended.  With a non-empty candidate list an empty prediction set
    never raises: the production picker returns the first candidate with
    probability 0.0, and the script picker, whose candidates are the fixed
    skin-type set, returns the empty result. *)
Theorem empty_predictions_selection :
  (forall (c : string) (cs : list string),
     _pick_skin_type [] (c :: cs) = Py.Ok {| label := c; prob := 0 |})
  /\ (forall probs : list Q,
        Combined_Predict.pick_skin_type [] probs = Py.Ok None).
Proof.
  split.
  - intros c cs.
    apply pick_skin_type_no_candidate_key. intros k _. reflexivity.
  - intro probs. reflexivity.
Qed.

(** ** Section merge *)

Section MergeFacts.

Lemma get_set_other {V : Type} (d : Py.dict V) (k k' : string) (v : V) :
  k <> k' -> Py.get (Py.set d k v) k' = Py.get d k'.
Proof.
  intro Hne. induction d as [|[k0 v0] d IH]; simpl.
  - destruct (String.eqb_spec k k'); [contradiction | reflexivity].
  - destruct (String.eqb_spec k0 k) as [->|Hk0]; simpl.
    + destruct (String.eqb_spec k k'); [contradiction | reflexivity].
    + destruct (String.eqb_spec k0 k'); [reflexivity | exact IH].
Qed.

(** The second and third loop follow the rule item by item. *)
Lemma merge_tagged_is_spec (tag : string) (merged : Py.dict MergedEntry)
    (items : list Prediction) :
  merge_tagged tag merged items
  = fold_left (merge_item_spec tag) items merged.
Proof. reflexivity. Qed.

(** The first loop follows the rule as long as every label it meets is
    unseen. *)
Lemma merge_conditions_is_spec (items : list Prediction)
    (merged : Py.dict MergedEntry) :
  NoDup (map label items) ->
  (forall d, In d items -> Py.get merged (label d) = None) ->
  merge_conditions merged items
  = fold_left (merge_item_spec "conditions") items merged.
Proof.
  revert merged. induction items as [|d items IH]; intros merged Hnd Hnew.
  - reflexivity.
  - inversion Hnd as [|? ? Hnotin Hnd']; subst.
    unfold merge_conditions in *. simpl.
    unfold merge_item_spec at 2.
    rewrite (Hnew d (or_introl eq_refl)).
    apply IH; [exact Hnd'|].
    intros d' Hd'. rewrite get_set_other.
    + apply Hnew. right. exact Hd'.
    + intro Heq. apply Hnotin. rewrite Heq. apply in_map, Hd'.
Qed.

(** On a first section without repeated labels, the code is the rule of
    the specification applied to the sections conditions, lesions,
    lesions-low in that order. *)
Lemma merge_refines_spec (combined : Combined) :
  NoDup (map label (skin_concerns combined)) ->
  merge_concerns_sections combined
  = merge_spec [ ("conditions", skin_concerns combined);
                 ("lesions", other_concerns combined);
                 ("lesions-low", low_concerns combined) ].
Proof.
  intro Hnd. unfold merge_concerns_sections, merge_spec. simpl.
  rewrite !merge_tagged_is_spec.
  rewrite merge_conditions_is_spec; [reflexivity | exact Hnd |].
  intros d _. reflexivity.
Qed.

End MergeFacts.

(** C3.  The rule holds in the second and third loop, and in the first loop
    while labels are new; a label repeated inside the conditions section is
    overwritten there instead of taking the larger probability.  On the
    section [Acne 0.6; Acne 0.5] the code stores 0.5 where the rule stores
    0.6. *)
Theorem merge_conditions_overwrites :
  let combined :=
    {| skin_type := {| label := "Oily Skin"; prob := 0.40 |};
       skin_concerns := [ {| label := "Acne"; prob := 0.6 |};
                          {| label := "Acne"; prob := 0.5 |} ];
       other_concerns := [];
       low_concerns := [] |} in
  merge_concerns_sections combined
  = [ ("Acne", {| entry_prob := 0.5; entry_source := ["conditions"] |}) ]
  /\ merge_spec [ ("conditions", skin_concerns combined);
                  ("lesions", other_concerns combined);
                  ("lesions-low", low_concerns combined) ]
     = [ ("Acne", {| entry_prob := 0.6; entry_source := ["conditions"] |}) ].
Proof. split; vm_compute; reflexivity. Qed.

(** C4, as the claim has it, fails: the merged entry of Acne is not the one
    with the sources conditions, lesions only. *)
Lemma merge_ordering_counterexample :
  merge_concerns_sections
    {| skin_type := {| label := "Oily Skin"; prob := 0.40 |};
       skin_concerns := [ {| label := "Acne"; prob := 0.5 |} ];
       other_concerns := [ {| label := "Acne"; prob := 0.6 |} ];
       low_concerns := [ {| label := "Acne"; prob := 0.6 |} ] |}
  <> [ ("Acne", {| entry_prob := 0.6;
                   entry_source := ["conditions"; "lesions"] |}) ].
Proof. vm_compute. intro H. discriminate H. Qed.

(** C4, amended.  Merging the sections conditions [Acne 0.5], lesions
    [Acne 0.6], lesions-low [Acne 0.6] in that order gives exactly the entry
    Acne with probability 0.6 and the sources conditions, lesions,
    lesions-low: the third section adds its tag as well. *)
Theorem merge_ordering_example :
  merge_concerns_sections
    {| skin_type := {| label := "Oily Skin"; prob := 0.40 |};
       skin_concerns := [ {| label := "Acne"; prob := 0.5 |} ];
       other_concerns := [ {| label := "Acne"; prob := 0.6 |} ];
       low_concerns := [ {| label := "Acne"; prob := 0.6 |} ] |}
  = [ ("Acne", {| entry_prob := 0.6;
                  entry_source := ["conditions"; "lesions"; "lesions-low"] |}) ].
Proof. vm_compute; reflexivity. Qed.

(** ** Signal combination *)

Section CombineFacts.
Import Combined_Predict.

Lemma prod_nonneg (values : list Q) (acc : Q) :
  in_unit_interval values -> 0 <= acc ->
  0 <= fold_left (fun prod q => prod * (1 - q)) values acc.
Proof.
  intro Hall. revert acc.
  induction Hall as [|v vs [_ Hv] _ IH]; intros acc Hacc; simpl.
  - exact Hacc.
  - apply IH. apply Qmult_le_0_compat; [exact Hacc | lra].
Qed.

Lemma len_pos (v : Q) (vs : list Q) :
  0 < inject_Z (Z.of_nat (length (v :: vs))).
Proof.
  change 0 with (inject_Z 0). rewrite <- Zlt_Qlt. simpl length. lia.
Qed.

Lemma combine_max_monotone (values : list Q) (p : Q) :
  0 <= p ->
  combine_probs "max" values <= combine_probs "max" (values ++ [p]).
Proof.
  intro Hp. destruct values as [|v vs]; simpl.
  - exact Hp.
  - rewrite max_key_snoc. simpl.
    destruct (Py.gtb p (Py.max_key (fun x => x) v vs)) eqn:E.
    + apply gtb_true_iff in E. apply Qlt_le_weak, E.
    + apply Qle_refl.
Qed.

(** With the identity as rounding the rounded function is the exact
    one. *)
Lemma combine_probs_rounded_exact (method : string) (values : list Q) :
  combine_probs_rounded (fun x => x) method values
  = combine_probs method values.
Proof. reflexivity. Qed.

End CombineFacts.

Section RoundedCombine.
Import Combined_Predict.
Variable rnd : Q -> Q.
Hypothesis Hrnd : rounding rnd.

Lemma rnd_mono (a b : Q) : a <= b -> rnd a <= rnd b.
Proof. apply Hrnd. Qed.

Lemma rnd_stored (a : Q) : rnd (rnd a) == rnd a.
Proof. apply Hrnd. Qed.

Lemma rnd_zero : rnd 0 == 0.
Proof. apply Hrnd. Qed.

Lemma rnd_one : rnd 1 == 1.
Proof. apply Hrnd. Qed.

Lemma rnd_proper (a b : Q) : a == b -> rnd a == rnd b.
Proof.
  intro Heq. apply Qle_antisym; apply rnd_mono; rewrite Heq; apply Qle_refl.
Qed.

Lemma rnd_unit (a : Q) : 0 <= a -> a <= 1 -> 0 <= rnd a /\ rnd a <= 1.
Proof.
  intros H0 H1. split.
  - rewrite <- rnd_zero. apply rnd_mono, H0.
  - rewrite <- rnd_one. apply rnd_mono, H1.
Qed.

(** One round of the noisy-or loop keeps a stored product in [[0,1]] and
    does not raise it. *)
Lemma noisy_round (prod q : Q) :
  0 <= prod -> prod <= 1 -> rnd prod == prod -> 0 <= q -> q <= 1 ->
  let prod' := rnd (prod * rnd (1 - q)) in
  0 <= prod' /\ prod' <= prod /\ rnd prod' == prod'.
Proof.
  intros Hp0 Hp1 Hst Hq0 Hq1 prod'.
  destruct (rnd_unit (1 - q) ltac:(lra) ltac:(lra)) as [Hf0 Hf1].
  assert (Hm0 : 0 <= prod * rnd (1 - q)) by (apply Qmult_le_0_compat; assumption).
  assert (Hm1 : prod * rnd (1 - q) <= prod) by nra.
  split; [|split].
  - unfold prod'. rewrite <- rnd_zero. apply rnd_mono, Hm0.
  - unfold prod'. eapply Qle_trans; [apply rnd_mono, Hm1|].
    rewrite Hst. apply Qle_refl.
  - apply rnd_stored.
Qed.

Lemma noisy_loop (values : list Q) :
  in_unit_interval values ->
  forall prod, 0 <= prod -> prod <= 1 -> rnd prod == prod ->
    let prod' := fold_left (fun prod p => rnd (prod * rnd (1 - p))) values prod in
    0 <= prod' /\ prod' <= 1 /\ rnd prod' == prod'.
Proof.
  induction 1 as [|v vs [Hv0 Hv1] _ IH]; intros prod Hp0 Hp1 Hst; simpl.
  - auto.
  - destruct (noisy_round prod v Hp0 Hp1 Hst Hv0 Hv1) as (H0 & Hle & Hst').
    apply IH; [exact H0 | lra | exact Hst'].
Qed.

Lemma noisy_or_rounded_monotone (method : string) (values : list Q) (p : Q) :
  method <> "max" -> method <> "avg" ->
  in_unit_interval values -> 0 <= p -> p <= 1 ->
  combine_probs_rounded rnd method values
  <= combine_probs_rounded rnd method (values ++ [p]).
Proof.
  intros Hmax Havg Hall Hp0 Hp1. unfold combine_probs_rounded.
  apply String.eqb_neq in Hmax. apply String.eqb_neq in Havg.
  assert (Hone : rnd 1 == 1) by apply rnd_one.
  destruct values as [|v vs].
  - cbn [app]. rewrite Hmax, Havg. cbn [fold_left].
    pose proof (noisy_round 1 p ltac:(lra) ltac:(lra) Hone Hp0 Hp1) as Hround.
    cbv zeta in Hround. destruct Hround as (H0 & Hle & _).
    rewrite <- rnd_zero. apply rnd_mono. lra.
  - change ((v :: vs) ++ [p]) with (v :: (vs ++ [p])).
    rewrite Hmax, Havg.
    change (v :: (vs ++ [p])) with ((v :: vs) ++ [p]).
    pose proof (noisy_loop (v :: vs) Hall 1 ltac:(lra) ltac:(lra) Hone)
      as Hloop.
    cbv zeta in Hloop. rewrite fold_left_app.
    set (prod := fold_left (fun prod q => rnd (prod * rnd (1 - q))) (v :: vs) 1)
      in *.
    destruct Hloop as (H0 & H1 & Hst).
    pose proof (noisy_round prod p H0 H1 Hst Hp0 Hp1) as Hround.
    cbv zeta in Hround. destruct Hround as (_ & Hle & _).
    change (fold_left (fun prod q => rnd (prod * rnd (1 - q))) [p] prod)
      with (rnd (prod * rnd (1 - p))).
    apply rnd_mono. lra.
Qed.

(** The mean drops under rounding as well, whenever the three values of
    the example are stored exactly, as they are in binary floating
    point. *)
Lemma avg_drops_under_rounding :
  rnd 0.5 == 0.5 -> rnd 0.75 == 0.75 -> rnd 0.375 == 0.375 ->
  combine_probs_rounded rnd "avg" ([0.5] ++ [0.25])
  < combine_probs_rounded rnd "avg" [0.5].
Proof.
  intros H50 H75 H375. unfold combine_probs_rounded. cbn [app fold_left length].
  change (String.eqb "avg" "max") with false.
  change (String.eqb "avg" "avg") with true. cbv iota.
  assert (Hs1 : rnd (0 + 0.5) == 0.5).
  { eapply Qeq_trans; [apply rnd_proper | exact H50]. lra. }
  assert (Hs2 : rnd (rnd (0 + 0.5) + 0.25) == 0.75).
  { eapply Qeq_trans; [apply rnd_proper | exact H75]. rewrite Hs1. lra. }
  assert (Ha2 : rnd (rnd (rnd (0 + 0.5) + 0.25) / inject_Z (Z.of_nat 2))
                == 0.375).
  { eapply Qeq_trans; [apply rnd_proper | exact H375]. rewrite Hs2.
    unfold Qeq. simpl. lia. }
  assert (Ha1 : rnd (rnd (0 + 0.5) / inject_Z (Z.of_nat 1)) == 0.5).
  { eapply Qeq_trans; [apply rnd_proper | exact H50]. rewrite Hs1.
    unfold Qeq. simpl. lia. }
  rewrite Ha1, Ha2. unfold Qlt. simpl. lia.
Qed.

End RoundedCombine.

Section GridRound.

Lemma grid_round_mono (a b : Q) : a <= b -> grid_round a <= grid_round b.
Proof.
  intro Hab. unfold grid_round.
  apply Qmult_le_compat_r; [|unfold Qle; simpl; lia].
  rewrite <- Zle_Qle. apply Qfloor_resp_le.
  apply Qmult_le_compat_r; [exact Hab | unfold Qle; simpl; lia].
Qed.

Lemma grid_round_stored (a : Q) : grid_round (grid_round a) == grid_round a.
Proof.
  unfold grid_round.
  assert (Hk : inject_Z (Qfloor (a * 1024)) / 1024 * 1024
               == inject_Z (Qfloor (a * 1024))) by (field).
  rewrite Hk, Qfloor_Z. reflexivity.
Qed.

Lemma grid_round_rounding : rounding grid_round.
Proof.
  split; [exact grid_round_mono|]. split; [exact grid_round_stored|].
  split; vm_compute; reflexivity.
Qed.

End GridRound.

(** C7, as the claim has it, fails for the mean: the bucket [0.5] has the
    aggregate 0.5, and after the contributor 0.25 is appended the aggregate
    is 0.375. *)
Lemma combine_avg_counterexample :
  in_unit_interval [0.5] /\ 0 <= 0.25 /\ 0.25 <= 1
  /\ Combined_Predict.combine_probs "avg" ([0.5] ++ [0.25]) == 0.375
  /\ ~ Combined_Predict.combine_probs "avg" [0.5]
       <= Combined_Predict.combine_probs "avg" ([0.5] ++ [0.25]).
Proof.
  split; [repeat constructor; unfold Qle; simpl; lia|].
  split; [unfold Qle; simpl; lia|]. split; [unfold Qle; simpl; lia|].
  split; [vm_compute; reflexivity|].
  apply Qlt_not_le. vm_compute. reflexivity.
Qed.

(** C7, amended.  For contributor probabilities in [0,1], appending one
    more contributor never decreases the aggregate under max and under
    noisy_or (every method other than max and avg), with the
    floating-point operations of the noisy-or rounded by any rounding that
    keeps the order, leaves stored values alone and stores 0 and 1.  The
    mean is left out: it can drop. *)
Theorem combine_monotone (rnd : Q -> Q) (method : string) (values : list Q)
    (p : Q) :
  rounding rnd ->
  in_unit_interval values ->
  0 <= p -> p <= 1 ->
  method <> "avg" ->
  Combined_Predict.combine_probs_rounded rnd method values
  <= Combined_Predict.combine_probs_rounded rnd method (values ++ [p]).
Proof.
  intros Hrnd Hall Hp0 Hp1 Havg.
  destruct (String.eqb_spec method "max") as [->|Hmax].
  - apply (combine_max_monotone values p Hp0).
  - apply noisy_or_rounded_monotone; assumption.
Qed.

Lemma combine_monotone_witness :
  Combined_Predict.combine_probs_rounded grid_round "noisy_or" [0.2; 0.2]
  <= Combined_Predict.combine_probs_rounded grid_round "noisy_or"
       ([0.2; 0.2] ++ [0.2]).
Proof.
  apply (combine_monotone grid_round "noisy_or" [0.2; 0.2] 0.2).
  - exact grid_round_rounding.
  - repeat constructor; unfold Qle; simpl; lia.
  - unfold Qle; simpl; lia.
  - unfold Qle; simpl; lia.
  - discriminate.
Defined.

(** ** The aggregate is a well-formed dictionary *)

Section AggFacts.

Lemma set_keys_wf {V : Type} (d : Py.dict V) (k : string) (v : V) :
  Py.wf d -> Py.wf (Py.set d k v).
Proof.
  unfold Py.wf, Py.keys. induction d as [|[k0 v0] d IH]; simpl; intro Hnd.
  - constructor; [intros [] | constructor].
  - inversion Hnd as [|? ? Hnotin Hnd']; subst.
    destruct (String.eqb_spec k0 k) as [->|Hne]; simpl.
    + constructor; assumption.
    + constructor; [|apply IH, Hnd'].
      intro Hin. apply Hnotin.
      clear IH Hnd Hnd' Hnotin.
      induction d as [|[k1 v1] d IHd]; simpl in *.
      * destruct Hin as [Hin|[]]. congruence.
      * destruct (String.eqb_spec k1 k) as [->|Hk1]; simpl in *.
        -- exact Hin.
        -- destruct Hin as [Hin|Hin]; [left; exact Hin | right; auto].
Qed.

(** Whatever the lesion results and the taxonomy, the aggregate built by
    [_agg_lesions_to_concerns_by_max] holds each concern once. *)
Lemma agg_wf (lesion_results : list Prediction)
    (mapping : Py.dict (option string)) :
  Py.wf (_agg_lesions_to_concerns_by_max lesion_results mapping).
Proof.
  unfold _agg_lesions_to_concerns_by_max.
  assert (Hgen : forall (agg : Py.dict Q), Py.wf agg ->
    Py.wf (fold_left
      (fun agg d =>
         let lesion_label := label d in
         let p := prob d in
         match concern_of mapping lesion_label with
         | None => agg
         | Some concern =>
             match Py.get agg concern with
             | None => Py.set agg concern p
             | Some old => if Py.gtb p old then Py.set agg concern p else agg
             end
         end) lesion_results agg)).
  { induction lesion_results as [|d rest IH]; intros agg Hwf; simpl.
    - exact Hwf.
    - apply IH.
      destruct (concern_of mapping (label d)) as [concern|]; [|exact Hwf].
      destruct (Py.get agg concern) as [old|].
      + destruct (Py.gtb (prob d) old); [apply set_keys_wf|]; exact Hwf.
      + apply set_keys_wf, Hwf. }
  apply Hgen. constructor.
Qed.

End AggFacts.


(** * Further properties of the embedded code *)

(** ** Max-aggregation of lesions *)

Section AggregationFacts.
Variable mapping : Py.dict (option string).

Lemma agg_is_fold (lesion_results : list Prediction) :
  _agg_lesions_to_concerns_by_max lesion_results mapping
  = fold_left (agg_step mapping) lesion_results [].
Proof. reflexivity. Qed.

Lemma get_set_same {V : Type} (d : Py.dict V) (k : string) (v : V) :
  Py.get (Py.set d k v) k = Some v.
Proof.
  induction d as [|[k0 v0] d IH]; simpl.
  - rewrite String.eqb_refl. reflexivity.
  - destruct (String.eqb_spec k0 k) as [->|Hne]; simpl.
    + rewrite String.eqb_refl. reflexivity.
    + destruct (String.eqb_spec k0 k); [contradiction | exact IH].
Qed.

Lemma agg_inv_step (agg : Py.dict Q) (seen : list Prediction) (d : Prediction) :
  agg_inv mapping agg seen -> agg_inv mapping (agg_step mapping agg d) (seen ++ [d]).
Proof.
  intros Hinv c. unfold agg_step.
  destruct (concern_of mapping (label d)) as [concern|] eqn:Ec.
  - destruct (String.eqb_spec concern c) as [->|Hne].
    + specialize (Hinv c).
      destruct (Py.get agg c) as [old|] eqn:Eg.
      * destruct Hinv as [[d0 (Hd0 & Hc0 & Hp0)] Hmax].
        destruct (Py.gtb (prob d) old) eqn:E.
        -- rewrite get_set_same. apply gtb_true_iff in E. split.
           ++ exists d. split; [apply in_or_app; right; left; reflexivity|].
              split; [exact Ec | reflexivity].
           ++ intros d' Hd' Hc'. apply in_app_or in Hd' as [Hd'|[<-|[]]].
              ** eapply Qle_trans; [apply Hmax; assumption|].
                 apply Qlt_le_weak, E.
              ** apply Qle_refl.
        -- rewrite Eg. apply gtb_false_iff in E. split.
           ++ exists d0. split; [apply in_or_app; left; exact Hd0|]. auto.
           ++ intros d' Hd' Hc'. apply in_app_or in Hd' as [Hd'|[<-|[]]].
              ** apply Hmax; assumption.
              ** exact E.
      * rewrite get_set_same. split.
        -- exists d. split; [apply in_or_app; right; left; reflexivity|].
           split; [exact Ec | reflexivity].
        -- intros d' Hd' Hc'. apply in_app_or in Hd' as [Hd'|[<-|[]]].
           ++ exfalso. exact (Hinv d' Hd' Hc').
           ++ apply Qle_refl.
    + assert (Hget : Py.get
                (match Py.get agg concern with
                 | Some old =>
                     if Py.gtb (prob d) old then Py.set agg concern (prob d)
                     else agg
                 | None => Py.set agg concern (prob d)
                 end) c = Py.get agg c).
      { destruct (Py.get agg concern) as [old|].
        - destruct (Py.gtb (prob d) old); [apply get_set_other, Hne|reflexivity].
        - apply get_set_other, Hne. }
      rewrite Hget. specialize (Hinv c).
      destruct (Py.get agg c) as [p|].
      * destruct Hinv as [[d0 (Hd0 & Hc0 & Hp0)] Hmax]. split.
        -- exists d0. split; [apply in_or_app; left; exact Hd0|]. auto.
        -- intros d' Hd' Hc'. apply in_app_or in Hd' as [Hd'|[<-|[]]].
           ++ apply Hmax; assumption.
           ++ congruence.
      * intros d' Hd' Hc'. apply in_app_or in Hd' as [Hd'|[<-|[]]].
        -- exact (Hinv d' Hd' Hc').
        -- congruence.
  - specialize (Hinv c). destruct (Py.get agg c) as [p|].
    + destruct Hinv as [[d0 (Hd0 & Hc0 & Hp0)] Hmax]. split.
      * exists d0. split; [apply in_or_app; left; exact Hd0|]. auto.
      * intros d' Hd' Hc'. apply in_app_or in Hd' as [Hd'|[<-|[]]].
        -- apply Hmax; assumption.
        -- congruence.
    + intros d' Hd' Hc'. apply in_app_or in Hd' as [Hd'|[<-|[]]].
      * exact (Hinv d' Hd' Hc').
      * congruence.
Qed.

Lemma agg_inv_fold (rest : list Prediction) :
  forall (agg : Py.dict Q) (seen : list Prediction),
    agg_inv mapping agg seen ->
    agg_inv mapping (fold_left (agg_step mapping) rest agg) (seen ++ rest).
Proof.
  induction rest as [|d rest IH]; intros agg seen Hinv; simpl.
  - rewrite app_nil_r. exact Hinv.
  - change (d :: rest) with ([d] ++ rest). rewrite app_assoc.
    apply IH, agg_inv_step, Hinv.
Qed.

Lemma agg_inv_final (lesion_results : list Prediction) :
  agg_inv mapping (_agg_lesions_to_concerns_by_max lesion_results mapping)
    lesion_results.
Proof.
  rewrite agg_is_fold.
  apply (agg_inv_fold lesion_results [] []).
  intros c d [].
Qed.

End AggregationFacts.

(** X1.  Whenever the aggregate holds a probability for a concern, that
    probability is the one of some lesion result mapped to the concern, and
    no lesion result mapped to the concern has a larger one: the value is
    the maximum over the contributors. *)
Theorem agg_value_is_max (lesion_results : list Prediction)
    (mapping : Py.dict (option string)) (c : string) (p : Q) :
  Py.get (_agg_lesions_to_concerns_by_max lesion_results mapping) c = Some p ->
  (exists d, In d lesion_results
             /\ concern_of mapping (label d) = Some c /\ prob d = p)
  /\ (forall d, In d lesion_results ->
                concern_of mapping (label d) = Some c -> prob d <= p).
Proof.
  intro Hget. pose proof (agg_inv_final mapping lesion_results c) as Hinv.
  rewrite Hget in Hinv. exact Hinv.
Qed.

Lemma agg_value_is_max_witness :
  (exists d, In d [ {| label := "Pustule"; prob := 0.2 |};
                    {| label := "Papule"; prob := 0.5 |};
                    {| label := "Macule"; prob := 0.9 |} ]
             /\ concern_of LESION_TO_CONCERN (label d) = Some "Acne"
             /\ prob d = 0.5)
  /\ (forall d, In d [ {| label := "Pustule"; prob := 0.2 |};
                       {| label := "Papule"; prob := 0.5 |};
                       {| label := "Macule"; prob := 0.9 |} ] ->
                concern_of LESION_TO_CONCERN (label d) = Some "Acne" ->
                prob d <= 0.5).
Proof.
  apply (agg_value_is_max
           [ {| label := "Pustule"; prob := 0.2 |};
             {| label := "Papule"; prob := 0.5 |};
             {| label := "Macule"; prob := 0.9 |} ]
           LESION_TO_CONCERN "Acne" 0.5).
  vm_compute. reflexivity.
Defined.

(** X2.  A concern is missing from the aggregate exactly when no lesion
    result is mapped to it; a label that is absent from the taxonomy, mapped
    to None or mapped to the empty string adds no key. *)
Theorem agg_absent_iff (lesion_results : list Prediction)
    (mapping : Py.dict (option string)) (c : string) :
  Py.get (_agg_lesions_to_concerns_by_max lesion_results mapping) c = None
  <-> (forall d, In d lesion_results ->
                 concern_of mapping (label d) <> Some c).
Proof.
  pose proof (agg_inv_final mapping lesion_results c) as Hinv.
  destruct (Py.get (_agg_lesions_to_concerns_by_max lesion_results mapping) c)
    as [p|].
  - destruct Hinv as [[d (Hd & Hc & _)] _]. split; [discriminate|].
    intro H. exfalso. exact (H d Hd Hc).
  - split; [intros _; exact Hinv | reflexivity].
Qed.

(** ** Concerns of the conditions model *)

Section SkinConcernFacts.
Variable skin_type_labels : list string.
Variable threshold : Q.

Lemma prediction_eta (d : Prediction) :
  {| label := label d; prob := prob d |} = d.
Proof. destruct d; reflexivity. Qed.

Lemma skin_loop (all_results out : list Prediction) :
  fold_left
    (fun out d =>
       let lbl := label d in
       let p := prob d in
       if existsb (String.eqb lbl) skin_type_labels then out
       else if Py.geb p threshold
            then out ++ [ {| label := lbl; prob := p |} ]
            else out)
    all_results out
  = out ++ filter (kept_condition skin_type_labels threshold) all_results.
Proof.
  revert out. induction all_results as [|d rest IH]; intro out; simpl.
  - rewrite app_nil_r. reflexivity.
  - rewrite IH. unfold kept_condition at 2.
    destruct (existsb (String.eqb (label d)) skin_type_labels); simpl.
    + reflexivity.
    + destruct (Py.geb (prob d) threshold); simpl.
      * rewrite prediction_eta, <- app_assoc. reflexivity.
      * reflexivity.
Qed.

Lemma skin_concerns_eq (all_results : list Prediction) :
  _skin_concerns_from_conditions all_results skin_type_labels threshold
  = Py.sort prob true
      (filter (kept_condition skin_type_labels threshold) all_results).
Proof.
  unfold _skin_concerns_from_conditions. rewrite skin_loop. reflexivity.
Qed.

Lemma kept_condition_iff (d : Prediction) :
  kept_condition skin_type_labels threshold d = true
  <-> ~ In (label d) skin_type_labels /\ threshold <= prob d.
Proof.
  unfold kept_condition. rewrite andb_true_iff, negb_true_iff, geb_true_iff.
  assert (Hex : existsb (String.eqb (label d)) skin_type_labels = false
                <-> ~ In (label d) skin_type_labels).
  { rewrite <- not_true_iff_false, existsb_exists. split.
    - intros H Hin. apply H. exists (label d). split; [exact Hin|].
      apply String.eqb_refl.
    - intros H [x [Hin Hx]]. apply String.eqb_eq in Hx. subst x. auto. }
  rewrite Hex. tauto.
Qed.

Lemma skin_concerns_In (all_results : list Prediction) (d : Prediction) :
  In d (_skin_concerns_from_conditions all_results skin_type_labels threshold)
  <-> In d all_results /\ ~ In (label d) skin_type_labels
      /\ threshold <= prob d.
Proof.
  rewrite skin_concerns_eq, sort_In, filter_In, kept_condition_iff.
  tauto.
Qed.

End SkinConcernFacts.

Section SortedInput.
Context {A : Type}.
Variable key : A -> Q.

Lemma sort_sorted_id (l : list A) :
  StronglySorted (Py.descending key) l -> Py.sort key true l = l.
Proof.
  induction 1 as [|a l Hs IH Hall]; simpl; [reflexivity|].
  rewrite IH. destruct l as [|y ys]; [reflexivity|]. simpl.
  unfold Py.goes_before. inversion Hall as [|? ? Hy _]; subst.
  apply Qle_bool_iff in Hy. rewrite Hy. reflexivity.
Qed.

Lemma filter_sorted (f : A -> bool) (l : list A) :
  StronglySorted (Py.descending key) l ->
  StronglySorted (Py.descending key) (filter f l).
Proof.
  induction 1 as [|a l Hs IH Hall]; simpl; [constructor|].
  destruct (f a); [|exact IH].
  constructor; [exact IH|].
  rewrite Forall_forall in *. intros x Hx.
  apply filter_In in Hx as [Hx _]. apply Hall, Hx.
Qed.

End SortedInput.

(** X3.  The concerns taken from the conditions model are exactly the
    records whose label is no skin-type label and whose probability reaches
    the threshold; each keeps its multiplicity, and the list is sorted
    descending by probability. *)
Theorem skin_concerns_characterised (all_results : list Prediction)
    (skin_type_labels : list string) (threshold : Q) :
  let out :=
    _skin_concerns_from_conditions all_results skin_type_labels threshold in
  (forall d, In d out <->
             In d all_results /\ ~ In (label d) skin_type_labels
             /\ threshold <= prob d)
  /\ Permutation out
       (filter (kept_condition skin_type_labels threshold) all_results)
  /\ StronglySorted (Py.descending prob) out.
Proof.
  intro out. split; [|split].
  - intro d. apply skin_concerns_In.
  - unfold out. rewrite skin_concerns_eq. apply sort_perm.
  - unfold out. rewrite skin_concerns_eq. apply sort_descending.
Qed.

(** X4.  On results that are already sorted descending, as the model runner
    returns them, the final sort changes nothing: the concerns are the kept
    records in their input order. *)
Theorem skin_concerns_of_ranked (all_results : list Prediction)
    (skin_type_labels : list string) (threshold : Q) :
  StronglySorted (Py.descending prob) all_results ->
  _skin_concerns_from_conditions all_results skin_type_labels threshold
  = filter (kept_condition skin_type_labels threshold) all_results.
Proof.
  intro Hs. rewrite skin_concerns_eq.
  apply sort_sorted_id, filter_sorted, Hs.
Qed.

Lemma skin_concerns_of_ranked_witness :
  _skin_concerns_from_conditions
    [ {| label := "Oily Skin"; prob := 0.6 |};
      {| label := "Acne"; prob := 0.4 |};
      {| label := "Wrinkles"; prob := 0.4 |};
      {| label := "Dark Spots"; prob := 0.1 |} ]
    ["Oily Skin"; "Dry Skin"; "Normal Skin"] 0.15
  = filter (kept_condition ["Oily Skin"; "Dry Skin"; "Normal Skin"] 0.15)
      [ {| label := "Oily Skin"; prob := 0.6 |};
        {| label := "Acne"; prob := 0.4 |};
        {| label := "Wrinkles"; prob := 0.4 |};
        {| label := "Dark Spots"; prob := 0.1 |} ].
Proof.
  apply (skin_concerns_of_ranked
           [ {| label := "Oily Skin"; prob := 0.6 |};
             {| label := "Acne"; prob := 0.4 |};
             {| label := "Wrinkles"; prob := 0.4 |};
             {| label := "Dark Spots"; prob := 0.1 |} ]
           ["Oily Skin"; "Dry Skin"; "Normal Skin"] 0.15).
  repeat (constructor;
          [|repeat (constructor; [unfold Py.descending, Qle; simpl; lia|]);
            constructor]).
  constructor.
Defined.

(** ** The combined result *)

Section RunFacts.
Variables cond_all_results lesion_all_results : list Prediction.
Variable skin_type_labels : list string.
Variables cond_threshold lesion_high_thr lesion_low_thr : Q.
Variable lesion_mapping : Py.dict (option string).

(** The fields of a returned result, read off the body of the function. *)
Lemma run_ok_fields (r : Combined) :
  run_combined_AI_from_cv2 cond_all_results lesion_all_results
    skin_type_labels cond_threshold lesion_high_thr lesion_low_thr
    lesion_mapping = Py.Ok r ->
  let cond_map :=
    fold_left (fun m d => Py.set m (label d) (prob d)) cond_all_results [] in
  let agg := _agg_lesions_to_concerns_by_max lesion_all_results lesion_mapping in
  _pick_skin_type cond_map skin_type_labels = Py.Ok (skin_type r)
  /\ skin_concerns r
     = _skin_concerns_from_conditions cond_all_results skin_type_labels
         cond_threshold
  /\ other_concerns r
     = fst (_split_other_concerns agg lesion_high_thr lesion_low_thr)
  /\ low_concerns r
     = snd (_split_other_concerns agg lesion_high_thr lesion_low_thr).
Proof.
  unfold run_combined_AI_from_cv2.
  destruct (_pick_skin_type _ skin_type_labels) as [st|e]; [|discriminate].
  destruct (_split_other_concerns _ lesion_high_thr lesion_low_thr)
    as [other low].
  intros [= <-]. simpl. auto.
Qed.

Lemma cond_map_get (l : list Prediction) :
  forall (m : Py.dict Q) (k : string),
    match Py.get (fold_left (fun m d => Py.set m (label d) (prob d)) l m) k with
    | Some p =>
        (exists d, In d l /\ label d = k /\ prob d = p) \/ Py.get m k = Some p
    | None => (forall d, In d l -> label d <> k) /\ Py.get m k = None
    end.
Proof.
  induction l as [|d l IH]; intros m k; simpl.
  - destruct (Py.get m k); [right; reflexivity | split; [intros d []|reflexivity]].
  - specialize (IH (Py.set m (label d) (prob d)) k).
    destruct (Py.get (fold_left _ l _) k) as [p|].
    + destruct IH as [[d' (Hd' & Hl & Hp)]|Hget].
      * left. exists d'. auto.
      * destruct (String.eqb_spec (label d) k) as [Heq|Hne].
        -- rewrite <- Heq, get_set_same in Hget. injection Hget as <-.
           left. exists d. auto.
        -- rewrite get_set_other in Hget by exact Hne. right. exact Hget.
    + destruct IH as [Hnone Hget].
      destruct (String.eqb_spec (label d) k) as [Heq|Hne].
      * rewrite <- Heq, get_set_same in Hget. discriminate.
      * rewrite get_set_other in Hget by exact Hne. split; [|exact Hget].
        intros d' [<-|Hd']; [exact Hne | apply Hnone, Hd'].
Qed.

End RunFacts.

(** X6.  In a returned result the two lesion tiers never share a label and
    never repeat one, whatever the lesion results (repeated labels
    included); every main concern reaches the high threshold, every low
    concern lies in [low, high), and both tiers are sorted descending. *)
Theorem run_combined_lesion_tiers
    (cond_all_results lesion_all_results : list Prediction)
    (skin_type_labels : list string)
    (cond_threshold lesion_high_thr lesion_low_thr : Q)
    (lesion_mapping : Py.dict (option string)) (r : Combined) :
  run_combined_AI_from_cv2 cond_all_results lesion_all_results
    skin_type_labels cond_threshold lesion_high_thr lesion_low_thr
    lesion_mapping = Py.Ok r ->
  NoDup (map label (other_concerns r ++ low_concerns r))
  /\ (forall d, In d (other_concerns r) -> lesion_high_thr <= prob d)
  /\ (forall d, In d (low_concerns r) ->
                lesion_low_thr <= prob d /\ prob d < lesion_high_thr)
  /\ StronglySorted (Py.descending prob) (other_concerns r)
  /\ StronglySorted (Py.descending prob) (low_concerns r).
Proof.
  intro Hrun. apply run_ok_fields in Hrun as (_ & _ & Hother & Hlow).
  rewrite Hother, Hlow.
  split; [apply split_labels_NoDup, agg_wf|].
  split; [intros d Hd; apply in_high in Hd; tauto|].
  split; [intros d Hd; apply in_low in Hd; tauto|].
  rewrite split_eq; simpl. split; apply sort_descending.
Qed.

Lemma run_combined_lesion_tiers_witness :
  let r :=
    {| skin_type := {| label := "Oily Skin"; prob := 0.6 |};
       skin_concerns := [ {| label := "Acne"; prob := 0.4 |} ];
       other_concerns := [ {| label := "Acne"; prob := 0.4 |} ];
       low_concerns := [ {| label := "Blackheads"; prob := 0.2 |} ] |} in
  NoDup (map label (other_concerns r ++ low_concerns r))
  /\ (forall d, In d (other_concerns r) -> 0.30 <= prob d)
  /\ (forall d, In d (low_concerns r) -> 0.15 <= prob d /\ prob d < 0.30)
  /\ StronglySorted (Py.descending prob) (other_concerns r)
  /\ StronglySorted (Py.descending prob) (low_concerns r).
Proof.
  apply (run_combined_lesion_tiers
           [ {| label := "Oily Skin"; prob := 0.6 |};
             {| label := "Acne"; prob := 0.4 |} ]
           [ {| label := "Papule"; prob := 0.4 |};
             {| label := "Pustule"; prob := 0.3 |};
             {| label := "Comedo"; prob := 0.2 |} ]
           ["Oily Skin"; "Dry Skin"; "Normal Skin"]
           0.15 0.30 0.15 LESION_TO_CONCERN).
  vm_compute. reflexivity.
Defined.

(** X7.  In a returned result the selected skin type carries one of the
    skin-type labels; its probability is the one of a conditions record
    with that label, or 0.0 when the conditions model has no such record;
    and no skin concern carries a skin-type label, so the selected skin
    type is never listed as a concern. *)
Theorem run_combined_skin_type
    (cond_all_results lesion_all_results : list Prediction)
    (skin_type_labels : list string)
    (cond_threshold lesion_high_thr lesion_low_thr : Q)
    (lesion_mapping : Py.dict (option string)) (r : Combined) :
  run_combined_AI_from_cv2 cond_all_results lesion_all_results
    skin_type_labels cond_threshold lesion_high_thr lesion_low_thr
    lesion_mapping = Py.Ok r ->
  In (label (skin_type r)) skin_type_labels
  /\ ((exists d, In d cond_all_results /\ label d = label (skin_type r)
                 /\ prob d = prob (skin_type r))
      \/ ((forall d, In d cond_all_results -> label d <> label (skin_type r))
          /\ prob (skin_type r) = 0))
  /\ (forall d, In d (skin_concerns r) ->
                ~ In (label d) skin_type_labels
                /\ label d <> label (skin_type r)).
Proof.
  intro Hrun. apply run_ok_fields in Hrun as (Hpick & Hsc & _ & _).
  destruct skin_type_labels as [|c cs] eqn:El; [discriminate|].
  simpl in Hpick. injection Hpick as Hst.
  set (cond_map :=
         fold_left (fun m d => Py.set m (label d) (prob d)) cond_all_results [])
    in *.
  set (best := Py.max_key (fun k => Py.get_default cond_map k 0) c cs) in *.
  assert (Hbest : In best (c :: cs)) by apply max_key_In.
  rewrite <- Hst. simpl. split; [exact Hbest|]. split.
  - pose proof (cond_map_get cond_all_results [] best) as Hget.
    fold cond_map in Hget. unfold Py.get_default.
    destruct (Py.get cond_map best) as [p|].
    + destruct Hget as [Hd|Hd]; [left; exact Hd | discriminate].
    + right. split; [apply Hget | reflexivity].
  - intros d Hd. rewrite Hsc in Hd. apply skin_concerns_In in Hd as (_ & Hnot & _).
    split; [exact Hnot|]. intro Heq. apply Hnot. rewrite Heq. exact Hbest.
Qed.

Lemma run_combined_skin_type_witness :
  let r :=
    {| skin_type := {| label := "Oily Skin"; prob := 0.6 |};
       skin_concerns := [ {| label := "Acne"; prob := 0.4 |} ];
       other_concerns := [ {| label := "Acne"; prob := 0.4 |} ];
       low_concerns := [ {| label := "Blackheads"; prob := 0.2 |} ] |} in
  let cond := [ {| label := "Oily Skin"; prob := 0.6 |};
                {| label := "Acne"; prob := 0.4 |} ] in
  In (label (skin_type r)) ["Oily Skin"; "Dry Skin"; "Normal Skin"]
  /\ ((exists d, In d cond /\ label d = label (skin_type r)
                 /\ prob d = prob (skin_type r))
      \/ ((forall d, In d cond -> label d <> label (skin_type r))
          /\ prob (skin_type r) = 0))
  /\ (forall d, In d (skin_concerns r) ->
                ~ In (label d) ["Oily Skin"; "Dry Skin"; "Normal Skin"]
                /\ label d <> label (skin_type r)).
Proof.
  apply (run_combined_skin_type
           [ {| label := "Oily Skin"; prob := 0.6 |};
             {| label := "Acne"; prob := 0.4 |} ]
           [ {| label := "Papule"; prob := 0.4 |};
             {| label := "Pustule"; prob := 0.3 |};
             {| label := "Comedo"; prob := 0.2 |} ]
           ["Oily Skin"; "Dry Skin"; "Normal Skin"]
           0.15 0.30 0.15 LESION_TO_CONCERN).
  vm_compute. reflexivity.
Defined.

(** ** The merged dictionary: provenance *)

Section MergeSourceFacts.

Lemma has_label_cons (d : Prediction) (items : list Prediction) (lbl : string) :
  has_label (d :: items) lbl = String.eqb (label d) lbl || has_label items lbl.
Proof. reflexivity. Qed.

Lemma has_label_iff (items : list Prediction) (lbl : string) :
  has_label items lbl = true <-> In lbl (map label items).
Proof.
  unfold has_label. rewrite existsb_exists, in_map_iff. split.
  - intros [d [Hd He]]. apply String.eqb_eq in He. exists d. auto.
  - intros [d [He Hd]]. exists d. split; [exact Hd|]. apply String.eqb_eq, He.
Qed.

Lemma get_set_cases {V : Type} (m : Py.dict V) (k k' : string) (v : V) :
  Py.get (Py.set m k v) k'
  = if String.eqb k k' then Some v else Py.get m k'.
Proof.
  destruct (String.eqb_spec k k') as [<-|Hne].
  - apply get_set_same.
  - apply get_set_other, Hne.
Qed.

Lemma add_tag_has (tag : string) (src : list string) :
  existsb (String.eqb tag) (add_tag tag src) = true.
Proof.
  unfold add_tag. destruct (existsb (String.eqb tag) src) eqn:E; [exact E|].
  rewrite existsb_app. simpl. rewrite String.eqb_refl.
  apply orb_true_iff. right. reflexivity.
Qed.

Lemma add_tag_idem (tag : string) (src : list string) :
  add_tag tag (add_tag tag src) = add_tag tag src.
Proof. unfold add_tag at 1. rewrite add_tag_has. reflexivity. Qed.

Lemma add_tag_single (tag : string) : add_tag tag [tag] = [tag].
Proof. unfold add_tag. simpl. rewrite String.eqb_refl. reflexivity. Qed.

(** The sources of a label after the first loop. *)
Lemma conditions_sources (items : list Prediction) :
  forall (m : Py.dict MergedEntry) (lbl : string),
    option_map entry_source (Py.get (merge_conditions m items) lbl)
    = if has_label items lbl then Some ["conditions"]
      else option_map entry_source (Py.get m lbl).
Proof.
  induction items as [|d rest IH]; intros m lbl; [reflexivity|].
  unfold merge_conditions in *. simpl fold_left. rewrite IH.
  rewrite has_label_cons, get_set_cases.
  destruct (has_label rest lbl); [rewrite orb_true_r; reflexivity|].
  rewrite orb_false_r. destruct (String.eqb (label d) lbl); reflexivity.
Qed.

(** The sources of a label after one round of a tagged loop. *)
Lemma tagged_step_sources (tag : string) (m : Py.dict MergedEntry)
    (d : Prediction) (lbl : string) :
  option_map entry_source (Py.get (merge_item_spec tag m d) lbl)
  = if String.eqb (label d) lbl
    then Some (match option_map entry_source (Py.get m lbl) with
               | Some src => add_tag tag src
               | None => [tag]
               end)
    else option_map entry_source (Py.get m lbl).
Proof.
  unfold merge_item_spec.
  destruct (String.eqb_spec (label d) lbl) as [<-|Hne].
  - destruct (Py.get m (label d)) as [e|]; rewrite get_set_same; reflexivity.
  - destruct (Py.get m (label d)) as [e|]; rewrite get_set_other by exact Hne;
      reflexivity.
Qed.

Lemma tagged_sources (tag : string) (items : list Prediction) :
  forall (m : Py.dict MergedEntry) (lbl : string),
    option_map entry_source (Py.get (merge_tagged tag m items) lbl)
    = if has_label items lbl
      then Some (match option_map entry_source (Py.get m lbl) with
                 | Some src => add_tag tag src
                 | None => [tag]
                 end)
      else option_map entry_source (Py.get m lbl).
Proof.
  induction items as [|d rest IH]; intros m lbl; [reflexivity|].
  rewrite merge_tagged_is_spec. simpl fold_left.
  rewrite <- merge_tagged_is_spec, IH, tagged_step_sources, has_label_cons.
  destruct (String.eqb (label d) lbl); simpl.
  - destruct (has_label rest lbl); [|reflexivity].
    destruct (option_map entry_source (Py.get m lbl)) as [src|]; simpl.
    + rewrite add_tag_idem. reflexivity.
    + rewrite add_tag_single. reflexivity.
  - reflexivity.
Qed.

(** The sources of every label of the merged dictionary. *)
Lemma merged_sources (combined : Combined) (lbl : string) :
  option_map entry_source (Py.get (merge_concerns_sections combined) lbl)
  = match section_tags combined lbl with
    | [] => None
    | tags => Some tags
    end.
Proof.
  unfold merge_concerns_sections, section_tags.
  rewrite !tagged_sources, conditions_sources. simpl Py.get. simpl option_map.
  destruct (has_label (skin_concerns combined) lbl),
           (has_label (other_concerns combined) lbl),
           (has_label (low_concerns combined) lbl); reflexivity.
Qed.

End MergeSourceFacts.

(** X8.  For every input, a label is a key of the merged dictionary exactly
    when one of the three sections holds it, and its source list is the
    list of the tags of the sections that hold it, in the order conditions,
    lesions, lesions-low, each tag once. *)
Theorem merged_sources_characterised (combined : Combined) (lbl : string) :
  let merged := merge_concerns_sections combined in
  (Py.get merged lbl = None <->
   ~ In lbl (map label (skin_concerns combined ++ other_concerns combined
                        ++ low_concerns combined)))
  /\ (forall e, Py.get merged lbl = Some e ->
                entry_source e = section_tags combined lbl)
  /\ NoDup (section_tags combined lbl).
Proof.
  intro merged. pose proof (merged_sources combined lbl) as Hsrc.
  fold merged in Hsrc.
  assert (Hnil : section_tags combined lbl = [] <->
                 ~ In lbl (map label (skin_concerns combined
                                      ++ other_concerns combined
                                      ++ low_concerns combined))).
  { rewrite !map_app, !in_app_iff, <- !has_label_iff. unfold section_tags.
    destruct (has_label (skin_concerns combined) lbl),
             (has_label (other_concerns combined) lbl),
             (has_label (low_concerns combined) lbl); simpl;
      split; try discriminate; try reflexivity; intuition discriminate. }
  split; [|split].
  - rewrite <- Hnil. destruct (Py.get merged lbl) as [e|]; simpl in Hsrc.
    + split; [discriminate|]. intro H. rewrite H in Hsrc. discriminate.
    + split; [|reflexivity]. intros _.
      destruct (section_tags combined lbl); [reflexivity | discriminate].
  - intros e He. rewrite He in Hsrc. simpl in Hsrc.
    destruct (section_tags combined lbl); [discriminate|].
    injection Hsrc as ->. reflexivity.
  - unfold section_tags.
    destruct (has_label (skin_concerns combined) lbl),
             (has_label (other_concerns combined) lbl),
             (has_label (low_concerns combined) lbl); simpl;
      repeat (constructor; [simpl; intuition discriminate|]); constructor.
Qed.

(** ** The merged dictionary: probabilities *)

Section MergeProbFacts.

Lemma tagged_step_get (tag : string) (m : Py.dict MergedEntry)
    (d : Prediction) (lbl : string) :
  label d <> lbl ->
  Py.get (merge_item_spec tag m d) lbl = Py.get m lbl.
Proof.
  intro Hne. unfold merge_item_spec.
  destruct (Py.get m (label d)); apply get_set_other, Hne.
Qed.

(** After one round the entry of the record's label holds a probability
    that is the record's or the previous one, and is below neither. *)
Lemma tagged_step_hit (tag : string) (m : Py.dict MergedEntry) (d : Prediction) :
  exists e1,
    Py.get (merge_item_spec tag m d) (label d) = Some e1
    /\ prob d <= entry_prob e1
    /\ (forall e, Py.get m (label d) = Some e -> entry_prob e <= entry_prob e1)
    /\ (entry_prob e1 = prob d
        \/ exists e, Py.get m (label d) = Some e /\ entry_prob e = entry_prob e1).
Proof.
  unfold merge_item_spec. destruct (Py.get m (label d)) as [e|] eqn:Eg.
  - eexists. split; [apply get_set_same|]. simpl.
    split; [apply max2_ge_right|].
    split; [intros e0 [= <-]; apply max2_ge_left|].
    unfold Py.max2. destruct (Py.gtb (prob d) (entry_prob e)).
    + left; reflexivity.
    + right. exists e. auto.
  - eexists. split; [apply get_set_same|]. simpl.
    split; [apply Qle_refl|]. split; [discriminate|]. left; reflexivity.
Qed.

(** A tagged loop never lowers a stored probability. *)
Lemma tagged_monotone (tag : string) (items : list Prediction) :
  forall (m : Py.dict MergedEntry) (lbl : string) (e : MergedEntry),
    Py.get m lbl = Some e ->
    exists e', Py.get (merge_tagged tag m items) lbl = Some e'
               /\ entry_prob e <= entry_prob e'.
Proof.
  induction items as [|d rest IH]; intros m lbl e Hget.
  - exists e. split; [exact Hget | apply Qle_refl].
  - rewrite merge_tagged_is_spec. simpl fold_left.
    rewrite <- merge_tagged_is_spec.
    destruct (String.eqb_spec (label d) lbl) as [Heq|Hne].
    + destruct (tagged_step_hit tag m d) as (e1 & Hg1 & _ & Hprev & _).
      rewrite Heq in Hg1, Hprev.
      destruct (IH _ _ _ Hg1) as (e' & Hg' & Hle).
      exists e'. split; [exact Hg'|].
      eapply Qle_trans; [apply Hprev, Hget | exact Hle].
    + apply IH. rewrite tagged_step_get by exact Hne. exact Hget.
Qed.

(** A tagged loop stores, for every record it meets, a probability that is
    not below the record's. *)
Lemma tagged_covers (tag : string) (items : list Prediction) :
  forall (m : Py.dict MergedEntry) (d : Prediction),
    In d items ->
    exists e', Py.get (merge_tagged tag m items) (label d) = Some e'
               /\ prob d <= entry_prob e'.
Proof.
  induction items as [|d0 rest IH]; intros m d Hd; [destruct Hd|].
  rewrite merge_tagged_is_spec. simpl fold_left.
  rewrite <- merge_tagged_is_spec.
  destruct Hd as [->|Hd]; [|apply IH, Hd].
  destruct (tagged_step_hit tag m d) as (e1 & Hg1 & Hle1 & _).
  destruct (tagged_monotone tag rest _ _ _ Hg1) as (e' & Hg' & Hle).
  exists e'. split; [exact Hg'|]. eapply Qle_trans; eassumption.
Qed.

(** Every probability a tagged loop leaves was there before or is the
    probability of a record with that label. *)
Lemma tagged_attained (tag : string) (items : list Prediction) :
  forall (m : Py.dict MergedEntry) (lbl : string) (e' : MergedEntry),
    Py.get (merge_tagged tag m items) lbl = Some e' ->
    (exists e, Py.get m lbl = Some e /\ entry_prob e = entry_prob e')
    \/ (exists d, In d items /\ label d = lbl /\ prob d = entry_prob e').
Proof.
  induction items as [|d rest IH]; intros m lbl e' Hget.
  - left. exists e'. auto.
  - rewrite merge_tagged_is_spec in Hget. simpl fold_left in Hget.
    rewrite <- merge_tagged_is_spec in Hget.
    apply IH in Hget as [(e1 & Hg1 & Hp1)|(d' & Hd' & Hl & Hp)].
    + destruct (String.eqb_spec (label d) lbl) as [Heq|Hne].
      * destruct (tagged_step_hit tag m d) as (e2 & Hg2 & _ & _ & Hor).
        rewrite Heq in Hg2, Hor. assert (e2 = e1) by congruence. subst e2.
        destruct Hor as [Hd|(e & Hg & Hp)].
        -- right. exists d. split; [left; reflexivity|]. split; [exact Heq|].
           congruence.
        -- left. exists e. split; [exact Hg | congruence].
      * rewrite tagged_step_get in Hg1 by exact Hne. left. exists e1. auto.
    + right. exists d'. split; [right; exact Hd' | auto].
Qed.

Lemma conditions_attained (items : list Prediction) :
  forall (m : Py.dict MergedEntry) (lbl : string) (e' : MergedEntry),
    Py.get (merge_conditions m items) lbl = Some e' ->
    Py.get m lbl = Some e'
    \/ (exists d, In d items /\ label d = lbl /\ prob d = entry_prob e').
Proof.
  induction items as [|d rest IH]; intros m lbl e' Hget; [left; exact Hget|].
  unfold merge_conditions in *. simpl fold_left in Hget.
  apply IH in Hget as [Hg|(d' & Hd' & Hl & Hp)].
  - rewrite get_set_cases in Hg.
    destruct (String.eqb_spec (label d) lbl) as [Heq|Hne].
    + injection Hg as <-. right. exists d. simpl. auto.
    + left. exact Hg.
  - right. exists d'. split; [right; exact Hd' | auto].
Qed.

Lemma conditions_untouched (items : list Prediction) :
  forall (m : Py.dict MergedEntry) (lbl : string),
    ~ In lbl (map label items) ->
    Py.get (merge_conditions m items) lbl = Py.get m lbl.
Proof.
  induction items as [|d rest IH]; intros m lbl Hnot; [reflexivity|].
  unfold merge_conditions in *. simpl fold_left. rewrite IH.
  - apply get_set_other. intro Heq. apply Hnot. left. exact Heq.
  - intro Hin. apply Hnot. right. exact Hin.
Qed.

(** Without a repeated label the first loop stores every record as it
    is. *)
Lemma conditions_covers (items : list Prediction) :
  forall (m : Py.dict MergedEntry) (d : Prediction),
    NoDup (map label items) -> In d items ->
    exists e', Py.get (merge_conditions m items) (label d) = Some e'
               /\ entry_prob e' = prob d.
Proof.
  induction items as [|d0 rest IH]; intros m d Hnd Hd; [destruct Hd|].
  inversion Hnd as [|? ? Hnotin Hnd']; subst.
  destruct Hd as [->|Hd].
  - unfold merge_conditions. simpl fold_left.
    fold (merge_conditions
            (Py.set m (label d)
               {| entry_prob := prob d; entry_source := ["conditions"] |}) rest).
    rewrite conditions_untouched by exact Hnotin.
    rewrite get_set_same. eexists. split; reflexivity.
  - unfold merge_conditions. simpl fold_left. apply IH; assumption.
Qed.

End MergeProbFacts.

(** X9.  For every input, the probability stored for a label is the
    probability of one of the records carrying that label, and it is not
    below the probability of any record of the lesions and lesions-low
    sections carrying that label. *)
Theorem merged_prob_bounds (combined : Combined) :
  let merged := merge_concerns_sections combined in
  (forall d, In d (other_concerns combined ++ low_concerns combined) ->
     exists e, Py.get merged (label d) = Some e /\ prob d <= entry_prob e)
  /\ (forall lbl e, Py.get merged lbl = Some e ->
        exists d, In d (skin_concerns combined ++ other_concerns combined
                        ++ low_concerns combined)
                  /\ label d = lbl /\ prob d = entry_prob e).
Proof.
  intro merged. unfold merged, merge_concerns_sections. split.
  - intros d Hd. apply in_app_or in Hd as [Hd|Hd].
    + destruct (tagged_covers "lesions"
                  (other_concerns combined)
                  (merge_conditions [] (skin_concerns combined)) d Hd)
        as (e1 & Hg1 & Hle1).
      destruct (tagged_monotone "lesions-low" (low_concerns combined)
                  _ _ _ Hg1) as (e' & Hg' & Hle).
      exists e'. split; [exact Hg'|]. eapply Qle_trans; eassumption.
    + apply tagged_covers, Hd.
  - intros lbl e Hget.
    apply tagged_attained in Hget as [(e2 & Hg2 & Hp2)|(d & Hd & Hl & Hp)].
    + apply tagged_attained in Hg2 as [(e1 & Hg1 & Hp1)|(d & Hd & Hl & Hp)].
      * apply conditions_attained in Hg1 as [Hg|(d & Hd & Hl & Hp)];
          [discriminate|].
        exists d. split; [apply in_or_app; left; exact Hd|].
        split; [exact Hl | congruence].
      * exists d. split; [apply in_or_app; right; apply in_or_app; left; exact Hd|].
        split; [exact Hl | congruence].
    + exists d. split; [apply in_or_app; right; apply in_or_app; right; exact Hd|].
      auto.
Qed.

(** X10.  When the conditions section repeats no label, the probability
    stored for a label is the maximum over all three sections: it is not
    below the probability of any record carrying that label. *)
Theorem merged_prob_is_max (combined : Combined) :
  NoDup (map label (skin_concerns combined)) ->
  forall d, In d (skin_concerns combined ++ other_concerns combined
                  ++ low_concerns combined) ->
    exists e, Py.get (merge_concerns_sections combined) (label d) = Some e
              /\ prob d <= entry_prob e.
Proof.
  intros Hnd d Hd. unfold merge_concerns_sections.
  apply in_app_or in Hd as [Hd|Hd].
  - destruct (conditions_covers (skin_concerns combined) [] d Hnd Hd)
      as (e0 & Hg0 & Hp0).
    destruct (tagged_monotone "lesions" (other_concerns combined) _ _ _ Hg0)
      as (e1 & Hg1 & Hle1).
    destruct (tagged_monotone "lesions-low" (low_concerns combined) _ _ _ Hg1)
      as (e2 & Hg2 & Hle2).
    exists e2. split; [exact Hg2|]. rewrite <- Hp0.
    eapply Qle_trans; eassumption.
  - apply in_app_or in Hd as [Hd|Hd].
    + destruct (tagged_covers "lesions" (other_concerns combined)
                  (merge_conditions [] (skin_concerns combined)) d Hd)
        as (e1 & Hg1 & Hle1).
      destruct (tagged_monotone "lesions-low" (low_concerns combined)
                  _ _ _ Hg1) as (e' & Hg' & Hle).
      exists e'. split; [exact Hg'|]. eapply Qle_trans; eassumption.
    + apply tagged_covers, Hd.
Qed.

Lemma merged_prob_is_max_witness :
  exists e,
    Py.get
      (merge_concerns_sections
         {| skin_type := {| label := "Oily Skin"; prob := 0.6 |};
            skin_concerns := [ {| label := "Acne"; prob := 0.7 |};
                               {| label := "Wrinkles"; prob := 0.2 |} ];
            other_concerns := [ {| label := "Acne"; prob := 0.4 |} ];
            low_concerns := [ {| label := "Blackheads"; prob := 0.2 |} ] |})
      "Acne" = Some e
    /\ 0.4 <= entry_prob e.
Proof.
  apply (merged_prob_is_max
           {| skin_type := {| label := "Oily Skin"; prob := 0.6 |};
              skin_concerns := [ {| label := "Acne"; prob := 0.7 |};
                                 {| label := "Wrinkles"; prob := 0.2 |} ];
              other_concerns := [ {| label := "Acne"; prob := 0.4 |} ];
              low_concerns := [ {| label := "Blackheads"; prob := 0.2 |} ] |}
           ltac:(simpl; repeat (constructor; [simpl; intuition discriminate|]);
                 constructor)
           {| label := "Acne"; prob := 0.4 |}).
  simpl. right. right. left. reflexivity.
Defined.

(** ** The analysis pipeline of the API *)

Section PipelineFacts.

(** Every entry of the merged dictionary stems from a record of one of the
    sections. *)
Lemma merged_entry_origin (combined : Combined) (lbl : string)
    (e : MergedEntry) :
  Py.get (merge_concerns_sections combined) lbl = Some e ->
  exists d, In d (skin_concerns combined ++ other_concerns combined
                  ++ low_concerns combined)
            /\ label d = lbl /\ prob d = entry_prob e.
Proof.
  unfold merge_concerns_sections. intro Hget.
  apply tagged_attained in Hget as [(e2 & Hg2 & Hp2)|(d & Hd & Hl & Hp)].
  - apply tagged_attained in Hg2 as [(e1 & Hg1 & Hp1)|(d & Hd & Hl & Hp)].
    + apply conditions_attained in Hg1 as [Hg|(d & Hd & Hl & Hp)];
        [discriminate|].
      exists d. split; [apply in_or_app; left; exact Hd|].
      split; [exact Hl | congruence].
    + exists d. split; [apply in_or_app; right; apply in_or_app; left; exact Hd|].
      split; [exact Hl | congruence].
  - exists d. split; [apply in_or_app; right; apply in_or_app; right; exact Hd|].
    auto.
Qed.

Lemma NoDup_app_disjoint {A : Type} (l1 l2 : list A) (x : A) :
  NoDup (l1 ++ l2) -> In x l1 -> In x l2 -> False.
Proof.
  induction l1 as [|a l1 IH]; simpl; intros Hnd H1 H2; [destruct H1|].
  inversion Hnd as [|? ? Hnotin Hnd']; subst.
  destruct H1 as [->|H1].
  - apply Hnotin, in_or_app. right. exact H2.
  - exact (IH Hnd' H1 H2).
Qed.

Lemma section_tags_lesions (combined : Combined) (lbl : string) :
  In "lesions" (section_tags combined lbl) ->
  has_label (other_concerns combined) lbl = true.
Proof.
  unfold section_tags.
  destruct (has_label (skin_concerns combined) lbl),
           (has_label (other_concerns combined) lbl),
           (has_label (low_concerns combined) lbl); simpl;
    intuition discriminate.
Qed.

Lemma section_tags_lesions_low (combined : Combined) (lbl : string) :
  In "lesions-low" (section_tags combined lbl) ->
  has_label (low_concerns combined) lbl = true.
Proof.
  unfold section_tags.
  destruct (has_label (skin_concerns combined) lbl),
           (has_label (other_concerns combined) lbl),
           (has_label (low_concerns combined) lbl); simpl;
    intuition discriminate.
Qed.

(** The concern names of the production taxonomy are no skin-type
    labels. *)
Lemma production_concern_not_skin_type (l c : string) :
  concern_of LESION_TO_CONCERN l = Some c ->
  ~ In c ["Oily Skin"; "Dry Skin"; "Normal Skin"].
Proof.
  unfold concern_of.
  destruct (Py.get LESION_TO_CONCERN l) as [[c'|]|] eqn:E; try discriminate.
  destruct (String.eqb c' ""); [discriminate|]. intros [= <-].
  apply get_In in E.
  assert (Hall : forallb
            (fun kv : string * option string =>
               match snd kv with
               | Some v =>
                   negb (existsb (String.eqb v)
                           ["Oily Skin"; "Dry Skin"; "Normal Skin"])
               | None => true
               end) LESION_TO_CONCERN = true) by (vm_compute; reflexivity).
  rewrite forallb_forall in Hall. specialize (Hall _ E). simpl snd in Hall.
  apply negb_true_iff in Hall. intro Hin.
  assert (Hex : existsb (String.eqb c')
                  ["Oily Skin"; "Dry Skin"; "Normal Skin"] = true).
  { apply existsb_exists. exists c'. split; [exact Hin | apply String.eqb_refl]. }
  congruence.
Qed.

(** A label of a lesion tier is a concern some lesion result is mapped
    to. *)
Lemma tier_label_origin (lesion_all_results : list Prediction)
    (mapping : Py.dict (option string)) (high_thr low_thr : Q)
    (d : Prediction) :
  let res :=
    _split_other_concerns
      (_agg_lesions_to_concerns_by_max lesion_all_results mapping)
      high_thr low_thr in
  In d (fst res ++ snd res) ->
  exists l, In l lesion_all_results
            /\ concern_of mapping (label l) = Some (label d).
Proof.
  intros res Hd.
  assert (Hin : In (label d, prob d)
                  (_agg_lesions_to_concerns_by_max lesion_all_results mapping)).
  { apply in_app_or in Hd as [Hd|Hd].
    - apply in_high in Hd. tauto.
    - apply in_low in Hd. tauto. }
  apply (In_get _ _ _ (agg_wf lesion_all_results mapping)) in Hin.
  pose proof (agg_inv_final mapping lesion_all_results (label d)) as Hinv.
  rewrite Hin in Hinv. destruct Hinv as [[l (Hl & Hc & _)] _].
  exists l. auto.
Qed.

End PipelineFacts.

(** X11.  When the merge is applied to a result of the fusion, no merged
    entry carries both the tag lesions and the tag lesions-low: a concern
    comes from at most one lesion tier. *)
Theorem pipeline_lesion_tags_exclusive
    (cond_all_results lesion_all_results : list Prediction)
    (skin_type_labels : list string)
    (cond_threshold lesion_high_thr lesion_low_thr : Q)
    (lesion_mapping : Py.dict (option string)) (r : Combined)
    (lbl : string) (e : MergedEntry) :
  run_combined_AI_from_cv2 cond_all_results lesion_all_results
    skin_type_labels cond_threshold lesion_high_thr lesion_low_thr
    lesion_mapping = Py.Ok r ->
  Py.get (merge_concerns_sections r) lbl = Some e ->
  ~ (In "lesions" (entry_source e) /\ In "lesions-low" (entry_source e)).
Proof.
  intros Hrun Hget [Hhigh Hlow].
  pose proof (merged_sources r lbl) as Hsrc. rewrite Hget in Hsrc.
  simpl in Hsrc.
  assert (Hsec : entry_source e = section_tags r lbl).
  { destruct (section_tags r lbl); [discriminate | congruence]. }
  rewrite Hsec in Hhigh, Hlow.
  apply section_tags_lesions, has_label_iff in Hhigh.
  apply section_tags_lesions_low, has_label_iff in Hlow.
  apply run_ok_fields in Hrun as (_ & _ & Hother & Hlowc).
  pose proof (split_labels_NoDup lesion_high_thr lesion_low_thr _
                (agg_wf lesion_all_results lesion_mapping)) as Hnd.
  simpl in Hnd. rewrite <- Hother, <- Hlowc, map_app in Hnd.
  exact (NoDup_app_disjoint _ _ lbl Hnd Hhigh Hlow).
Qed.

Lemma pipeline_lesion_tags_exclusive_witness :
  ~ (In "lesions" ["conditions"; "lesions"]
     /\ In "lesions-low" ["conditions"; "lesions"]).
Proof.
  apply (pipeline_lesion_tags_exclusive
           [ {| label := "Oily Skin"; prob := 0.6 |};
             {| label := "Acne"; prob := 0.4 |} ]
           [ {| label := "Papule"; prob := 0.4 |};
             {| label := "Pustule"; prob := 0.3 |};
             {| label := "Comedo"; prob := 0.2 |} ]
           ["Oily Skin"; "Dry Skin"; "Normal Skin"]
           0.15 0.30 0.15 LESION_TO_CONCERN
           {| skin_type := {| label := "Oily Skin"; prob := 0.6 |};
              skin_concerns := [ {| label := "Acne"; prob := 0.4 |} ];
              other_concerns := [ {| label := "Acne"; prob := 0.4 |} ];
              low_concerns := [ {| label := "Blackheads"; prob := 0.2 |} ] |}
           "Acne"
           {| entry_prob := 0.4; entry_source := ["conditions"; "lesions"] |}).
  - vm_compute. reflexivity.
  - vm_compute. reflexivity.
Defined.

(** X12.  The fusion part of the API's face analysis never raises, and in
    the merged dictionary it returns every probability is at least 0.15 and
    no key is one of the three skin-type labels. *)
Theorem analyze_face_merged
    (cond_all_results lesion_all_results : list Prediction) :
  exists combined merged,
    App._analyze_face_from_path cond_all_results lesion_all_results
    = Py.Ok (combined, merged)
    /\ merged = merge_concerns_sections combined
    /\ (forall lbl e, Py.get merged lbl = Some e ->
          0.15 <= entry_prob e
          /\ ~ In lbl ["Oily Skin"; "Dry Skin"; "Normal Skin"]).
Proof.
  unfold App._analyze_face_from_path.
  destruct (run_combined_AI_from_cv2 cond_all_results lesion_all_results
              ["Oily Skin"; "Dry Skin"; "Normal Skin"] 0.15 0.30 0.15
              LESION_TO_CONCERN) as [r|ex] eqn:Hrun.
  2:{ exfalso. unfold run_combined_AI_from_cv2 in Hrun. simpl in Hrun.
      destruct (_split_other_concerns _ 0.30 0.15); discriminate. }
  exists r, (merge_concerns_sections r).
  split; [reflexivity|]. split; [reflexivity|].
  intros lbl e Hget.
  apply merged_entry_origin in Hget as (d & Hd & <- & <-).
  apply run_ok_fields in Hrun as (_ & Hsc & Hother & Hlow).
  apply in_app_or in Hd as [Hd|Hd].
  - rewrite Hsc in Hd. apply skin_concerns_In in Hd. tauto.
  - assert (Hconcern : ~ In (label d) ["Oily Skin"; "Dry Skin"; "Normal Skin"]).
    { rewrite Hother, Hlow in Hd.
      apply tier_label_origin in Hd as (l & _ & Hc).
      exact (production_concern_not_skin_type _ _ Hc). }
    split; [|exact Hconcern].
    apply in_app_or in Hd as [Hd|Hd].
    + rewrite Hother in Hd. apply in_high in Hd as [_ Hd].
      eapply Qle_trans; [|exact Hd]. unfold Qle; simpl; lia.
    + rewrite Hlow in Hd. apply in_low in Hd. tauto.
Qed.

(** ** Scoring a product against a profile *)

Section ScoreFacts.
Variable prod : App.Product.

Lemma score_loop_matches (merged : Py.dict MergedEntry) :
  forall (s : Q) (ms : list string),
    snd (fold_left (App.score_step (App.concerns prod)) merged (s, ms))
    = ms ++ map fst (matched_items prod merged).
Proof.
  induction merged as [|[lbl e] merged IH]; intros s ms; simpl.
  - rewrite app_nil_r. reflexivity.
  - destruct (existsb (String.eqb lbl) (App.concerns prod)); simpl.
    + rewrite IH, <- app_assoc. reflexivity.
    + apply IH.
Qed.

Lemma score_loop_lower (merged : Py.dict MergedEntry) :
  Forall (fun item => 0 <= entry_prob (snd item)) merged ->
  forall (s : Q) (ms : list string),
    s <= fst (fold_left (App.score_step (App.concerns prod)) merged (s, ms)).
Proof.
  induction 1 as [|[lbl e] merged He _ IH]; intros s ms; simpl.
  - apply Qle_refl.
  - simpl in He. destruct (existsb (String.eqb lbl) (App.concerns prod)).
    + eapply Qle_trans; [|apply IH]. lra.
    + apply IH.
Qed.

Lemma score_loop_upper (merged : Py.dict MergedEntry) :
  Forall (fun item => entry_prob (snd item) <= 1) merged ->
  forall (s : Q) (ms : list string),
    fst (fold_left (App.score_step (App.concerns prod)) merged (s, ms))
    <= s + 2 * inject_Z (Z.of_nat (length (matched_items prod merged))).
Proof.
  induction 1 as [|[lbl e] merged He _ IH]; intros s ms; simpl.
  - change (inject_Z 0) with 0. lra.
  - simpl in He. destruct (existsb (String.eqb lbl) (App.concerns prod)).
    + eapply Qle_trans; [apply IH|].
      simpl length. rewrite Nat2Z.inj_succ. unfold Z.succ.
      rewrite inject_Z_plus. change (inject_Z 1) with 1. lra.
    + apply IH.
Qed.

Lemma score_loop_none (merged : Py.dict MergedEntry) :
  matched_items prod merged = [] ->
  forall (s : Q) (ms : list string),
    fold_left (App.score_step (App.concerns prod)) merged (s, ms) = (s, ms).
Proof.
  unfold matched_items.
  induction merged as [|[lbl e] merged IH]; intros Hnone s ms; simpl;
    [reflexivity|].
  simpl in Hnone.
  destruct (existsb (String.eqb lbl) (App.concerns prod)); [discriminate|].
  apply IH, Hnone.
Qed.

Lemma score_loop_positive (merged : Py.dict MergedEntry) :
  probs_positive merged -> matched_items prod merged <> [] ->
  forall (s : Q) (ms : list string),
    s < fst (fold_left (App.score_step (App.concerns prod)) merged (s, ms)).
Proof.
  unfold probs_positive, matched_items.
  induction 1 as [|[lbl e] merged He Hall IH]; intros Hsome s ms; simpl.
  - exfalso. apply Hsome. reflexivity.
  - simpl in He, Hsome.
    destruct (existsb (String.eqb lbl) (App.concerns prod)).
    + eapply Qlt_le_trans; [|apply score_loop_lower].
      * lra.
      * eapply Forall_impl; [|exact Hall].
        intros item Hitem. apply Qlt_le_weak, Hitem.
    + apply IH, Hsome.
Qed.

(** The function as its loop followed by the skin-type bonus. *)
Lemma score_unfold (merged : Py.dict MergedEntry) (skin_label : option string) :
  App._score_product_for_profile prod merged skin_label
  = let r := fold_left (App.score_step (App.concerns prod)) merged (0, []) in
    match matched_skin_key prod skin_label with
    | Some key => (fst r + 1, snd r ++ [String.append "skin:" key])
    | None => r
    end.
Proof.
  unfold App._score_product_for_profile, matched_skin_key.
  destruct (fold_left (App.score_step (App.concerns prod)) merged (0, []))
    as [score matches].
  cbv beta iota zeta. cbn [fst snd].
  match goal with
  | |- context [Py.get ?t ?k] => destruct (Py.get t k) as [key|]
  end; [|reflexivity].
  destruct (negb (String.eqb key "")
            && existsb (String.eqb key) (App.skin_types prod)); reflexivity.
Qed.

End ScoreFacts.

(** X13.  The list of matches is the list of merged labels that are
    concerns of the product, in the order of the merged dictionary,
    followed by the skin tag when the product lists the caller's skin type;
    with merged probabilities in [0,1] the score lies between 0 and twice
    the number of matched concerns plus the skin bonus. *)
Theorem score_matches_and_bounds (prod : App.Product)
    (merged : Py.dict MergedEntry) (skin_label : option string) :
  probs_in_unit merged ->
  let r := App._score_product_for_profile prod merged skin_label in
  let bonus := match matched_skin_key prod skin_label with
               | Some _ => 1 | None => 0 end in
  snd r
  = map fst (matched_items prod merged)
    ++ match matched_skin_key prod skin_label with
       | Some key => [String.append "skin:" key]
       | None => []
       end
  /\ bonus <= fst r
  /\ fst r
     <= 2 * inject_Z (Z.of_nat (length (matched_items prod merged))) + bonus.
Proof.
  intros Hunit r bonus. unfold r, bonus. rewrite score_unfold.
  pose proof (score_loop_matches prod merged 0 []) as Hm.
  assert (Hlo : 0 <= fst (fold_left (App.score_step (App.concerns prod))
                            merged (0, []))).
  { apply score_loop_lower. eapply Forall_impl; [|exact Hunit].
    intros item Hitem. apply Hitem. }
  assert (Hup : fst (fold_left (App.score_step (App.concerns prod))
                       merged (0, []))
                <= 0 + 2 * inject_Z (Z.of_nat
                                       (length (matched_items prod merged)))).
  { apply score_loop_upper. eapply Forall_impl; [|exact Hunit].
    intros item Hitem. apply Hitem. }
  simpl in Hm.
  destruct (matched_skin_key prod skin_label) as [key|]; simpl.
  - rewrite Hm. split; [reflexivity|]. split; lra.
  - rewrite Hm, app_nil_r. split; [reflexivity|]. split; lra.
Qed.

Lemma score_matches_and_bounds_witness :
  let prod := {| App.concerns := ["Acne"; "Redness"];
                 App.skin_types := ["oily_skin"] |} in
  let merged :=
    [ ("Acne", {| entry_prob := 0.6; entry_source := ["conditions"] |});
      ("Blackheads", {| entry_prob := 0.2; entry_source := ["lesions-low"] |});
      ("Redness", {| entry_prob := 0.3; entry_source := ["lesions"] |}) ] in
  let r := App._score_product_for_profile prod merged (Some " Oily Skin ") in
  let bonus := match matched_skin_key prod (Some " Oily Skin ") with
               | Some _ => 1 | None => 0 end in
  snd r
  = map fst (matched_items prod merged)
    ++ match matched_skin_key prod (Some " Oily Skin ") with
       | Some key => [String.append "skin:" key]
       | None => []
       end
  /\ bonus <= fst r
  /\ fst r
     <= 2 * inject_Z (Z.of_nat (length (matched_items prod merged))) + bonus.
Proof.
  apply (score_matches_and_bounds
           {| App.concerns := ["Acne"; "Redness"];
              App.skin_types := ["oily_skin"] |}
           [ ("Acne", {| entry_prob := 0.6; entry_source := ["conditions"] |});
             ("Blackheads",
              {| entry_prob := 0.2; entry_source := ["lesions-low"] |});
             ("Redness", {| entry_prob := 0.3; entry_source := ["lesions"] |}) ]
           (Some " Oily Skin ")).
  repeat (constructor; [simpl; split; unfold Qle; simpl; lia|]). constructor.
Defined.

(** X14.  A product that matches nothing scores exactly 0 with an empty
    match list; with positive merged probabilities the score is positive
    exactly when the match list is not empty, so the products the
    recommendation drops for a score of 0 or less are those that match
    nothing. *)
Theorem score_positive_iff_match (prod : App.Product)
    (merged : Py.dict MergedEntry) (skin_label : option string) :
  probs_positive merged ->
  let r := App._score_product_for_profile prod merged skin_label in
  (snd r = [] -> fst r = 0)
  /\ (0 < fst r <-> snd r <> []).
Proof.
  intros Hpos r. unfold r. rewrite score_unfold.
  pose proof (score_loop_matches prod merged 0 []) as Hm. simpl in Hm.
  assert (Hnonneg : Forall (fun item => 0 <= entry_prob (snd item)) merged).
  { eapply Forall_impl; [|exact Hpos]. intros item Hitem.
    apply Qlt_le_weak, Hitem. }
  pose proof (score_loop_lower prod merged Hnonneg 0 []) as Hlo.
  destruct (matched_skin_key prod skin_label) as [key|]; simpl.
  - split.
    + intro Hnil. destruct (snd (fold_left _ merged (0, []))); discriminate.
    + split.
      * intros _ Hnil.
        destruct (snd (fold_left _ merged (0, []))); discriminate.
      * intros _. lra.
  - destruct (matched_items prod merged) as [|item items] eqn:Em.
    + rewrite (score_loop_none prod merged Em 0 []). simpl.
      split; [reflexivity|]. split.
      * intro H. exfalso. exact (Qlt_irrefl _ H).
      * intro H. congruence.
    + pose proof (score_loop_positive prod merged Hpos) as Hgt.
      rewrite Em in Hgt. specialize (Hgt ltac:(discriminate) 0 []).
      rewrite Hm. simpl. split; [discriminate|]. split.
      * intros _. discriminate.
      * intros _. exact Hgt.
Qed.

Lemma score_positive_iff_match_witness :
  let prod := {| App.concerns := ["Acne"; "Redness"];
                 App.skin_types := ["oily_skin"] |} in
  let merged :=
    [ ("Acne", {| entry_prob := 0.6; entry_source := ["conditions"] |});
      ("Blackheads", {| entry_prob := 0.2; entry_source := ["lesions-low"] |}) ] in
  let r := App._score_product_for_profile prod merged None in
  (snd r = [] -> fst r = 0)
  /\ (0 < fst r <-> snd r <> []).
Proof.
  apply (score_positive_iff_match
           {| App.concerns := ["Acne"; "Redness"];
              App.skin_types := ["oily_skin"] |}
           [ ("Acne", {| entry_prob := 0.6; entry_source := ["conditions"] |});
             ("Blackheads",
              {| entry_prob := 0.2; entry_source := ["lesions-low"] |}) ]
           None).
  repeat (constructor; [simpl; unfold Qlt; simpl; lia|]). constructor.
Defined.

(** ** Signal combination: range *)

Section CombineAlgebra.
Import Combined_Predict.

Lemma prod_le_acc (l : list Q) :
  in_unit_interval l ->
  forall acc, 0 <= acc ->
    fold_left (fun prod q => prod * (1 - q)) l acc <= acc.
Proof.
  induction 1 as [|x l [Hx0 Hx1] _ IH]; intros acc Hacc; simpl.
  - apply Qle_refl.
  - eapply Qle_trans; [apply IH; nra | nra].
Qed.

Lemma prod_le_factor (l : list Q) (q : Q) :
  in_unit_interval l -> In q l ->
  forall acc, 0 <= acc ->
    fold_left (fun prod x => prod * (1 - x)) l acc <= acc * (1 - q).
Proof.
  induction 1 as [|x l [Hx0 Hx1] Hall IH]; intros Hin acc Hacc; simpl.
  - destruct Hin.
  - destruct Hin as [->|Hin].
    + apply prod_le_acc; [exact Hall | nra].
    + eapply Qle_trans; [apply IH; [exact Hin | nra]|].
      assert (Hq : 0 <= q /\ q <= 1).
      { unfold in_unit_interval in Hall. rewrite Forall_forall in Hall.
        apply Hall, Hin. }
      assert (Ht : 0 <= acc * (1 - q)) by (apply Qmult_le_0_compat; lra).
      assert (Hx : 0 <= acc * (1 - q) * x)
        by (apply Qmult_le_0_compat; assumption).
      nra.
Qed.

Lemma sum_lower (l : list Q) :
  in_unit_interval l -> forall acc, acc <= fold_left Qplus l acc.
Proof.
  induction 1 as [|x l [Hx0 Hx1] _ IH]; intro acc; simpl.
  - apply Qle_refl.
  - eapply Qle_trans; [|apply IH]. lra.
Qed.

Lemma sum_upper (l : list Q) (m : Q) :
  (forall x, In x l -> x <= m) ->
  forall acc,
    fold_left Qplus l acc <= acc + inject_Z (Z.of_nat (length l)) * m.
Proof.
  induction l as [|x l IH]; intros Hall acc.
  - simpl. change (inject_Z 0) with 0. lra.
  - simpl fold_left. simpl length.
    eapply Qle_trans; [apply IH; intros y Hy; apply Hall; right; exact Hy|].
    rewrite Nat2Z.inj_succ. unfold Z.succ. rewrite inject_Z_plus.
    change (inject_Z 1) with 1.
    pose proof (Hall x (or_introl eq_refl)). lra.
Qed.

(** The three methods, on a non-empty list, freed of the method test. *)
Lemma combine_max_eq (v : Q) (vs : list Q) :
  combine_probs "max" (v :: vs) = Py.max_key (fun x => x) v vs.
Proof. reflexivity. Qed.

Lemma combine_avg_eq (v : Q) (vs : list Q) :
  combine_probs "avg" (v :: vs)
  = fold_left Qplus (v :: vs) 0 / inject_Z (Z.of_nat (length (v :: vs))).
Proof. reflexivity. Qed.

Lemma combine_noisy_or_eq (l : list Q) :
  combine_probs "noisy_or" l
  == 1 - fold_left (fun prod q => prod * (1 - q)) l 1.
Proof.
  destruct l as [|v vs].
  - simpl. ring.
  - reflexivity.
Qed.

Lemma combine_method_cases (method : string) (v : Q) (vs : list Q) :
  combine_probs method (v :: vs) = combine_probs "max" (v :: vs)
  \/ combine_probs method (v :: vs) = combine_probs "avg" (v :: vs)
  \/ combine_probs method (v :: vs) = combine_probs "noisy_or" (v :: vs).
Proof.
  unfold combine_probs.
  destruct (String.eqb method "max"); [left; reflexivity|].
  destruct (String.eqb method "avg"); [right; left; reflexivity|].
  right; right; reflexivity.
Qed.

Lemma max_in_unit (v : Q) (vs : list Q) :
  in_unit_interval (v :: vs) ->
  0 <= combine_probs "max" (v :: vs) /\ combine_probs "max" (v :: vs) <= 1.
Proof.
  intro Hall. rewrite combine_max_eq.
  unfold in_unit_interval in Hall. rewrite Forall_forall in Hall.
  apply Hall, max_key_In.
Qed.

Lemma max_upper_bound (v : Q) (vs : list Q) (x : Q) :
  In x (v :: vs) -> x <= combine_probs "max" (v :: vs).
Proof.
  intro Hx. rewrite combine_max_eq.
  destruct (max_key_first (fun x => x) v vs) as (pre & post & Heq & Hpre & Hpost).
  rewrite Heq in Hx. apply in_app_or in Hx as [Hx|[<-|Hx]].
  - apply Qlt_le_weak, (Hpre x Hx).
  - apply Qle_refl.
  - apply (Hpost x Hx).
Qed.

Lemma avg_le_max (v : Q) (vs : list Q) :
  combine_probs "avg" (v :: vs) <= combine_probs "max" (v :: vs).
Proof.
  rewrite combine_avg_eq.
  apply Qle_shift_div_r; [apply len_pos|].
  eapply Qle_trans; [apply (sum_upper (v :: vs) (combine_probs "max" (v :: vs)))|].
  - intros x Hx. apply max_upper_bound, Hx.
  - lra.
Qed.

Lemma avg_nonneg (v : Q) (vs : list Q) :
  in_unit_interval (v :: vs) -> 0 <= combine_probs "avg" (v :: vs).
Proof.
  intro Hall. rewrite combine_avg_eq.
  apply Qle_shift_div_l; [apply len_pos|].
  eapply Qle_trans; [|apply sum_lower, Hall]. lra.
Qed.

Lemma max_le_noisy_or (v : Q) (vs : list Q) :
  in_unit_interval (v :: vs) ->
  combine_probs "max" (v :: vs) <= combine_probs "noisy_or" (v :: vs).
Proof.
  intro Hall. rewrite combine_noisy_or_eq.
  pose proof (prod_le_factor (v :: vs) (combine_probs "max" (v :: vs)) Hall)
    as Hle.
  rewrite combine_max_eq in *.
  specialize (Hle (max_key_In (fun x => x) v vs) 1 ltac:(lra)).
  lra.
Qed.

Lemma noisy_or_le_one (l : list Q) :
  in_unit_interval l -> combine_probs "noisy_or" l <= 1.
Proof.
  intro Hall. rewrite combine_noisy_or_eq.
  pose proof (prod_nonneg l 1 Hall ltac:(lra)). lra.
Qed.

End CombineAlgebra.

(** X15.  For contributor probabilities in [0,1] the combined value lies in
    [0,1], whichever method is configured and also for an empty bucket. *)
Theorem combine_in_unit_interval (method : string) (values : list Q) :
  in_unit_interval values ->
  0 <= Combined_Predict.combine_probs method values
  /\ Combined_Predict.combine_probs method values <= 1.
Proof.
  intro Hall. destruct values as [|v vs].
  - simpl. split; lra.
  - pose proof (max_in_unit v vs Hall) as [Hm0 Hm1].
    pose proof (avg_le_max v vs) as Ham.
    pose proof (avg_nonneg v vs Hall) as Ha0.
    pose proof (max_le_noisy_or v vs Hall) as Hmn.
    pose proof (noisy_or_le_one (v :: vs) Hall) as Hn1.
    destruct (combine_method_cases method v vs) as [->|[->| ->]]; split; lra.
Qed.

Lemma combine_in_unit_interval_witness :
  0 <= Combined_Predict.combine_probs "noisy_or" [0.2; 0.2; 0.2]
  /\ Combined_Predict.combine_probs "noisy_or" [0.2; 0.2; 0.2] <= 1.
Proof.
  apply (combine_in_unit_interval "noisy_or" [0.2; 0.2; 0.2]).
  repeat (constructor; [split; unfold Qle; simpl; lia|]). constructor.
Defined.

(** ** Canonical skin-type names *)

Section CanonicalFacts.
Import Combined_Predict.

Lemma is_space_lower (c : ascii) : is_space (lower_ascii c) = is_space c.
Proof. destruct c as [[] [] [] [] [] [] [] []]; vm_compute; reflexivity. Qed.

Lemma lower_ascii_idem (c : ascii) :
  lower_ascii (lower_ascii c) = lower_ascii c.
Proof. destruct c as [[] [] [] [] [] [] [] []]; vm_compute; reflexivity. Qed.

Lemma lstrip_map_lower (l : list ascii) :
  lstrip (map lower_ascii l) = map lower_ascii (lstrip l).
Proof.
  induction l as [|c l IH]; simpl; [reflexivity|].
  rewrite is_space_lower. destruct (is_space c); [exact IH | reflexivity].
Qed.

Lemma lstrip_spaces_app (ws l : list ascii) :
  forallb is_space ws = true -> lstrip (ws ++ l) = lstrip l.
Proof.
  induction ws as [|c ws IH]; simpl; [reflexivity|].
  intro H. apply andb_true_iff in H as [Hc Hws]. rewrite Hc. apply IH, Hws.
Qed.

Lemma lstrip_all_space (ws : list ascii) :
  forallb is_space ws = true -> lstrip ws = [].
Proof.
  intro H. rewrite <- (app_nil_r ws). rewrite lstrip_spaces_app by exact H.
  reflexivity.
Qed.

Lemma lstrip_app_spaces (l ws : list ascii) :
  forallb is_space ws = true ->
  lstrip (l ++ ws)
  = match lstrip l with
    | [] => []
    | x :: t => (x :: t) ++ ws
    end.
Proof.
  intro Hws. induction l as [|c l IH]; simpl.
  - apply lstrip_all_space, Hws.
  - destruct (is_space c); [exact IH | reflexivity].
Qed.

Lemma forallb_rev {A : Type} (f : A -> bool) (l : list A) :
  forallb f (rev l) = forallb f l.
Proof.
  destruct (forallb f l) eqn:E.
  - rewrite forallb_forall in *. intros x Hx. apply E, in_rev, Hx.
  - destruct (forallb f (rev l)) eqn:E'; [|reflexivity].
    rewrite forallb_forall in E'.
    assert (forallb f l = true).
    { apply forallb_forall. intros x Hx. apply E'. rewrite <- in_rev. exact Hx. }
    congruence.
Qed.

(** The characters kept by [strip]. *)
Lemma strip_chars_app_spaces (l ws : list ascii) :
  forallb is_space ws = true ->
  rev (lstrip (rev (lstrip (l ++ ws)))) = rev (lstrip (rev (lstrip l))).
Proof.
  intro Hws. rewrite (lstrip_app_spaces l ws Hws).
  destruct (lstrip l) as [|x t]; [reflexivity|].
  rewrite rev_app_distr, lstrip_spaces_app; [reflexivity|].
  rewrite forallb_rev. exact Hws.
Qed.

Lemma list_ascii_of_append (s1 s2 : string) :
  list_ascii_of_string (String.append s1 s2)
  = list_ascii_of_string s1 ++ list_ascii_of_string s2.
Proof.
  induction s1 as [|c s1 IH]; simpl; [reflexivity|]. rewrite IH. reflexivity.
Qed.

Lemma strip_surrounded (ws ws' name : string) :
  all_space ws -> all_space ws' ->
  strip (String.append ws (String.append name ws')) = strip name.
Proof.
  unfold all_space, strip. intros Hws Hws'.
  rewrite !list_ascii_of_append.
  rewrite (lstrip_spaces_app _ _ Hws).
  rewrite (strip_chars_app_spaces _ _ Hws'). reflexivity.
Qed.

Lemma lower_strip_commute (s : string) : lower (strip s) = strip (lower s).
Proof.
  unfold lower, strip. rewrite !list_ascii_of_string_of_list_ascii.
  rewrite map_rev, <- lstrip_map_lower, map_rev, <- lstrip_map_lower.
  reflexivity.
Qed.

Lemma alias_values (key canon : string) :
  Py.get SKIN_ALIASES key = Some canon ->
  In canon SKIN_SET /\ canonical_skin_name canon = Some canon.
Proof.
  intro Hget. apply get_In in Hget. unfold SKIN_ALIASES in Hget.
  simpl in Hget.
  repeat (destruct Hget as [Hget|Hget];
          [injection Hget as _ <-; split;
           [simpl; tauto | vm_compute; reflexivity]|]).
  destruct Hget.
Qed.

End CanonicalFacts.

(** X19.  Whatever name is canonicalised, the result is one of the three
    skin types of SKIN_SET, and canonicalising a result gives it back. *)
Theorem canonical_range_idempotent (name canon : string) :
  Combined_Predict.canonical_skin_name name = Some canon ->
  In canon Combined_Predict.SKIN_SET
  /\ Combined_Predict.canonical_skin_name canon = Some canon.
Proof. unfold Combined_Predict.canonical_skin_name at 1. apply alias_values. Qed.

Lemma canonical_range_idempotent_witness :
  In "Oily Skin" Combined_Predict.SKIN_SET
  /\ Combined_Predict.canonical_skin_name "Oily Skin" = Some "Oily Skin".
Proof.
  apply (canonical_range_idempotent "  OILY " "Oily Skin").
  vm_compute. reflexivity.
Defined.

(** X20.  ASCII whitespace around a name does not change its canonical skin
    type. *)
Theorem canonical_ignores_surrounding_space (ws ws' name : string) :
  all_space ws -> all_space ws' ->
  Combined_Predict.canonical_skin_name
    (String.append ws (String.append name ws'))
  = Combined_Predict.canonical_skin_name name.
Proof.
  intros Hws Hws'. unfold Combined_Predict.canonical_skin_name.
  rewrite strip_surrounded by assumption. reflexivity.
Qed.

Lemma canonical_ignores_surrounding_space_witness :
  Combined_Predict.canonical_skin_name
    (String.append "  " (String.append "Dry skin" " "))
  = Combined_Predict.canonical_skin_name "Dry skin".
Proof.
  apply (canonical_ignores_surrounding_space "  " " " "Dry skin");
    vm_compute; reflexivity.
Defined.

(** X21.  Two names that differ in ASCII letter case only have the same
    canonical skin type. *)
Theorem canonical_ignores_case (name name' : string) :
  Combined_Predict.lower name = Combined_Predict.lower name' ->
  Combined_Predict.canonical_skin_name name
  = Combined_Predict.canonical_skin_name name'.
Proof.
  intro Heq. unfold Combined_Predict.canonical_skin_name.
  rewrite !lower_strip_commute, Heq. reflexivity.
Qed.

Lemma canonical_ignores_case_witness :
  Combined_Predict.canonical_skin_name "NORMAL Skin"
  = Combined_Predict.canonical_skin_name "normal skin".
Proof.
  apply (canonical_ignores_case "NORMAL Skin" "normal skin").
  vm_compute. reflexivity.
Defined.

(** ** Sorting by the negated key, and cuts *)

Section SortIdioms.
Context {A : Type}.
Variable key : A -> Q.

(** [sort(key=lambda z: -key(z))] is [sort(key=key, reverse=True)]. *)
Lemma sort_neg_key (l : list A) :
  Py.sort (fun z => - key z) false l = Py.sort key true l.
Proof.
  assert (Hgo : forall a y,
             Py.goes_before (fun z => - key z) false a y
             = Py.goes_before key true a y).
  { intros a y. unfold Py.goes_before.
    destruct (Qle_bool (key y) (key a)) eqn:E.
    - apply Qle_bool_iff. apply Qle_bool_iff in E. lra.
    - destruct (Qle_bool (- key a) (- key y)) eqn:E'; [|reflexivity].
      apply Qle_bool_iff in E'.
      assert (Hle : Qle_bool (key y) (key a) = true)
        by (apply Qle_bool_iff; lra).
      congruence. }
  induction l as [|a l IH]; cbn [Py.sort]; [reflexivity|]. rewrite IH.
  generalize (Py.sort key true l). intro s.
  induction s as [|y s IHs]; cbn [Py.insert]; [reflexivity|].
  rewrite Hgo, IHs. reflexivity.
Qed.

Lemma firstn_In (n : nat) (l : list A) (x : A) :
  In x (firstn n l) -> In x l.
Proof.
  intro Hx. rewrite <- (firstn_skipn n l). apply in_or_app. left. exact Hx.
Qed.

Lemma firstn_sorted (n : nat) (l : list A) :
  StronglySorted (Py.descending key) l ->
  StronglySorted (Py.descending key) (firstn n l).
Proof.
  intro Hs. revert n. induction Hs as [|a l Hs IH Hall]; intro n.
  - rewrite firstn_nil. constructor.
  - destruct n as [|n]; simpl; [constructor|].
    constructor; [apply IH|].
    rewrite Forall_forall in *. intros x Hx.
    apply Hall. eapply firstn_In; eassumption.
Qed.

Lemma slice_to_firstn (k : Z) (l : list A) :
  exists n, Py.slice_to k l = firstn n l.
Proof.
  unfold Py.slice_to. destruct (0 <=? k)%Z; eexists; reflexivity.
Qed.

Lemma slice_to_length (k : Z) (l : list A) :
  (0 <= k)%Z -> (length (Py.slice_to k l) <= Z.to_nat k)%nat.
Proof.
  intro Hk. unfold Py.slice_to.
  apply Z.leb_le in Hk. rewrite Hk. apply firstn_le_length.
Qed.

Lemma slice_to_all (k : Z) (l : list A) :
  (Z.of_nat (length l) <= k)%Z -> Py.slice_to k l = l.
Proof.
  intro Hk. unfold Py.slice_to.
  assert (H0 : (0 <=? k)%Z = true) by (apply Z.leb_le; lia).
  rewrite H0. apply firstn_all2. lia.
Qed.

End SortIdioms.

(** ** The script's pickers over classes and probabilities *)

Section ScriptPickerFacts.
Import Combined_Predict.
Variable probs : list Q.

Lemma skipn_cons_nth (l : list Q) :
  forall i p, nth_error l i = Some p -> skipn i l = p :: skipn (S i) l.
Proof.
  induction l as [|x l IH]; intros [|i] p H; simpl in *; try discriminate.
  - injection H as ->. reflexivity.
  - apply IH, H.
Qed.

Lemma nth_error_in_range (l : list Q) (i : nat) :
  (i < length l)%nat -> exists p, nth_error l i = Some p.
Proof.
  intro Hi. destruct (nth_error l i) as [p|] eqn:E; [eauto|].
  apply nth_error_None in E. lia.
Qed.

Lemma canonical_in_skin_set (name canon : string) :
  canonical_skin_name name = Some canon ->
  existsb (String.eqb canon) SKIN_SET = true.
Proof.
  intro H. apply alias_values in H as [Hin _].
  apply existsb_exists. exists canon. split; [exact Hin | apply String.eqb_refl].
Qed.

Lemma canonical_truthy (name : string) :
  truthy (canonical_skin_name name) = true
  <-> canonical_skin_name name <> None.
Proof.
  destruct (canonical_skin_name name) as [canon|] eqn:E; simpl.
  - split; [discriminate|]. intros _.
    apply alias_values in E as [Hin _]. simpl in Hin.
    destruct Hin as [<-|[<-|[<-|[]]]]; reflexivity.
  - split; [discriminate | congruence].
Qed.

Lemma collect_skin_items_zip (classes : list string) :
  forall (i : nat) (acc : list (string * Q)),
    (i + length classes <= length probs)%nat ->
    collect_skin_items i classes probs acc
    = Py.Ok (acc ++ skin_pairs (combine classes (skipn i probs))).
Proof.
  induction classes as [|name rest IH]; intros i acc Hlen.
  - simpl. rewrite app_nil_r. reflexivity.
  - simpl in Hlen.
    destruct (nth_error_in_range probs i ltac:(lia)) as [p Hp].
    rewrite (skipn_cons_nth _ _ _ Hp). cbn [combine skin_pairs flat_map fst snd].
    cbn [collect_skin_items].
    destruct (canonical_skin_name name) as [canon|] eqn:Ec.
    + rewrite (canonical_in_skin_set _ _ Ec), Hp.
      rewrite IH by lia. rewrite <- app_assoc. reflexivity.
    + rewrite IH by lia. reflexivity.
Qed.

Lemma collect_non_skin_zip (classes : list string) :
  forall (i : nat) (acc : list (string * Q)),
    (i + length classes <= length probs)%nat ->
    collect_non_skin i classes probs acc
    = Py.Ok (acc ++ filter is_non_skin (combine classes (skipn i probs))).
Proof.
  induction classes as [|name rest IH]; intros i acc Hlen.
  - simpl. rewrite app_nil_r. reflexivity.
  - simpl in Hlen.
    destruct (nth_error_in_range probs i ltac:(lia)) as [p Hp].
    rewrite (skipn_cons_nth _ _ _ Hp). cbn [combine filter].
    cbn [collect_non_skin]. unfold is_non_skin at 1. cbn [fst].
    destruct (existsb (String.eqb name) IGNORE_CLASSES); cbn [negb andb].
    + apply IH. lia.
    + destruct (truthy (canonical_skin_name name)); cbn [negb].
      * apply IH. lia.
      * rewrite Hp, IH by lia. rewrite <- app_assoc. reflexivity.
Qed.

Lemma skin_pairs_In (zipped : list (string * Q)) (c : string) (p : Q) :
  In (c, p) (skin_pairs zipped)
  <-> exists name, In (name, p) zipped /\ canonical_skin_name name = Some c.
Proof.
  unfold skin_pairs. rewrite in_flat_map. split.
  - intros [[name q] [Hin Hc]]. simpl in Hc.
    destruct (canonical_skin_name name) as [canon|] eqn:E; [|destruct Hc].
    destruct Hc as [[= <- <-]|[]]. exists name. auto.
  - intros [name [Hin Hc]]. exists (name, p). split; [exact Hin|].
    simpl. rewrite Hc. left. reflexivity.
Qed.

Lemma in_combine_of_class (classes : list string) :
  forall (ps : list Q) (name : string),
    (length classes <= length ps)%nat -> In name classes ->
    exists p, In (name, p) (combine classes ps).
Proof.
  induction classes as [|c rest IH]; intros ps name Hlen Hin; [destruct Hin|].
  destruct ps as [|p ps]; simpl in Hlen; [lia|].
  destruct Hin as [->|Hin].
  - exists p. left. reflexivity.
  - destruct (IH ps name ltac:(lia) Hin) as [q Hq]. exists q. right. exact Hq.
Qed.

(** The first item of a descending sort is an item of the list and no item
    of the list is above it. *)
Lemma sort_head_is_max {A : Type} (key : A -> Q) (l : list A) (top : A)
    (rest : list A) :
  Py.sort key true l = top :: rest ->
  In top l /\ (forall x, In x l -> key x <= key top).
Proof.
  intro Hs. pose proof (sort_descending key l) as Hsorted.
  rewrite Hs in Hsorted. inversion Hsorted as [|? ? _ Hall]; subst.
  split.
  - apply (sort_In key true). rewrite Hs. left. reflexivity.
  - intros x Hx. apply (sort_In key true) in Hx. rewrite Hs in Hx.
    destruct Hx as [<-|Hx]; [apply Qle_refl|].
    rewrite Forall_forall in Hall. apply Hall, Hx.
Qed.

End ScriptPickerFacts.

(** X22.  When every class has a probability, the script's pick_skin_type
    does not raise; it returns None exactly when no class name is an alias
    of a skin type; and a returned pair holds a skin type of SKIN_SET
    together with the probability of a class of that type, which is not
    below the probability of any class that is an alias of a skin type. *)
Theorem script_pick_skin_type_max (classes : list string) (probs : list Q) :
  (length classes <= length probs)%nat ->
  (exists r, Combined_Predict.pick_skin_type classes probs = Py.Ok r)
  /\ (Combined_Predict.pick_skin_type classes probs = Py.Ok None
      <-> forall name, In name classes ->
                       Combined_Predict.canonical_skin_name name = None)
  /\ (forall c p,
        Combined_Predict.pick_skin_type classes probs = Py.Ok (Some (c, p)) ->
        In c Combined_Predict.SKIN_SET
        /\ (exists name, In (name, p) (combine classes probs)
                         /\ Combined_Predict.canonical_skin_name name = Some c)
        /\ (forall name' c' p',
              In (name', p') (combine classes probs) ->
              Combined_Predict.canonical_skin_name name' = Some c' ->
              p' <= p)).
Proof.
  intro Hlen. unfold Combined_Predict.pick_skin_type.
  rewrite (collect_skin_items_zip probs classes 0 []) by (simpl; lia).
  cbn [skipn app]. rewrite sort_neg_key.
  set (items := skin_pairs (combine classes probs)).
  destruct (Py.sort snd true items) as [|top rest] eqn:Es.
  - assert (Hnil : items = []).
    { pose proof (sort_perm snd true items) as Hp. rewrite Es in Hp.
      apply Permutation_nil in Hp. exact Hp. }
    split; [eexists; reflexivity|]. split; [|discriminate].
    split; [|reflexivity]. intros _ name Hin.
    destruct (Combined_Predict.canonical_skin_name name) as [c|] eqn:Ec;
      [|reflexivity].
    destruct (in_combine_of_class classes probs name Hlen Hin) as [p Hp].
    assert (Hitem : In (c, p) items) by (apply skin_pairs_In; eauto).
    rewrite Hnil in Hitem. destruct Hitem.
  - apply sort_head_is_max in Es as [Htop Hmax].
    split; [eexists; reflexivity|]. split.
    + split; [discriminate|]. intro Hnone. exfalso.
      destruct top as [c p]. apply skin_pairs_In in Htop as [name [Hin Hc]].
      apply in_combine_l in Hin. rewrite (Hnone name Hin) in Hc. discriminate.
    + intros c p [= ->]. pose proof Htop as Htop'.
      apply skin_pairs_In in Htop' as [name [Hin Hc]].
      split; [exact (proj1 (alias_values _ _ Hc))|].
      split; [exists name; auto|].
      intros name' c' p' Hin' Hc'.
      apply (Hmax (c', p')). apply skin_pairs_In. eauto.
Qed.

Lemma script_pick_skin_type_max_witness :
  (exists r, Combined_Predict.pick_skin_type
               ["Acne"; " Dry"; "oily"] [0.1; 0.3; 0.4] = Py.Ok r)
  /\ (Combined_Predict.pick_skin_type
        ["Acne"; " Dry"; "oily"] [0.1; 0.3; 0.4] = Py.Ok None
      <-> forall name, In name ["Acne"; " Dry"; "oily"] ->
                       Combined_Predict.canonical_skin_name name = None)
  /\ (forall c p,
        Combined_Predict.pick_skin_type
          ["Acne"; " Dry"; "oily"] [0.1; 0.3; 0.4] = Py.Ok (Some (c, p)) ->
        In c Combined_Predict.SKIN_SET
        /\ (exists name,
              In (name, p) (combine ["Acne"; " Dry"; "oily"] [0.1; 0.3; 0.4])
              /\ Combined_Predict.canonical_skin_name name = Some c)
        /\ (forall name' c' p',
              In (name', p')
                 (combine ["Acne"; " Dry"; "oily"] [0.1; 0.3; 0.4]) ->
              Combined_Predict.canonical_skin_name name' = Some c' ->
              p' <= p)).
Proof.
  apply (script_pick_skin_type_max ["Acne"; " Dry"; "oily"] [0.1; 0.3; 0.4]).
  simpl. lia.
Defined.

(** X23.  When every class has a probability, conditions_non_skin does not
    raise; it returns exactly the pairs of a class and its probability for
    the classes that are neither ignored nor an alias of a skin type, sorted
    descending by probability. *)
Theorem conditions_non_skin_characterised (classes : list string)
    (probs : list Q) :
  (length classes <= length probs)%nat ->
  exists items,
    Combined_Predict.conditions_non_skin classes probs = Py.Ok items
    /\ (forall name p,
          In (name, p) items <->
          In (name, p) (combine classes probs)
          /\ ~ In name Combined_Predict.IGNORE_CLASSES
          /\ Combined_Predict.canonical_skin_name name = None)
    /\ StronglySorted (Py.descending snd) items.
Proof.
  intro Hlen. unfold Combined_Predict.conditions_non_skin.
  rewrite (collect_non_skin_zip probs classes 0 []) by (simpl; lia).
  cbn [skipn app]. rewrite sort_neg_key.
  eexists. split; [reflexivity|]. split; [|apply sort_descending].
  intros name p. rewrite sort_In, filter_In. unfold is_non_skin. cbn [fst].
  rewrite andb_true_iff, !negb_true_iff.
  assert (Hign : existsb (String.eqb name) Combined_Predict.IGNORE_CLASSES
                 = false <-> ~ In name Combined_Predict.IGNORE_CLASSES).
  { rewrite <- not_true_iff_false, existsb_exists. split.
    - intros H Hin. apply H. exists name. split; [exact Hin|].
      apply String.eqb_refl.
    - intros H [x [Hin Hx]]. apply String.eqb_eq in Hx. subst x. auto. }
  assert (Hcan : Combined_Predict.truthy
                   (Combined_Predict.canonical_skin_name name) = false
                 <-> Combined_Predict.canonical_skin_name name = None).
  { rewrite <- not_true_iff_false, canonical_truthy.
    destruct (Combined_Predict.canonical_skin_name name) as [c|].
    - split; [intro H; exfalso; apply H; discriminate | discriminate].
    - split; [reflexivity | intros _ H; apply H; reflexivity]. }
  rewrite Hign, Hcan. tauto.
Qed.

Lemma conditions_non_skin_characterised_witness :
  exists items,
    Combined_Predict.conditions_non_skin
      ["Acne"; " Dry"; "Do not consider this image"; "Wrinkles"]
      [0.1; 0.3; 0.4; 0.2] = Py.Ok items
    /\ (forall name p,
          In (name, p) items <->
          In (name, p)
             (combine ["Acne"; " Dry"; "Do not consider this image"; "Wrinkles"]
                      [0.1; 0.3; 0.4; 0.2])
          /\ ~ In name Combined_Predict.IGNORE_CLASSES
          /\ Combined_Predict.canonical_skin_name name = None)
    /\ StronglySorted (Py.descending snd) items.
Proof.
  apply (conditions_non_skin_characterised
           ["Acne"; " Dry"; "Do not consider this image"; "Wrinkles"]
           [0.1; 0.3; 0.4; 0.2]).
  simpl. lia.
Defined.

(** ** The script's buckets *)

Section BucketFacts.
Import Combined_Predict.

Lemma bucket_append_get (out : Py.dict (list Q)) (b b' : string) (p : Q) :
  Py.get_default (bucket_append out b p) b' []
  = if String.eqb b b' then Py.get_default out b' [] ++ [p]
    else Py.get_default out b' [].
Proof.
  unfold bucket_append, Py.get_default at 1. rewrite get_set_cases.
  destruct (String.eqb_spec b b') as [->|Hne]; reflexivity.
Qed.

Lemma bucket_append_absent (out : Py.dict (list Q)) (b b' : string) (p : Q) :
  Py.get (bucket_append out b p) b' = None
  <-> b <> b' /\ Py.get out b' = None.
Proof.
  unfold bucket_append. rewrite get_set_cases.
  destruct (String.eqb_spec b b') as [->|Hne].
  - split; [discriminate | intros [H _]; congruence].
  - tauto.
Qed.

Lemma collect_fold_get (bucket : string * Q -> option string) (b : string)
    (zipped : list (string * Q)) :
  forall out,
    Py.get_default (fold_left (collect_step bucket) zipped out) b []
    = Py.get_default out b [] ++ contributions bucket b zipped.
Proof.
  unfold contributions.
  induction zipped as [|np zipped IH]; intro out; cbn [fold_left filter].
  - rewrite app_nil_r. reflexivity.
  - rewrite IH. unfold collect_step.
    destruct (bucket np) as [b'|]; [|reflexivity].
    rewrite bucket_append_get.
    destruct (String.eqb b' b); cbn [map]; [|reflexivity].
    rewrite <- app_assoc. reflexivity.
Qed.

Lemma collect_fold_absent (bucket : string * Q -> option string) (b : string)
    (zipped : list (string * Q)) :
  forall out,
    Py.get (fold_left (collect_step bucket) zipped out) b = None
    <-> Py.get out b = None /\ contributions bucket b zipped = [].
Proof.
  unfold contributions.
  induction zipped as [|np zipped IH]; intro out; cbn [fold_left filter].
  - simpl. tauto.
  - rewrite IH. unfold collect_step.
    destruct (bucket np) as [b'|].
    + rewrite bucket_append_absent.
      destruct (String.eqb_spec b' b) as [->|Hne]; cbn [map].
      * split; [intros [[H _] _]; congruence | intros [_ H]; discriminate].
      * tauto.
    + tauto.
Qed.

Lemma collect_lesions_zip (flag : bool) (probs : list Q)
    (labels : list string) :
  forall (i : nat) (out : Py.dict (list Q)),
    (i + length labels <= length probs)%nat ->
    collect_lesions_from flag i labels probs out
    = Py.Ok (fold_left (collect_step (lesion_bucket flag))
               (combine labels (skipn i probs)) out).
Proof.
  induction labels as [|raw rest IH]; intros i out Hlen; [reflexivity|].
  simpl in Hlen.
  destruct (nth_error_in_range probs i ltac:(lia)) as [p Hp].
  rewrite (skipn_cons_nth _ _ _ Hp). cbn [combine fold_left].
  cbn [collect_lesions_from]. unfold collect_step at 2, lesion_bucket.
  cbn [fst snd].
  destruct (existsb (String.eqb raw) IGNORE_CLASSES); [apply IH; lia|].
  rewrite Hp.
  destruct (flag && Py.gtb LESIONS_DETECT_THRESH p); [apply IH; lia|].
  destruct (bucket_of raw); apply IH; lia.
Qed.

Lemma collect_conditions_zip (probs : list Q) (classes : list string) :
  forall (i : nat) (out : Py.dict (list Q)),
    (i + length classes <= length probs)%nat ->
    collect_conditions_from i classes probs out
    = Py.Ok (fold_left (collect_step condition_bucket)
               (combine classes (skipn i probs)) out).
Proof.
  induction classes as [|raw rest IH]; intros i out Hlen; [reflexivity|].
  simpl in Hlen.
  destruct (nth_error_in_range probs i ltac:(lia)) as [p Hp].
  rewrite (skipn_cons_nth _ _ _ Hp). cbn [combine fold_left].
  cbn [collect_conditions_from]. unfold collect_step at 2, condition_bucket.
  cbn [fst snd].
  destruct (existsb (String.eqb raw) IGNORE_CLASSES); [apply IH; lia|].
  destruct (truthy (canonical_skin_name raw)); [apply IH; lia|].
  destruct (bucket_of raw); [rewrite Hp|]; apply IH; lia.
Qed.

End BucketFacts.

(** X24.  When every lesion label has a probability,
    collect_concerns_from_lesions does not raise, and each bucket of its
    result holds, in label order, exactly the probabilities of the labels
    that are not ignored, have that bucket in CONCERN_MAP and, when the
    threshold flag is set, reach LESIONS_DETECT_THRESH; a bucket without
    such a label is no key of the result. *)
Theorem lesion_buckets_characterised (labels : list string) (probs : list Q)
    (use_threshold_for_collect : bool) :
  (length labels <= length probs)%nat ->
  exists out,
    Combined_Predict.collect_concerns_from_lesions labels probs
      use_threshold_for_collect = Py.Ok out
    /\ forall b,
         Py.get_default out b []
         = contributions (lesion_bucket use_threshold_for_collect) b
             (combine labels probs)
         /\ (Py.get out b = None <->
             contributions (lesion_bucket use_threshold_for_collect) b
               (combine labels probs) = []).
Proof.
  intro Hlen. unfold Combined_Predict.collect_concerns_from_lesions.
  rewrite collect_lesions_zip by (simpl; lia). cbn [skipn].
  eexists. split; [reflexivity|]. intro b. split.
  - rewrite collect_fold_get. reflexivity.
  - rewrite collect_fold_absent. simpl. tauto.
Qed.

Lemma lesion_buckets_characterised_witness :
  exists out,
    Combined_Predict.collect_concerns_from_lesions
      ["Papule"; "Do not consider this image"; "Excoriation"; "Papule"]
      [0.4; 0.9; 0.8; 0.1] false = Py.Ok out
    /\ forall b,
         Py.get_default out b []
         = contributions (lesion_bucket false) b
             (combine
                ["Papule"; "Do not consider this image"; "Excoriation"; "Papule"]
                [0.4; 0.9; 0.8; 0.1])
         /\ (Py.get out b = None <->
             contributions (lesion_bucket false) b
               (combine
                  ["Papule"; "Do not consider this image"; "Excoriation";
                   "Papule"]
                  [0.4; 0.9; 0.8; 0.1]) = []).
Proof.
  apply (lesion_buckets_characterised
           ["Papule"; "Do not consider this image"; "Excoriation"; "Papule"]
           [0.4; 0.9; 0.8; 0.1] false).
  simpl. lia.
Defined.

(** X25.  When every class has a probability,
    collect_concerns_from_conditions does not raise, and each bucket of its
    result holds, in class order, exactly the probabilities of the classes
    that are not ignored, are no alias of a skin type and have that bucket
    in CONCERN_MAP; a bucket without such a class is no key of the
    result. *)
Theorem condition_buckets_characterised (classes : list string)
    (probs : list Q) :
  (length classes <= length probs)%nat ->
  exists out,
    Combined_Predict.collect_concerns_from_conditions classes probs = Py.Ok out
    /\ forall b,
         Py.get_default out b []
         = contributions condition_bucket b (combine classes probs)
         /\ (Py.get out b = None <->
             contributions condition_bucket b (combine classes probs) = []).
Proof.
  intro Hlen. unfold Combined_Predict.collect_concerns_from_conditions.
  rewrite collect_conditions_zip by (simpl; lia). cbn [skipn].
  eexists. split; [reflexivity|]. intro b. split.
  - rewrite collect_fold_get. reflexivity.
  - rewrite collect_fold_absent. simpl. tauto.
Qed.

Lemma condition_buckets_characterised_witness :
  exists out,
    Combined_Predict.collect_concerns_from_conditions
      ["Acne"; "Oily Skin"; "Wrinkles"] [0.4; 0.9; 0.1] = Py.Ok out
    /\ forall b,
         Py.get_default out b []
         = contributions condition_bucket b
             (combine ["Acne"; "Oily Skin"; "Wrinkles"] [0.4; 0.9; 0.1])
         /\ (Py.get out b = None <->
             contributions condition_bucket b
               (combine ["Acne"; "Oily Skin"; "Wrinkles"] [0.4; 0.9; 0.1])
             = []).
Proof.
  apply (condition_buckets_characterised
           ["Acne"; "Oily Skin"; "Wrinkles"] [0.4; 0.9; 0.1]).
  simpl. lia.
Defined.

(** ** Combining the buckets of the two models *)

Section CombineBucketFacts.
Import Combined_Predict.

Lemma fold_set_get {V : Type} (f : string -> V) (order : list string) :
  forall (m : Py.dict V) (k : string),
    Py.get (fold_left (fun m k' => Py.set m k' (f k')) order m) k
    = if existsb (String.eqb k) order then Some (f k) else Py.get m k.
Proof.
  induction order as [|k0 rest IH]; intros m k; cbn [fold_left existsb].
  - reflexivity.
  - rewrite IH, get_set_cases.
    destruct (existsb (String.eqb k) rest); [rewrite orb_true_r; reflexivity|].
    rewrite orb_false_r, (String.eqb_sym k k0).
    destruct (String.eqb_spec k0 k) as [->|Hne]; reflexivity.
Qed.

Lemma mem_false_default {V : Type} (d : Py.dict (list V)) (k : string) :
  Py.mem d k = false -> Py.get_default d k [] = [].
Proof.
  unfold Py.mem, Py.get_default. destruct (Py.get d k); [discriminate|].
  reflexivity.
Qed.

(** The values gathered for a key are its bucket of [a] followed by its
    bucket of [b]. *)
Lemma gathered_values (a b : Py.dict (list Q)) (k : string) :
  (let vals := [] in
   let vals := if Py.mem a k then vals ++ Py.get_default a k [] else vals in
   let vals := if Py.mem b k then vals ++ Py.get_default b k [] else vals in
   vals)
  = Py.get_default a k [] ++ Py.get_default b k [].
Proof.
  cbv zeta.
  destruct (Py.mem a k) eqn:Ea, (Py.mem b k) eqn:Eb;
    try rewrite (mem_false_default a k Ea);
    try rewrite (mem_false_default b k Eb);
    rewrite ?app_nil_r; reflexivity.
Qed.

Lemma combine_buckets_get (order : list string) (a b : Py.dict (list Q))
    (k : string) :
  Py.get (combine_concern_buckets order a b) k
  = if existsb (String.eqb k) order
    then Some (combine_probs COMBINE_METHOD
                 (Py.get_default a k [] ++ Py.get_default b k []))
    else None.
Proof.
  unfold combine_concern_buckets.
  pose (f := fun k : string =>
               combine_probs COMBINE_METHOD
                 (let vals := [] in
                  let vals := if Py.mem a k
                              then vals ++ Py.get_default a k []
                              else vals in
                  let vals := if Py.mem b k
                              then vals ++ Py.get_default b k []
                              else vals in
                  vals)).
  change (Py.get (fold_left (fun m k' => Py.set m k' (f k')) order []) k
          = if existsb (String.eqb k) order
            then Some (combine_probs COMBINE_METHOD
                         (Py.get_default a k [] ++ Py.get_default b k []))
            else None).
  rewrite fold_set_get. unfold f. rewrite gathered_values. reflexivity.
Qed.

End CombineBucketFacts.

(** X26.  Whatever order the set of keys is iterated in,
    combine_concern_buckets maps every key of either input to the combined
    value of its bucket of the first input followed by its bucket of the
    second, and holds no other key; the result's content does not depend
    on the iteration order. *)
Theorem combine_buckets_lookup (order : list string)
    (a b : Py.dict (list Q)) :
  (forall k, In k order <-> Py.mem a k = true \/ Py.mem b k = true) ->
  forall k,
    Py.get (Combined_Predict.combine_concern_buckets order a b) k
    = if Py.mem a k || Py.mem b k
      then Some (Combined_Predict.combine_probs Combined_Predict.COMBINE_METHOD
                   (Py.get_default a k [] ++ Py.get_default b k []))
      else None.
Proof.
  intros Horder k. rewrite combine_buckets_get.
  assert (Hex : existsb (String.eqb k) order = Py.mem a k || Py.mem b k).
  { destruct (Py.mem a k || Py.mem b k) eqn:E.
    - apply existsb_exists. exists k. split; [|apply String.eqb_refl].
      apply Horder. apply orb_true_iff, E.
    - apply not_true_iff_false. intro Hex.
      apply existsb_exists in Hex as [x [Hin Hx]].
      apply String.eqb_eq in Hx. subst x.
      apply Horder, orb_true_iff in Hin. congruence. }
  rewrite Hex. reflexivity.
Qed.

Lemma combine_buckets_lookup_witness :
  Py.get
    (Combined_Predict.combine_concern_buckets
       ["Scarring"; "Acne & Breakouts"]
       [ ("Acne & Breakouts", [0.2]) ]
       [ ("Acne & Breakouts", [0.5; 0.1]); ("Scarring", [0.3]) ])
    "Acne & Breakouts"
  = if Py.mem [ ("Acne & Breakouts", [0.2]) ] "Acne & Breakouts"
       || Py.mem [ ("Acne & Breakouts", [0.5; 0.1]); ("Scarring", [0.3]) ]
            "Acne & Breakouts"
    then Some (Combined_Predict.combine_probs Combined_Predict.COMBINE_METHOD
                 (Py.get_default [ ("Acne & Breakouts", [0.2]) ]
                    "Acne & Breakouts" []
                  ++ Py.get_default
                       [ ("Acne & Breakouts", [0.5; 0.1]); ("Scarring", [0.3]) ]
                       "Acne & Breakouts" []))
    else None.
Proof.
  apply (combine_buckets_lookup
           ["Scarring"; "Acne & Breakouts"]
           [ ("Acne & Breakouts", [0.2]) ]
           [ ("Acne & Breakouts", [0.5; 0.1]); ("Scarring", [0.3]) ]).
  intro k. unfold Py.mem. cbn [Py.get In].
  destruct (String.eqb_spec "Acne & Breakouts" k) as [<-|Hne].
  - split; intros _; [left; reflexivity | right; left; reflexivity].
  - destruct (String.eqb_spec "Scarring" k) as [<-|Hne'].
    + split; intros _; [right; reflexivity | left; reflexivity].
    + split.
      * intros [H|[H|[]]]; congruence.
      * intros [H|H]; discriminate H.
Defined.

(** ** The script's tiers *)

Section MainTierFacts.
Import Combined_Predict.

Lemma main_tiers_eq (combined_concerns : Py.dict Q) :
  main_tiers combined_concerns
  = (firstn 25 (Py.sort snd true (filter in_main_band combined_concerns)),
     firstn 25 (Py.sort snd true (filter in_low_band combined_concerns))).
Proof.
  unfold main_tiers, FINAL_TOPK_MAIN, FINAL_TOPK_LOW. cbv zeta.
  rewrite !sort_neg_key. reflexivity.
Qed.

Lemma sorted_app_le {A : Type} (key : A -> Q) (l1 l2 : list A) :
  StronglySorted (Py.descending key) (l1 ++ l2) ->
  forall x y, In x l1 -> In y l2 -> key y <= key x.
Proof.
  induction l1 as [|a l1 IH]; intros Hs x y Hx Hy; [destruct Hx|].
  simpl in Hs. inversion Hs as [|? ? Hs' Hall]; subst.
  destruct Hx as [<-|Hx].
  - rewrite Forall_forall in Hall. apply Hall, in_or_app. right. exact Hy.
  - exact (IH Hs' x y Hx Hy).
Qed.

(** A cut of a ranking keeps an item or keeps only items that are not
    below it. *)
Lemma cut_keeps_best {A : Type} (key : A -> Q) (n : nat) (l : list A) (x : A) :
  In x (Py.sort key true l) ->
  In x (firstn n (Py.sort key true l))
  \/ (length (firstn n (Py.sort key true l)) = n
      /\ forall y, In y (firstn n (Py.sort key true l)) -> key x <= key y).
Proof.
  pose proof (sort_descending key l) as Hs.
  set (s := Py.sort key true l) in *. intro Hx.
  rewrite <- (firstn_skipn n s) in Hx, Hs.
  apply in_app_or in Hx as [Hx|Hx]; [left; exact Hx|].
  right. split.
  - apply firstn_length_le.
    destruct (Nat.le_gt_cases n (length s)) as [Hle|Hgt]; [exact Hle|].
    rewrite skipn_all2 in Hx by lia. destruct Hx.
  - intros y Hy. exact (sorted_app_le key _ _ Hs y x Hy Hx).
Qed.

End MainTierFacts.

(** X27.  The script's main list holds only concerns with probability at
    least FINAL_MIN_PROB - EPSILON and its low list only concerns strictly
    between EPSILON and FINAL_MIN_PROB - EPSILON (both ends excluded); each
    list is sorted descending and has at most 25 items; and a concern of a
    band that is cut off is not above any concern that is kept. *)
Theorem script_tiers_characterised (combined_concerns : Py.dict Q) :
  let res := Combined_Predict.main_tiers combined_concerns in
  let bound := Combined_Predict.FINAL_MIN_PROB - Combined_Predict.EPSILON in
  (forall kv, In kv (fst res) -> In kv combined_concerns /\ bound <= snd kv)
  /\ (forall kv, In kv (snd res) ->
        In kv combined_concerns
        /\ Combined_Predict.EPSILON < snd kv /\ snd kv < bound)
  /\ (length (fst res) <= 25)%nat /\ (length (snd res) <= 25)%nat
  /\ StronglySorted (Py.descending snd) (fst res)
  /\ StronglySorted (Py.descending snd) (snd res)
  /\ (forall kv, In kv combined_concerns -> bound <= snd kv ->
        In kv (fst res)
        \/ (length (fst res) = 25%nat
            /\ forall kv', In kv' (fst res) -> snd kv <= snd kv'))
  /\ (forall kv, In kv combined_concerns ->
        Combined_Predict.EPSILON < snd kv -> snd kv < bound ->
        In kv (snd res)
        \/ (length (snd res) = 25%nat
            /\ forall kv', In kv' (snd res) -> snd kv <= snd kv')).
Proof.
  intros res bound. unfold res. rewrite main_tiers_eq. cbn [fst snd].
  assert (Hmain : forall kv, in_main_band kv = true <-> bound <= snd kv).
  { intro kv. unfold in_main_band. apply geb_true_iff. }
  assert (Hlow : forall kv, in_low_band kv = true
                 <-> Combined_Predict.EPSILON < snd kv /\ snd kv < bound).
  { intro kv. unfold in_low_band.
    rewrite andb_true_iff, !gtb_true_iff. tauto. }
  split; [|split; [|split; [|split; [|split; [|split; [|split]]]]]].
  - intros kv Hkv. apply firstn_In, sort_In, filter_In in Hkv as [Hin Hb].
    split; [exact Hin | apply Hmain, Hb].
  - intros kv Hkv. apply firstn_In, sort_In, filter_In in Hkv as [Hin Hb].
    split; [exact Hin | apply Hlow, Hb].
  - apply firstn_le_length.
  - apply firstn_le_length.
  - apply firstn_sorted, sort_descending.
  - apply firstn_sorted, sort_descending.
  - intros kv Hin Hb. apply cut_keeps_best, sort_In, filter_In.
    split; [exact Hin | apply Hmain, Hb].
  - intros kv Hin He Hb. apply cut_keeps_best, sort_In, filter_In.
    split; [exact Hin | apply Hlow; split; assumption].
Qed.

(** ** Ranking the output of a model *)

Section RankFacts.

Lemma map_sorted {A B : Type} (f : A -> B) (key : A -> Q) (key' : B -> Q)
    (l : list A) :
  (forall x, key' (f x) = key x) ->
  StronglySorted (Py.descending key) l ->
  StronglySorted (Py.descending key') (map f l).
Proof.
  intros Hkey Hs. induction Hs as [|a l Hs IH Hall]; simpl; constructor.
  - exact IH.
  - rewrite Forall_forall in *. intros y Hy.
    apply in_map_iff in Hy as [x [<- Hx]].
    unfold Py.descending in *. rewrite !Hkey. apply Hall, Hx.
Qed.

Lemma ranked_pairs_sorted (labels : list string) (probs_np : list Q)
    (topk : option Z) :
  StronglySorted (Py.descending snd)
    (match topk with
     | Some k => Py.slice_to k (Py.sort snd true (combine labels probs_np))
     | None => Py.sort snd true (combine labels probs_np)
     end).
Proof.
  destruct topk as [k|]; [|apply sort_descending].
  destruct (slice_to_firstn k (Py.sort snd true (combine labels probs_np)))
    as [n ->].
  apply firstn_sorted, sort_descending.
Qed.

End RankFacts.

(** X28.  The results a model runner returns are sorted descending by
    probability, top is the first of them (None exactly when there is
    none), no result is above top, a non-negative topk bounds their number,
    and without topk they are a permutation of the labels paired with their
    probabilities. *)
Theorem predict_ranked_characterised (labels : list string)
    (probs_np : list Q) (topk : option Z) :
  let res := predict_ranked labels probs_np topk in
  let named :=
    match labels with
    | [] => map class_name (seq 0 (length probs_np))
    | _ :: _ => labels
    end in
  StronglySorted (Py.descending prob) (fst res)
  /\ snd res = match fst res with
               | [] => None
               | d :: _ => Some (label d, prob d)
               end
  /\ (forall t d, snd res = Some t -> In d (fst res) -> prob d <= snd t)
  /\ (forall k, topk = Some k -> (0 <= k)%Z ->
                (length (fst res) <= Z.to_nat k)%nat)
  /\ (topk = None ->
      Permutation (fst res)
        (map (fun x => {| label := fst x; prob := snd x |})
           (combine named probs_np))).
Proof.
  intros res named. unfold res, predict_ranked. fold named. cbv zeta.
  cbn [fst snd].
  pose proof (ranked_pairs_sorted named probs_np topk) as Hs.
  set (pairs := match topk with
                | Some k => Py.slice_to k (Py.sort snd true (combine named probs_np))
                | None => Py.sort snd true (combine named probs_np)
                end) in *.
  assert (Hsorted : StronglySorted (Py.descending prob)
                      (map (fun x => {| label := fst x; prob := snd x |}) pairs)).
  { apply (map_sorted _ snd prob); [reflexivity | exact Hs]. }
  split; [exact Hsorted|]. split; [destruct pairs as [|[n p] rest]; reflexivity|].
  split; [|split].
  - intros t d Ht Hd. destruct pairs as [|[n p] rest]; [discriminate|].
    injection Ht as <-. simpl in Hsorted, Hd.
    inversion Hsorted as [|? ? _ Hall]; subst.
    destruct Hd as [<-|Hd]; [apply Qle_refl|].
    rewrite Forall_forall in Hall. apply (Hall d Hd).
  - intros k Hk Hk0. rewrite length_map. unfold pairs. rewrite Hk.
    apply slice_to_length, Hk0.
  - intro Hnone. unfold pairs. rewrite Hnone.
    apply Permutation_map, sort_perm.
Qed.

(** ** When the script's picker raises *)

Section PickerRaiseFacts.
Import Combined_Predict.
Variable probs : list Q.

Lemma collect_skin_items_raise (classes : list string) :
  forall (i : nat) (acc : list (string * Q)),
    (forall e, collect_skin_items i classes probs acc = Py.Raise e ->
               e = Py.IndexError)
    /\ (collect_skin_items i classes probs acc = Py.Raise Py.IndexError
        <-> exists j name,
              nth_error classes j = Some name
              /\ canonical_skin_name name <> None
              /\ (length probs <= i + j)%nat).
Proof.
  induction classes as [|name rest IH]; intros i acc.
  - simpl. split; [discriminate|]. split; [discriminate|].
    intros (j & n & Hn & _). destruct j; discriminate.
  - cbn [collect_skin_items].
    destruct (canonical_skin_name name) as [canon|] eqn:Ec.
    + rewrite (canonical_in_skin_set _ _ Ec).
      destruct (nth_error probs i) as [p|] eqn:Ep.
      * destruct (IH (S i) (acc ++ [(canon, p)])) as [Hexn Hiff].
        split; [exact Hexn|]. rewrite Hiff. split.
        -- intros (j & n & Hn & Hc & Hlen). exists (S j), n.
           split; [exact Hn|]. split; [exact Hc | lia].
        -- intros (j & n & Hn & Hc & Hlen). destruct j as [|j].
           ++ exfalso. assert (nth_error probs i <> None) by congruence.
              apply nth_error_Some in H. lia.
           ++ exists j, n. split; [exact Hn|]. split; [exact Hc | lia].
      * split; [intros e [= <-]; reflexivity|].
        split; [|reflexivity]. intros _. exists 0%nat, name.
        split; [reflexivity|]. split; [congruence|].
        apply nth_error_None in Ep. lia.
    + destruct (IH (S i) acc) as [Hexn Hiff].
      split; [exact Hexn|]. rewrite Hiff. split.
      * intros (j & n & Hn & Hc & Hlen). exists (S j), n.
        split; [exact Hn|]. split; [exact Hc | lia].
      * intros (j & n & Hn & Hc & Hlen). destruct j as [|j].
        -- simpl in Hn. injection Hn as <-. congruence.
        -- exists j, n. split; [exact Hn|]. split; [exact Hc | lia].
Qed.

End PickerRaiseFacts.

(** X29.  The script's pick_skin_type raises exactly when some class that
    is an alias of a skin type stands at an index without a probability,
    and then it is an IndexError; a class that is no alias of a skin type
    never makes it raise, wherever it stands. *)
Theorem script_pick_skin_type_raises (classes : list string)
    (probs : list Q) :
  (forall e, Combined_Predict.pick_skin_type classes probs = Py.Raise e ->
             e = Py.IndexError)
  /\ (Py.raises (Combined_Predict.pick_skin_type classes probs)
      <-> exists j name,
            nth_error classes j = Some name
            /\ Combined_Predict.canonical_skin_name name <> None
            /\ (length probs <= j)%nat).
Proof.
  destruct (collect_skin_items_raise probs classes 0 []) as [Hexn Hiff].
  unfold Combined_Predict.pick_skin_type, Py.raises.
  destruct (Combined_Predict.collect_skin_items 0 classes probs [])
    as [items|ex] eqn:Ecol.
  - assert (Hnot : ~ exists j name,
               nth_error classes j = Some name
               /\ Combined_Predict.canonical_skin_name name <> None
               /\ (length probs <= j)%nat).
    { intro H. apply Hiff in H. discriminate. }
    split.
    + intros e He.
      destruct (Py.sort (fun z => - snd z) false items); discriminate.
    + split; [|intro H; exfalso; exact (Hnot H)].
      intros [e He].
      destruct (Py.sort (fun z => - snd z) false items); discriminate.
  - pose proof (Hexn ex eq_refl) as ->.
    split; [intros e [= <-]; reflexivity|].
    split; [intros _; apply Hiff; reflexivity | intros _; eexists; reflexivity].
Qed.
